(** * calorieApp: nutrition resolution and adaptive correction

    A shallow embedding of the calorie / nutrition resolution engine
    ([enhanced_food_database.py], [web_search_nutrition.py],
    [calorie_calculator.py], [hyper_accurate_calculator.py]) and of the
    learning adjuster of [app.py], followed by the properties of the
    specification that are about them.

    Conventions of the embedding.
    - Python numbers (int, float, Decimal) are rationals [Q]; arithmetic is
      exact, comparisons are the rational ones, and [round(x, n)] is
      rounding to [n] decimals with ties to even.  Equality of numbers in
      statements is [==].
      The exception is the module [Binary64]: the thresholds of the
      adjuster are sensitive to the rounding of [float], so its step 4 and
      its category step are embedded there in IEEE double precision.
    - Python [str] is [string] (ASCII); [in] on strings is substring
      containment.
    - A [dict] iterated in insertion order is an association list.
    - A key that may be absent, or a column that may be NULL, is an
      [option]; Python truthiness of such a number is [truthy].
    - Code that may raise lives in the error monad [exc]; a [try/except]
      is a [match] on the outcome. *)

From Stdlib Require Import QArith Qround Qabs ZArith String Ascii List Bool Lia Lqa.
From Stdlib Require PrimFloat.
Import ListNotations.

Set Warnings "-inexact-float".

Local Open Scope Q_scope.
Local Open Scope string_scope.

(* ================================================================== *)
(** * Python primitives *)
(* ================================================================== *)

Module Py.

(** ** Exceptions *)

Inductive exc (A : Type) : Type :=
| Return (a : A)
| Raise (e : string).
Arguments Return {A} a.
Arguments Raise {A} e.

Definition bind {A B : Type} (m : exc A) (k : A -> exc B) : exc B :=
  match m with
  | Return a => k a
  | Raise e => Raise e
  end.

(** [try: m except Exception: h] *)
Definition try_except {A : Type} (m : exc A) (h : A) : A :=
  match m with
  | Return a => a
  | Raise _ => h
  end.

Definition raises {A : Type} (m : exc A) : bool :=
  match m with
  | Return _ => false
  | Raise _ => true
  end.

(** ** Numbers *)

(** [a / b] on floats. *)
Definition truediv (a b : Q) : exc Q :=
  if Qeq_bool b 0 then Raise "ZeroDivisionError" else Return (a / b).

Definition Qlt_bool (a b : Q) : bool := negb (Qle_bool b a).

(** Truthiness of an optional number: [None] and zero are falsy. *)
Definition truthy (x : option Q) : bool :=
  match x with
  | Some q => negb (Qeq_bool q 0)
  | None => false
  end.

(** [float(x)] of an optional number; [float(None)] is a [TypeError]. *)
Definition float (x : option Q) : exc Q :=
  match x with
  | Some q => Return q
  | None => Raise "TypeError"
  end.

(** [d.get(key, default)] on an optional numeric entry. *)
Definition get (x : option Q) (default : Q) : Q :=
  match x with
  | Some q => q
  | None => default
  end.

(** Nearest integer, ties to the even one. *)
Definition round_half_even (x : Q) : Z :=
  let f := Qfloor x in
  match Qcompare (x - inject_Z f) (1 # 2) with
  | Lt => f
  | Gt => (f + 1)%Z
  | Eq => if Z.even f then f else (f + 1)%Z
  end.

Definition pow10 (n : nat) : Q := inject_Z (10 ^ Z.of_nat n).

(** [round(x, ndigits)] *)
Definition round (x : Q) (ndigits : nat) : Q :=
  inject_Z (round_half_even (x * pow10 ndigits)) / pow10 ndigits.

Fixpoint sum (l : list Q) : Q :=
  match l with
  | [] => 0
  | x :: r => x + sum r
  end.

Definition len {A : Type} (l : list A) : Q := inject_Z (Z.of_nat (List.length l)).

(** ** Strings *)

Definition lower_ascii (c : ascii) : ascii :=
  let n := nat_of_ascii c in
  if ((65 <=? n) && (n <=? 90))%nat then ascii_of_nat (n + 32) else c.

(** [s.lower()] *)
Fixpoint lower (s : string) : string :=
  match s with
  | EmptyString => EmptyString
  | String c r => String (lower_ascii c) (lower r)
  end.

(** [needle in hay] *)
Definition contains (needle hay : string) : bool :=
  match String.index 0 needle hay with
  | Some _ => true
  | None => false
  end.

(** [hay.startswith(p)] *)
Definition startswith (p hay : string) : bool := String.prefix p hay.

(** ASCII whitespace as [str.isspace] sees it. *)
Definition isspace (c : ascii) : bool :=
  let n := nat_of_ascii c in
  (((9 <=? n) && (n <=? 13)) || ((28 <=? n) && (n <=? 32)))%nat.

Fixpoint lstrip (s : string) : string :=
  match s with
  | EmptyString => EmptyString
  | String c r => if isspace c then lstrip r else s
  end.

Fixpoint rstrip (s : string) : string :=
  match s with
  | EmptyString => EmptyString
  | String c r =>
      match rstrip r with
      | EmptyString => if isspace c then EmptyString else String c EmptyString
      | r' => String c r'
      end
  end.

(** [s.strip()] *)
Definition strip (s : string) : string := rstrip (lstrip s).

(** [s.split()]: the maximal runs of non-whitespace characters.
    [cur] is the run being read. *)
Fixpoint split_aux (s : string) (cur : string) : list string :=
  match s with
  | EmptyString =>
      match cur with
      | EmptyString => []
      | _ => [cur]
      end
  | String c r =>
      if isspace c then
        match cur with
        | EmptyString => split_aux r EmptyString
        | _ => cur :: split_aux r EmptyString
        end
      else split_aux r (cur ++ String c EmptyString)
  end.

Definition split (s : string) : list string := split_aux s EmptyString.

(** [sep.join(l)] *)
Fixpoint join (sep : string) (l : list string) : string :=
  match l with
  | [] => EmptyString
  | [x] => x
  | x :: r => x ++ sep ++ join sep r
  end.

(** [any(w in s for w in words)] *)
Definition any_in (words : list string) (s : string) : bool :=
  existsb (fun w => contains w s) words.

(** ** Sets of words, as duplicate-free lists *)

Definition mem (x : string) (l : list string) : bool :=
  existsb (String.eqb x) l.

(** [set(l)] *)
Fixpoint set (l : list string) : list string :=
  match l with
  | [] => []
  | x :: r => if mem x r then set r else x :: set r
  end.

(** [a & b] *)
Definition inter (a b : list string) : list string :=
  filter (fun x => mem x b) a.

(** ** Dictionaries in insertion order *)

Section Dict.
Context {V : Type}.

Fixpoint lookup (k : string) (d : list (string * V)) : option V :=
  match d with
  | [] => None
  | (k', v) :: r => if String.eqb k k' then Some v else lookup k r
  end.

(** [d[k] = v]: an existing key keeps its place. *)
Fixpoint store (k : string) (v : V) (d : list (string * V)) : list (string * V) :=
  match d with
  | [] => [(k, v)]
  | (k', v') :: r =>
      if String.eqb k k' then (k', v) :: r else (k', v') :: store k v r
  end.

Definition values (d : list (string * V)) : list V := map snd d.
Definition keys (d : list (string * V)) : list string := map fst d.
End Dict.

End Py.

Import Py.

Notation "x <- m ;; k" := (Py.bind m (fun x => k))
  (at level 61, m at next level, right associativity).

(* ================================================================== *)
(** * Records shared by the resolvers *)
(* ================================================================== *)

(** The input of the resolver, [recognition_result]; the three keys are
    read with a default or may be missing. *)
Record recognition_result : Type := mk_recognition {
  primary_food : option string;
  estimated_weight : option Q;
  all_foods : option (list string)
}.

(** The dict a resolver returns.  Keys some producers leave out are
    optional; the descriptive keys ([brand], [source], [accuracy],
    [serving_description], the [web_search_*] flags) are not modelled. *)
Record nutrition_dict : Type := mk_nutrition {
  food_name : option string;
  weight_grams : Q;
  total_calories : Q;
  protein : Q;
  carbs : Q;
  fat : Q;
  fiber : option Q;
  sugar : option Q;
  sodium : option Q;
  data_source : string;
  confidence_score : option Q
}.

Definition set_data_source (d : nutrition_dict) (s : string) : nutrition_dict :=
  mk_nutrition (food_name d) (weight_grams d) (total_calories d) (protein d)
    (carbs d) (fat d) (fiber d) (sugar d) (sodium d) s (confidence_score d).

(* ================================================================== *)
(** * enhanced_food_database.py *)
(* ================================================================== *)

Module EnhancedFoodDatabase.

Record food_entry : Type := mk_entry {
  calories_per_100g : Q;
  protein_per_100g : option Q;
  carbs_per_100g : option Q;
  fat_per_100g : option Q;
  typical_weight : option Q;
  typical_calories : option Q
}.

Definition entry (cal p c f tw tc : Q) : food_entry :=
  mk_entry cal (Some p) (Some c) (Some f) (Some tw) (Some tc).

Definition ENHANCED_FOOD_DATABASE : list (string * food_entry) :=
  [
   ("big mac", entry 257 13 20 17 222 570);
   ("bigmac", entry 257 13 20 17 222 570);
   ("mcdonald big mac", entry 257 13 20 17 222 570);
   ("quarter pounder", entry 265 15 22 16 194 515);
   ("mcchicken", entry 208 12 20 11 143 400);
   ("chicken mcnuggets", entry 300 18 13 20 77 230);
   ("whopper", entry 250 13 22 15 291 660);
   ("burger king whopper", entry 250 13 22 15 291 660);
   ("baconator", entry 349 20 25 23 275 960);
   ("wendys baconator", entry 349 20 25 23 275 960);
   ("son of baconator", entry 290 18 23 18 200 580);
   ("pizza slice", entry 266 11 33 10 100 285);
   ("pepperoni pizza", entry 298 12 30 15 120 358);
   ("cheese pizza", entry 276 12 33 11 100 276);
   ("margherita pizza", entry 250 11 32 9 120 300);
   ("apple", entry 52 0.3 14 0.2 150 78);
   ("banana", entry 89 1.1 23 0.3 120 107);
   ("rice and beans", entry 135 4.5 24 2 200 270);
   ("rice", entry 130 2.7 28 0.3 150 195);
   ("caesar salad", entry 90 3.5 6 7 200 180);
   ("green salad", entry 20 1.5 4 0.2 100 20);
   ("grilled chicken", entry 165 31 0 3.6 120 198);
   ("fried chicken", entry 320 19 8 24 100 320);
   ("sandwich", entry 250 12 30 10 150 375);
   ("club sandwich", entry 280 15 25 15 200 560);
   ("burrito", entry 206 8 28 7 220 453);
   ("quesadilla", entry 234 11 22 12 150 351);
   ("taco", entry 206 10 18 11 70 144);
   ("roti", entry 299 9 50 8 40 120);
   ("chapati", entry 299 9 50 8 40 120);
   ("naan", entry 310 9 45 12 80 248);
   ("dal", entry 130 8 20 2 150 195);
   ("dal curry", entry 130 8 20 2 150 195);
   ("lentil curry", entry 130 8 20 2 150 195);
   ("roti and dal", entry 180 8 30 4 240 432);
   ("rice and dal", entry 135 5 25 2 250 338);
   ("pasta with sauce", entry 131 5 25 1.1 250 328);
   ("spaghetti", entry 158 6 31 1 200 316);
   ("pancakes", entry 227 6 28 9 80 182);
   ("waffle", entry 291 8 33 14 75 218);
   ("french toast", entry 230 8 25 11 65 150)
  ].

Definition FOOD_CATEGORIES : list (string * list string) :=
  [ ("fast_food", ["big mac"; "bigmac"; "whopper"; "quarter pounder"; "mcchicken"; "baconator"; "son of baconator"]);
    ("pizza", ["pizza"; "pepperoni pizza"; "cheese pizza"; "margherita pizza"]);
    ("mexican", ["burrito"; "quesadilla"; "taco"; "salsa"]);
    ("asian", ["rice"; "noodles"; "sushi"; "stir fry"]);
    ("indian", ["roti"; "chapati"; "naan"; "dal"; "curry"; "biryani"; "tandoori"; "roti and dal"; "rice and dal"]);
    ("breakfast", ["pancakes"; "waffle"; "french toast"; "eggs"; "bacon"]);
    ("salads", ["caesar salad"; "green salad"; "garden salad"]);
    ("sandwiches", ["sandwich"; "club sandwich"; "blt"; "grilled cheese"])
  ].

(** The fuzzy pass: the first key that contains the label or is contained
    in it. *)
Fixpoint fuzzy_match (food_lower : string) (db : list (string * food_entry))
  : option food_entry :=
  match db with
  | [] => None
  | (food_key, nutrition) :: r =>
      if contains food_lower food_key || contains food_key food_lower
      then Some nutrition
      else fuzzy_match food_lower r
  end.

(** The inner loop of the category pass over one category's foods. *)
Fixpoint category_foods_match (food_lower : string) (foods : list string)
  : option food_entry :=
  match foods with
  | [] => None
  | food :: r =>
      if contains food food_lower || contains food_lower food then
        match lookup food ENHANCED_FOOD_DATABASE with
        | Some e => Some e
        | None => category_foods_match food_lower r
        end
      else category_foods_match food_lower r
  end.

Fixpoint category_match (food_lower : string) (cats : list (string * list string))
  : option food_entry :=
  match cats with
  | [] => None
  | (_, foods) :: r =>
      match category_foods_match food_lower foods with
      | Some e => Some e
      | None => category_match food_lower r
      end
  end.

Definition get_enhanced_nutrition_data (food_name : string) : option food_entry :=
  let food_lower := strip (lower food_name) in
  match lookup food_lower ENHANCED_FOOD_DATABASE with
  | Some e => Some e
  | None =>
      match fuzzy_match food_lower ENHANCED_FOOD_DATABASE with
      | Some e => Some e
      | None => category_match food_lower FOOD_CATEGORIES
      end
  end.

(** The calories line of [calculate_accurate_calories], before rounding. *)
Definition accurate_calories (nutrition_data : food_entry) (weight_grams : Q) : Q :=
  match typical_calories nutrition_data, typical_weight nutrition_data with
  | Some tc, Some tw =>
      if Qeq_bool weight_grams tw then tc
      else calories_per_100g nutrition_data * (weight_grams / 100)
  | _, _ => calories_per_100g nutrition_data * (weight_grams / 100)
  end.

Definition calculate_accurate_calories (food_name : string) (weight_grams : option Q)
  : option nutrition_dict :=
  match get_enhanced_nutrition_data food_name with
  | Some nutrition_data =>
      let weight_grams :=
        match weight_grams with
        | None => get (typical_weight nutrition_data) 100
        | Some w => w
        end in
      let calories := accurate_calories nutrition_data weight_grams in
      Some (mk_nutrition None weight_grams
              (round calories 1)
              (round (get (protein_per_100g nutrition_data) 0 * (weight_grams / 100)) 1)
              (round (get (carbs_per_100g nutrition_data) 0 * (weight_grams / 100)) 1)
              (round (get (fat_per_100g nutrition_data) 0 * (weight_grams / 100)) 1)
              None None None
              "enhanced_database" None)
  | None => None
  end.

End EnhancedFoodDatabase.

(* ================================================================== *)
(** * web_search_nutrition.py *)
(* ================================================================== *)

Module WebSearchNutrition.

(** The JSON object of a reply to the fast-food prompt, which is also the
    shape of the dict [get_web_search_nutrition] returns. *)
Record web_data : Type := mk_web {
  w_error : bool;                       (* the key 'error' is present *)
  w_food_name : option string;
  w_calories : option Q;
  w_protein : option Q;
  w_carbs : option Q;
  w_fat : option Q;
  w_fiber : option Q;
  w_sugar : option Q;
  w_sodium : option Q;
  w_serving_weight_grams : option Q;
  w_confidence : option Q
}.

(** The JSON object of a reply to the general prompt. *)
Record general_data : Type := mk_general {
  g_error : bool;
  g_food_name : option string;
  g_calories_per_100g : option Q;
  g_protein_per_100g : option Q;
  g_carbs_per_100g : option Q;
  g_fat_per_100g : option Q;
  g_fiber_per_100g : option Q;
  g_sugar_per_100g : option Q;
  g_sodium_per_100g : option Q;
  g_confidence : option Q
}.

(** The chat service behind the client: for a food name, the JSON object
    parsed out of the reply to each of the two prompts.  [None] stands for
    every way of getting no object: the request raises or times out, the
    status is not 200, [_parse_nutrition_json] finds no object, or the
    object is empty.  The fields of an object have the JSON types both
    prompts prescribe, a number where a number is asked for; a field of
    another type, on which arithmetic raises into the handlers of the
    client and of [calculate_calories], is not part of the embedding. *)
Record chat_service : Type := mk_chat {
  fast_food_reply : string -> option web_data;
  general_reply : string -> option general_data
}.

Definition fast_food_chains : list string :=
  [ "mcdonalds"; "mcdonald"; "burger king"; "kfc"; "taco bell";
    "subway"; "pizza hut"; "dominos"; "starbucks"; "dunkin";
    "wendys"; "wendy"; "chipotle"; "five guys"; "in-n-out"; "jack in the box";
    "carl jr"; "hardees"; "arbys"; "dairy queen"; "sonic";
    "papa johns"; "little caesars"; "popeyes"; "chick-fil-a" ].

Definition _is_fast_food_item (food_name : string) : bool :=
  any_in fast_food_chains (lower food_name).

Definition web_search_keywords : list string :=
  [ "big mac"; "whopper"; "quarter pounder"; "mcchicken"; "baconator";
    "pizza"; "starbucks"; "frappuccino"; "latte";
    "branded"; "restaurant"; "chain" ].

Definition _needs_web_search (food_name : string) : bool :=
  any_in web_search_keywords (lower food_name).

Definition _scale_nutrition_data (nutrition_data : web_data) (target_weight : Q)
  : exc web_data :=
  let original_weight := get (w_serving_weight_grams nutrition_data) 100 in
  scale_factor <- truediv target_weight original_weight ;;
  Return (mk_web (w_error nutrition_data) (w_food_name nutrition_data)
            (Some (get (w_calories nutrition_data) 0 * scale_factor))
            (Some (get (w_protein nutrition_data) 0 * scale_factor))
            (Some (get (w_carbs nutrition_data) 0 * scale_factor))
            (Some (get (w_fat nutrition_data) 0 * scale_factor))
            (Some (get (w_fiber nutrition_data) 0 * scale_factor))
            (Some (get (w_sugar nutrition_data) 0 * scale_factor))
            (Some (get (w_sodium nutrition_data) 0 * scale_factor))
            (Some target_weight)
            (w_confidence nutrition_data)).

Section Client.
Variable chat : chat_service.

Definition _search_fast_food_nutrition (food_name : string) (estimated_weight : Q)
  : option web_data :=
  match fast_food_reply chat food_name with
  | Some nutrition_data =>
      if negb (w_error nutrition_data) then
        if truthy (Some estimated_weight)
           && negb (Qeq_bool estimated_weight
                      (get (w_serving_weight_grams nutrition_data) estimated_weight))
        then
          (* a ZeroDivisionError of the scaling is caught by the method *)
          try_except
            (scaled <- _scale_nutrition_data nutrition_data estimated_weight ;;
             Return (Some scaled))
            None
        else Some nutrition_data
      else None
  | None => None
  end.

Definition _search_general_nutrition (food_name : string) (estimated_weight : Q)
  : option web_data :=
  match general_reply chat food_name with
  | Some nutrition_data =>
      if negb (g_error nutrition_data) then
        let actual_weight :=
          if truthy (Some estimated_weight) then estimated_weight else 100 in
        let scale_factor := actual_weight / 100 in
        Some (mk_web false
                (Some match g_food_name nutrition_data with
                      | Some n => n
                      | None => food_name
                      end)
                (Some (get (g_calories_per_100g nutrition_data) 0 * scale_factor))
                (Some (get (g_protein_per_100g nutrition_data) 0 * scale_factor))
                (Some (get (g_carbs_per_100g nutrition_data) 0 * scale_factor))
                (Some (get (g_fat_per_100g nutrition_data) 0 * scale_factor))
                (Some (get (g_fiber_per_100g nutrition_data) 0 * scale_factor))
                (Some (get (g_sugar_per_100g nutrition_data) 0 * scale_factor))
                (Some (get (g_sodium_per_100g nutrition_data) 0 * scale_factor / 1000))
                (Some actual_weight)
                (Some (get (g_confidence nutrition_data) 0.7)))
      else None
  | None => None
  end.

Definition get_web_search_nutrition (food_name : string) (estimated_weight : Q)
  : option web_data :=
  if _is_fast_food_item food_name then
    _search_fast_food_nutrition food_name estimated_weight
  else if _needs_web_search food_name then
    _search_general_nutrition food_name estimated_weight
  else None.

Definition enhance_nutrition_with_web_search
  (recognition : recognition_result) (existing_calculation : nutrition_dict)
  : nutrition_dict :=
  let food_name :=
    match primary_food recognition with
    | Some n => n
    | None => ""
    end in
  let estimated_weight := get (estimated_weight recognition) 100 in
  let web_data := get_web_search_nutrition food_name estimated_weight in
  match web_data with
  | Some wd =>
      if Qlt_bool 0.8 (get (w_confidence wd) 0) then
        mk_nutrition
          (Some match w_food_name wd with
                | Some n => n
                | None => food_name
                end)
          (get (w_serving_weight_grams wd) estimated_weight)
          (round (get (w_calories wd) 0) 1)
          (round (get (w_protein wd) 0) 1)
          (round (get (w_carbs wd) 0) 1)
          (round (get (w_fat wd) 0) 1)
          (Some (round (get (w_fiber wd) 0) 1))
          (Some (round (get (w_sugar wd) 0) 1))
          (Some (round (get (w_sodium wd) 0) 3))
          "web_search_enhanced"
          (Some (get (w_confidence wd) 0.9))
      else
        set_data_source existing_calculation
          (data_source existing_calculation ++ "_web_verified")
  | None =>
      set_data_source existing_calculation
        (data_source existing_calculation ++ "_web_verified")
  end.

End Client.

End WebSearchNutrition.

(* ================================================================== *)
(** * calorie_calculator.py *)
(* ================================================================== *)

Module CalorieCalculator.

Import EnhancedFoodDatabase WebSearchNutrition.

(** The dataclass [NutritionalInfo]. *)
Record NutritionalInfo : Type := mk_info {
  i_calories : Q;
  i_protein : Q;
  i_carbs : Q;
  i_fat : Q;
  i_fiber : Q;
  i_sugar : Q;
  i_sodium : Q
}.

(** A row of the local tables; every row of the source defines the seven
    densities. *)
Record density : Type := per100 {
  d_calories_per_100g : Q;
  d_protein_per_100g : Q;
  d_carbs_per_100g : Q;
  d_fat_per_100g : Q;
  d_fiber_per_100g : Q;
  d_sugar_per_100g : Q;
  d_sodium_per_100g : Q
}.

Definition _load_local_food_database : list (string * density) :=
  [
   ("apple", per100 52 0.3 14 0.2 2.4 10 0.001);
   ("banana", per100 89 1.1 23 0.3 2.6 12 0.001);
   ("orange", per100 47 0.9 12 0.1 2.4 9 0.001);
   ("rice", per100 130 2.7 28 0.3 0.4 0.1 0.001);
   ("chicken", per100 165 31 0 3.6 0 0 0.074);
   ("chicken breast", per100 165 31 0 3.6 0 0 0.074);
   ("beef", per100 250 26 0 15 0 0 0.059);
   ("pork", per100 242 27 0 14 0 0 0.062);
   ("fish", per100 206 22 0 12 0 0 0.059);
   ("salmon", per100 208 20 0 13 0 0 0.054);
   ("bread", per100 265 9 49 3.2 2.7 5 0.491);
   ("pasta", per100 131 5 25 1.1 1.8 0.6 0.001);
   ("egg", per100 155 13 1.1 11 0 1.1 0.124);
   ("milk", per100 61 3.2 4.8 3.3 0 4.8 0.044);
   ("cheese", per100 402 25 1.3 33 0 0.5 0.621);
   ("yogurt", per100 59 10 3.6 0.4 0 3.2 0.046);
   ("broccoli", per100 34 2.8 7 0.4 2.6 1.5 0.033);
   ("carrots", per100 41 0.9 10 0.2 2.8 4.7 0.069);
   ("spinach", per100 23 2.9 3.6 0.4 2.2 0.4 0.079);
   ("tomato", per100 18 0.9 3.9 0.2 1.2 2.6 0.005);
   ("potato", per100 77 2 17 0.1 2.2 0.8 0.006);
   ("pizza", per100 266 11 33 10 2.3 3.6 0.598);
   ("burger", per100 295 17 25 15 2 4 0.497);
   ("sandwich", per100 250 12 30 10 3 4 0.380);
   ("salad", per100 20 1.5 4 0.2 1.8 2 0.028)
  ].

Definition category_nutrition : list (string * density) :=
  [
   ("chicken", per100 165 31 0 3.6 0 0 0.074);
   ("beef", per100 250 26 0 15 0 0 0.059);
   ("pork", per100 242 27 0 14 0 0 0.062);
   ("fish", per100 206 22 0 12 0 0 0.059);
   ("salmon", per100 208 20 0 13 0 0 0.054);
   ("rice", per100 130 2.7 28 0.3 0.4 0.1 0.001);
   ("pasta", per100 131 5 25 1.1 1.8 0.6 0.001);
   ("bread", per100 265 9 49 3.2 2.7 5 0.491);
   ("noodles", per100 138 4.5 25 2.2 1.8 0.6 0.001);
   ("pizza", per100 280 12 35 12 2.5 4 0.640);
   ("burger", per100 320 18 28 18 2 4 0.520);
   ("sandwich", per100 250 12 30 10 3 4 0.380);
   ("taco", per100 220 11 20 12 3 2 0.350);
   ("vegetable", per100 35 3 7 0.4 3 2 0.040);
   ("salad", per100 20 1.5 4 0.2 1.8 2 0.028);
   ("fruit", per100 60 0.5 15 0.2 2.5 12 0.001)
  ].

Definition fast_food_chains : list string :=
  [ "mcdonalds"; "mcdonald"; "burger king"; "kfc"; "taco bell";
    "subway"; "pizza hut"; "dominos"; "starbucks"; "dunkin";
    "wendys"; "wendy"; "chipotle"; "five guys"; "in-n-out"; "jack in the box";
    "carl jr"; "hardees"; "arbys"; "dairy queen"; "sonic";
    "papa johns"; "little caesars"; "popeyes"; "chick-fil-a" ].

Definition fast_food_items : list string :=
  [ "big mac"; "whopper"; "quarter pounder"; "mcchicken"; "baconator";
    "son of baconator"; "frappuccino"; "latte"; "cappuccino" ].

Definition _is_fast_food_item (food_name : string) : bool :=
  let food_lower := lower food_name in
  any_in fast_food_chains food_lower || any_in fast_food_items food_lower.

Definition branded_keywords : list string :=
  [ "olive garden"; "red lobster"; "applebees"; "chilis"; "outback";
    "ihop"; "dennys"; "panda express"; "pf changs"; "cheesecake factory";
    "oreo"; "doritos"; "lays"; "pringles"; "pepsi"; "coca cola"; "coke";
    "snickers"; "kit kat"; "reeses"; "hershey"; "mars"; "twix";
    "cheerios"; "frosted flakes"; "lucky charms"; "fruit loops";
    "ben jerry"; "haagen dazs"; "blue bell"; "breyers";
    "lean cuisine"; "hungry man"; "stouffers"; "marie callender";
    "frappuccino"; "macchiato"; "cappuccino"; "americano";
    "energy drink"; "red bull"; "monster"; "rockstar";
    "brand"; "restaurant"; "chain"; "frozen meal"; "packaged" ].

Definition _is_branded_or_restaurant_item (food_name : string) : bool :=
  any_in branded_keywords (lower food_name).

Definition important_words : list string :=
  [ "chicken"; "beef"; "pork"; "fish"; "salmon"; "pizza"; "burger"; "rice"; "pasta" ].

Definition max (a b : Q) : Q := if Qlt_bool a b then b else a.

(** The score one key of the local table gets in [_get_local_nutrition]. *)
Definition match_score (food_name_lower food_key : string) : Q :=
  if String.eqb food_name_lower food_key then 100
  else if contains food_name_lower food_key || contains food_key food_name_lower then 80
  else
    let food_words := set (split food_name_lower) in
    let key_words := set (split food_key) in
    let common_words := inter food_words key_words in
    match common_words with
    | [] => 0
    | _ =>
        let score := len common_words / max (len food_words) (len key_words) * 50 in
        match inter common_words important_words with
        | [] => score
        | _ => score + 20
        end
    end.

(** One turn of the loop over the local table: the state is
    [(best_match, best_score)]. *)
Definition best_step (food_name_lower : string)
  (st : option density * Q) (row : string * density) : option density * Q :=
  let score := match_score food_name_lower (fst row) in
  if Qlt_bool (snd st) score then (Some (snd row), score) else st.

Fixpoint first_category (food_name_lower : string) (cats : list (string * density))
  : option density :=
  match cats with
  | [] => None
  | (category, nutrition) :: r =>
      if contains category food_name_lower then Some nutrition
      else first_category food_name_lower r
  end.

Definition _match_food_category (food_name_lower : string) : option density :=
  match first_category food_name_lower category_nutrition with
  | Some nutrition => Some nutrition
  | None =>
      if any_in ["meat"; "steak"; "roast"] food_name_lower then
        lookup "beef" category_nutrition
      else if any_in ["vegetable"; "veggie"; "green"] food_name_lower then
        lookup "vegetable" category_nutrition
      else if any_in ["fruit"; "berry"; "apple"; "orange"] food_name_lower then
        lookup "fruit" category_nutrition
      else None
  end.

Definition default_density : density := per100 150 5 20 5 2 8 0.3.

Definition _get_local_nutrition (food_name : string) (weight_grams : Q)
  : NutritionalInfo :=
  let food_name_lower := lower food_name in
  let '(best_match, best_score) :=
    fold_left (best_step food_name_lower) _load_local_food_database (None, 0) in
  let best_match :=
    match best_match with
    | Some m => if Qlt_bool best_score 10 then _match_food_category food_name_lower
                else Some m
    | None => _match_food_category food_name_lower
    end in
  let best_match :=
    match best_match with
    | Some m => m
    | None => default_density
    end in
  let scale_factor := weight_grams / 100 in
  mk_info (d_calories_per_100g best_match * scale_factor)
          (d_protein_per_100g best_match * scale_factor)
          (d_carbs_per_100g best_match * scale_factor)
          (d_fat_per_100g best_match * scale_factor)
          (d_fiber_per_100g best_match * scale_factor)
          (d_sugar_per_100g best_match * scale_factor)
          (d_sodium_per_100g best_match * scale_factor).

Definition add_info (a b : NutritionalInfo) : NutritionalInfo :=
  mk_info (i_calories a + i_calories b) (i_protein a + i_protein b)
          (i_carbs a + i_carbs b) (i_fat a + i_fat b) (i_fiber a + i_fiber b)
          (i_sugar a + i_sugar b) (i_sodium a + i_sodium b).

(** The calls [_get_local_nutrition(food_name, weight_per_food)] the loop
    of [_calculate_multi_food_nutrition] makes, as (label, weight) pairs. *)
Definition multi_food_shares (all_foods : list string) (total_weight : Q)
  : list (string * Q) :=
  let weight_per_food := total_weight / len all_foods in
  map (fun food_name => (food_name, weight_per_food)) all_foods.

Definition _calculate_multi_food_nutrition (all_foods : list string) (total_weight : Q)
  : NutritionalInfo :=
  match all_foods with
  | [] => _get_local_nutrition "unknown" total_weight
  | [food] => _get_local_nutrition food total_weight
  | _ =>
      fold_left
        (fun combined_nutrition share =>
           add_info combined_nutrition (_get_local_nutrition (fst share) (snd share)))
        (multi_food_shares all_foods total_weight)
        (mk_info 0 0 0 0 0 0 0)
  end.

Definition _get_fallback_nutrition (recognition : recognition_result) : nutrition_dict :=
  let estimated_weight := get (estimated_weight recognition) 100 in
  mk_nutrition
    (Some match primary_food recognition with
          | Some n => n
          | None => "Unknown food"
          end)
    estimated_weight
    (estimated_weight * 1.5)
    (estimated_weight * 0.05)
    (estimated_weight * 0.2)
    (estimated_weight * 0.05)
    (Some (estimated_weight * 0.02))
    (Some (estimated_weight * 0.08))
    (Some (estimated_weight * 0.003))
    "fallback_estimate"
    None.

(** The calculator's collaborators. *)
Section Resolver.

(** The import of the enhanced modules at the top of the file succeeded;
    when it did not, the three imported names are [None]. *)
Variable enhanced_modules : bool.

(** The chat service behind [self.web_search_calculator]. *)
Variable chat : chat_service.

(** [_get_usda_nutrition], the government composition client; [None] when
    it raises (request error, no food found). *)
Variable usda : string -> Q -> option NutritionalInfo.

Definition _get_nutrition_info (food_name : string) (weight_grams : Q)
  : NutritionalInfo :=
  match usda food_name weight_grams with
  | Some info => info
  | None => _get_local_nutrition food_name weight_grams
  end.

(** Step 1 of [calculate_calories]: the enhanced database, and the web
    enhancement of a fast-food item. *)
Definition enhanced_step (recognition : recognition_result)
  (food_name : string) (estimated_weight : Q) : option nutrition_dict :=
  if enhanced_modules then
    match calculate_accurate_calories food_name (Some estimated_weight) with
    | Some enhanced_result =>
        let enhanced_result := set_data_source enhanced_result "enhanced_database" in
        if _is_fast_food_item food_name then
          let web_enhanced :=
            enhance_nutrition_with_web_search chat recognition enhanced_result in
          if String.eqb (data_source web_enhanced) "web_search_enhanced"
          then Some web_enhanced
          else Some enhanced_result
        else Some enhanced_result
    | None => None
    end
  else None.

(** Step 2: the direct web search for a branded or restaurant item. *)
Definition web_search_step (food_name : string) (estimated_weight : Q)
  : option nutrition_dict :=
  if enhanced_modules
     && (_is_fast_food_item food_name || _is_branded_or_restaurant_item food_name)
  then
    match get_web_search_nutrition chat food_name estimated_weight with
    | Some web_data =>
        if Qlt_bool 0.7 (get (w_confidence web_data) 0) then
          Some (mk_nutrition
                  (Some match w_food_name web_data with
                        | Some n => n
                        | None => food_name
                        end)
                  (get (w_serving_weight_grams web_data) estimated_weight)
                  (round (get (w_calories web_data) 0) 1)
                  (round (get (w_protein web_data) 0) 1)
                  (round (get (w_carbs web_data) 0) 1)
                  (round (get (w_fat web_data) 0) 1)
                  (Some (round (get (w_fiber web_data) 0) 1))
                  (Some (round (get (w_sugar web_data) 0) 1))
                  (Some (round (get (w_sodium web_data) 0) 3))
                  "web_search_direct"
                  (Some (get (w_confidence web_data) 0.9)))
        else None
    | None => None
    end
  else None.

(** Step 3: the original calculation. *)
Definition standard_step (food_name : string) (estimated_weight : Q)
  (all_foods : list string) : nutrition_dict :=
  let nutrition_info := _get_nutrition_info food_name estimated_weight in
  let nutrition_info :=
    if (1 <? List.length all_foods)%nat
    then _calculate_multi_food_nutrition all_foods estimated_weight
    else nutrition_info in
  mk_nutrition (Some food_name) estimated_weight
    (round (i_calories nutrition_info) 1)
    (round (i_protein nutrition_info) 1)
    (round (i_carbs nutrition_info) 1)
    (round (i_fat nutrition_info) 1)
    (Some (round (i_fiber nutrition_info) 1))
    (Some (round (i_sugar nutrition_info) 1))
    (Some (round (i_sodium nutrition_info) 1))
    "calculated"
    None.

(** The body of the [try] of [calculate_calories]. *)
Definition calculate_calories_try (recognition : recognition_result)
  : exc nutrition_dict :=
  match primary_food recognition with
  | None => Raise "KeyError"
  | Some food_name =>
      let estimated_weight := get (estimated_weight recognition) 100 in
      let all_foods :=
        match all_foods recognition with
        | Some l => l
        | None => [food_name]
        end in
      match enhanced_step recognition food_name estimated_weight with
      | Some result => Return result
      | None =>
          match web_search_step food_name estimated_weight with
          | Some result => Return result
          | None => Return (standard_step food_name estimated_weight all_foods)
          end
      end
  end.

Definition calculate_calories (recognition : recognition_result) : nutrition_dict :=
  try_except (calculate_calories_try recognition)
             (_get_fallback_nutrition recognition).

End Resolver.

(** The input of [get_calorie_breakdown]: the four keys it reads. *)
Record macro_dict : Type := mk_macro {
  m_protein : option Q;
  m_carbs : option Q;
  m_fat : option Q;
  m_total_calories : option Q
}.

(** [(part / total_calories * 100) if total_calories > 0 else 0] *)
Definition percentage (part total_calories : Q) : exc Q :=
  if Qlt_bool 0 total_calories then
    q <- truediv part total_calories ;;
    Return (q * 100)
  else Return 0.

Definition get_calorie_breakdown (nutrition_info : macro_dict)
  : exc (list (string * Q)) :=
  let protein_calories := get (m_protein nutrition_info) 0 * 4 in
  let carb_calories := get (m_carbs nutrition_info) 0 * 4 in
  let fat_calories := get (m_fat nutrition_info) 0 * 9 in
  let total_macro_calories := protein_calories + carb_calories + fat_calories in
  let total_calories := get (m_total_calories nutrition_info) total_macro_calories in
  protein_percentage <- percentage protein_calories total_calories ;;
  carb_percentage <- percentage carb_calories total_calories ;;
  fat_percentage <- percentage fat_calories total_calories ;;
  Return [ ("protein_calories", round protein_calories 1);
           ("carb_calories", round carb_calories 1);
           ("fat_calories", round fat_calories 1);
           ("protein_percentage", round protein_percentage 1);
           ("carb_percentage", round carb_percentage 1);
           ("fat_percentage", round fat_percentage 1) ].

End CalorieCalculator.

(* ================================================================== *)
(** * hyper_accurate_calculator.py: the weight distribution *)
(* ================================================================== *)

Module HyperAccurateCalculator.

Definition main_dishes : list string :=
  [ "rice"; "pasta"; "potato"; "bread"; "meat"; "chicken"; "beef"; "fish" ].
Definition vegetables : list string :=
  [ "broccoli"; "carrots"; "spinach"; "lettuce"; "tomato"; "onion" ].
Definition sauces : list string :=
  [ "sauce"; "salsa"; "dressing"; "gravy" ].

(** The branch of the [if / elif / elif / else] chain a label takes; the
    chain is the same in both loops. *)
Inductive branch : Type := Main | Veggie | Sauce | Default.

Definition branch_of (food : string) : branch :=
  let food_lower := lower food in
  if any_in main_dishes food_lower then Main
  else if any_in vegetables food_lower then Veggie
  else if any_in sauces food_lower then Sauce
  else Default.

(** The counters [main_weight], [veggie_weight], [sauce_weight]. *)
Record portions : Type := mk_portions {
  main_weight : Q;
  veggie_weight : Q;
  sauce_weight : Q
}.

Definition count_step (p : portions) (food : string) : portions :=
  match branch_of food with
  | Main => mk_portions (main_weight p + 1) (veggie_weight p) (sauce_weight p)
  | Veggie => mk_portions (main_weight p) (veggie_weight p + 1) (sauce_weight p)
  | Sauce => mk_portions (main_weight p) (veggie_weight p) (sauce_weight p + 1)
  | Default => mk_portions (main_weight p + 0.5) (veggie_weight p) (sauce_weight p)
  end.

(** One turn of the second loop: [distribution[food] = ...]. *)
Definition assign_step (p : portions) (total_portions total_weight n : Q)
  (distribution : list (string * Q)) (food : string) : list (string * Q) :=
  match branch_of food with
  | Main => store food (main_weight p / total_portions * total_weight * 0.5) distribution
  | Veggie => store food (veggie_weight p / total_portions * total_weight * 0.3) distribution
  | Sauce => store food (sauce_weight p / total_portions * total_weight * 0.1) distribution
  | Default => store food (total_weight / n * 0.6) distribution
  end.

Definition _estimate_weight_distribution (foods : list string) (total_weight : Q)
  : exc (list (string * Q)) :=
  let p := fold_left count_step foods (mk_portions 0 0 0) in
  let total_portions := main_weight p + veggie_weight p + sauce_weight p in
  if Qeq_bool total_portions 0 then
    weight_per_food <- truediv total_weight (len foods) ;;
    Return (fold_left (fun d food => store food weight_per_food d) foods [])
  else
    Return (fold_left (assign_step p total_portions total_weight (len foods)) foods []).

(** The sum of the sub-weights a distribution assigns. *)
Definition assigned_total (distribution : list (string * Q)) : Q :=
  sum (values distribution).

End HyperAccurateCalculator.

(* ================================================================== *)
(** * app.py: the learning functions *)
(* ================================================================== *)

Module App.

(** The keyword groups of [classify_food_category], in the order of the
    [if / elif] chain. *)
Definition category_keywords : list (string * list string) :=
  [ ("grain", ["pizza"; "pasta"; "bread"; "rice"; "noodle"; "bagel"; "cereal"; "oatmeal"; "quinoa"; "barley"; "wheat"; "tortilla"; "wrap"; "sandwich"]);
    ("protein", ["chicken"; "beef"; "pork"; "fish"; "meat"; "turkey"; "ham"; "salami"; "cold cut"; "deli"; "sausage"; "bacon"; "egg"; "tofu"; "beans"; "lentil"; "salmon"; "tuna"]);
    ("fruit", ["apple"; "banana"; "orange"; "fruit"; "berry"; "grape"; "mango"; "pineapple"; "strawberry"; "blueberry"; "cherry"; "peach"; "pear"; "kiwi"]);
    ("vegetable", ["salad"; "vegetable"; "broccoli"; "carrot"; "spinach"; "lettuce"; "tomato"; "pepper"; "onion"; "potato"; "sweet potato"; "corn"; "peas"; "green"; "cabbage"]);
    ("dairy", ["milk"; "cheese"; "yogurt"; "butter"; "cream"; "cottage cheese"; "mozzarella"; "cheddar"; "parmesan"]);
    ("snack", ["chips"; "crackers"; "pretzels"; "popcorn"; "nuts"; "trail mix"; "granola"]);
    ("dessert", ["cake"; "cookie"; "ice cream"; "candy"; "chocolate"; "brownie"; "pie"; "donut"; "muffin"; "sweet"; "dessert"]);
    ("fast_food", ["burger"; "fries"; "mcdonalds"; "subway"; "kfc"; "taco"; "burrito"]);
    ("beverage", ["coffee"; "tea"; "soda"; "juice"; "water"; "beer"; "wine"; "smoothie"; "shake"])
  ].

(** The chain itself: the first group one of whose words is in the label. *)
Fixpoint first_group (food_name_lower : string) (groups : list (string * list string))
  : string :=
  match groups with
  | [] => "other"
  | (category, words) :: r =>
      if any_in words food_name_lower then category
      else first_group food_name_lower r
  end.

Definition classify_food_category (food_name : string) : string :=
  first_group (lower food_name) category_keywords.

(** A row of [user_feedback]; the columns the learning functions read.
    A NULL column is [None]; [created_at] has a default and is always
    set. *)
Record UserFeedback : Type := mk_feedback {
  user_id : nat;
  ai_food_name : option string;
  ai_weight_grams : option Q;
  ai_calories : option Q;
  corrected_food_name : option string;
  corrected_weight_grams : option Q;
  corrected_calories : option Q;
  food_category : option string;
  created_at : Q                        (* [created_at.timestamp()] *)
}.

(** [has_portion_change]: the same expression in [correction_priority] and
    in [apply_learning_adjustments]. *)
Definition has_portion_change (correction : UserFeedback) : exc bool :=
  if truthy (corrected_weight_grams correction) then
    if truthy (ai_weight_grams correction) then
      corrected <- float (corrected_weight_grams correction) ;;
      ai <- float (ai_weight_grams correction) ;;
      change <- truediv (Qabs (corrected - ai)) ai ;;
      Return (Qlt_bool 0.2 change)
    else Return false
  else Return false.

(** [has_calorie_change], likewise. *)
Definition has_calorie_change (correction : UserFeedback) : exc bool :=
  if truthy (ai_calories correction) then
    if truthy (corrected_calories correction) then
      corrected <- float (corrected_calories correction) ;;
      ai <- float (ai_calories correction) ;;
      change <- truediv (Qabs (corrected - ai)) ai ;;
      Return (Qlt_bool 0.5 change)
    else Return false
  else Return false.

Definition correction_priority (correction : UserFeedback) : exc Q :=
  has_calorie_change <- has_calorie_change correction ;;
  has_portion_change <- has_portion_change correction ;;
  let priority_score := 0 in
  let priority_score := if has_calorie_change then priority_score + 100 else priority_score in
  let priority_score := if has_portion_change then priority_score + 50 else priority_score in
  Return (priority_score + created_at correction / 1000000).

(** ** Sorting and queries *)

Section Sorting.
Context {A : Type}.

(** Insertion before the first element of a smaller or equal key: folding
    it from the right is a stable sort in descending order, which is what
    [sort(key=..., reverse=True)] is. *)
Fixpoint insert_desc (x : Q * A) (l : list (Q * A)) : list (Q * A) :=
  match l with
  | [] => [x]
  | y :: r => if Qlt_bool (fst x) (fst y) then y :: insert_desc x r else x :: l
  end.

Definition sort_desc (l : list (Q * A)) : list A :=
  map snd (fold_right insert_desc [] l).

(** The keys of a sort are computed first; an exception in one of them
    aborts the sort. *)
Fixpoint keyed (key : A -> exc Q) (l : list A) : exc (list (Q * A)) :=
  match l with
  | [] => Return []
  | x :: r =>
      k <- key x ;;
      kr <- keyed key r ;;
      Return ((k, x) :: kr)
  end.
End Sorting.

(** [.order_by(UserFeedback.created_at.desc())]; rows of equal timestamp
    stay in table order. *)
Definition order_by_created_at_desc (rows : list UserFeedback) : list UserFeedback :=
  sort_desc (map (fun r => (created_at r, r)) rows).

(** SQL equality with a column that may be NULL. *)
Definition column_is (column : option string) (value : string) : bool :=
  match column with
  | Some s => String.eqb s value
  | None => false
  end.

Record learning_context : Type := mk_context {
  similar_corrections : list UserFeedback;
  exact_corrections : list UserFeedback;
  fuzzy_corrections : list UserFeedback;
  context_food_category : string
}.

(** The test of the fuzzy loop: the two labels share two words or more. *)
Definition shares_two_words (food_words : list string) (correction : UserFeedback) : bool :=
  match ai_food_name correction with
  | Some name =>
      if String.eqb name "" then false
      else
        let correction_words := set (split (lower name)) in
        let common_words := inter food_words correction_words in
        (2 <=? List.length common_words)%nat
  | None => false
  end.

(** [get_learning_context], over the rows of the table [user_feedback]. *)
Definition get_learning_context (table : list UserFeedback)
  (user : nat) (food_name : string) : exc learning_context :=
  let category := classify_food_category food_name in
  let similar_corrections :=
    firstn 10 (order_by_created_at_desc
                 (filter (fun r => Nat.eqb (user_id r) user
                                   && column_is (food_category r) category) table)) in
  let exact_corrections :=
    firstn 5 (order_by_created_at_desc
                (filter (fun r => Nat.eqb (user_id r) user
                                  && column_is (ai_food_name r) food_name) table)) in
  fuzzy_corrections <-
    match exact_corrections with
    | [] =>
        let all_corrections := filter (fun r => Nat.eqb (user_id r) user) table in
        let food_words := set (split (lower food_name)) in
        let fuzzy_corrections := filter (shares_two_words food_words) all_corrections in
        with_keys <- keyed correction_priority fuzzy_corrections ;;
        Return (firstn 5 (sort_desc with_keys))
    | _ => Return []
    end ;;
  Return (mk_context similar_corrections exact_corrections fuzzy_corrections category).

(** ** The adjuster *)

(** The dict [analysis_result].  For [a_food_name], [None] is an absent
    key on input; after a name correction it is the corrected name of the
    row, NULL included. *)
Record analysis : Type := mk_analysis {
  a_food_name : option string;
  a_weight_grams : Q;
  a_calories : Q;
  a_protein : Q;
  a_carbs : Q;
  a_fat : Q;
  learning_applied : option string
}.

Definition set_food_name (r : analysis) (n : option string) : analysis :=
  mk_analysis n (a_weight_grams r) (a_calories r) (a_protein r) (a_carbs r)
    (a_fat r) (learning_applied r).

Definition scale_weight_grams (r : analysis) (ratio : Q) : analysis :=
  mk_analysis (a_food_name r) (a_weight_grams r * ratio) (a_calories r)
    (a_protein r) (a_carbs r) (a_fat r) (learning_applied r).

Definition scale_calories (r : analysis) (ratio : Q) : analysis :=
  mk_analysis (a_food_name r) (a_weight_grams r) (a_calories r * ratio)
    (a_protein r) (a_carbs r) (a_fat r) (learning_applied r).

Definition set_learning_applied (r : analysis) (s : string) : analysis :=
  mk_analysis (a_food_name r) (a_weight_grams r) (a_calories r) (a_protein r)
    (a_carbs r) (a_fat r) (Some s).

Definition same_name (a b : option string) : bool :=
  match a, b with
  | Some x, Some y => String.eqb x y
  | None, None => true
  | _, _ => false
  end.

(** [lo <= x <= hi] *)
Definition between (lo x hi : Q) : bool := Qle_bool lo x && Qle_bool x hi.

(** The [if has_portion_change: ... elif has_calorie_change: ...] of the
    adjuster, on the result and the list [learning_types]. *)
Definition portion_or_calorie (latest_correction : UserFeedback)
  (has_portion_change has_calorie_change : bool)
  (st : analysis * list string) : exc (analysis * list string) :=
  let '(analysis_result, learning_types) := st in
  if has_portion_change then
    corrected <- float (corrected_weight_grams latest_correction) ;;
    ai <- float (ai_weight_grams latest_correction) ;;
    weight_ratio <- truediv corrected ai ;;
    if between 0.3 weight_ratio 5.0 then
      Return (scale_calories (scale_weight_grams analysis_result weight_ratio) weight_ratio,
              (learning_types ++ ["portion_adjustment"])%list)
    else Return (analysis_result, learning_types)
  else if has_calorie_change then
    corrected <- float (corrected_calories latest_correction) ;;
    ai <- float (ai_calories latest_correction) ;;
    calorie_ratio <- truediv corrected ai ;;
    Return (scale_calories analysis_result calorie_ratio,
            (learning_types ++ ["calorie_correction"])%list)
  else Return (analysis_result, learning_types).

(** The block under [if corrections_to_use:], step 4 of the adjuster. *)
Definition latest_correction_step (correction_type : string)
  (latest_correction : UserFeedback) (analysis_result : analysis) : exc analysis :=
  let st :=
    if negb (same_name (corrected_food_name latest_correction)
                       (ai_food_name latest_correction))
    then (set_food_name analysis_result (corrected_food_name latest_correction),
          ["name_correction"])
    else (analysis_result, []) in
  has_portion_change <- has_portion_change latest_correction ;;
  has_calorie_change <- has_calorie_change latest_correction ;;
  st <- portion_or_calorie latest_correction has_portion_change has_calorie_change st ;;
  let '(analysis_result, learning_types) := st in
  match learning_types with
  | [] => Return analysis_result
  | _ => Return (set_learning_applied analysis_result
                   (correction_type ++ "_" ++ join "_" learning_types))
  end.

(** The loop that fills [calorie_ratios]. *)
Fixpoint calorie_ratios (similar_corrections : list UserFeedback) : exc (list Q) :=
  match similar_corrections with
  | [] => Return []
  | correction :: rest =>
      this <-
        (if truthy (ai_calories correction) then
           if truthy (corrected_calories correction) then
             corrected <- float (corrected_calories correction) ;;
             ai <- float (ai_calories correction) ;;
             ratio <- truediv corrected ai ;;
             Return (if between 0.3 ratio 3.0 then [ratio] else [])
           else Return []
         else Return []) ;;
      others <- calorie_ratios rest ;;
      Return (this ++ others)%list
  end.

(** The category-based corrections, step 5 of the adjuster. *)
Definition category_step (similar_corrections : list UserFeedback)
  (analysis_result : analysis) : exc analysis :=
  if (3 <=? List.length similar_corrections)%nat then
    calorie_ratios <- calorie_ratios similar_corrections ;;
    match calorie_ratios with
    | [] => Return analysis_result
    | _ =>
        avg_calorie_ratio <- truediv (sum calorie_ratios) (len calorie_ratios) ;;
        if Qlt_bool 0.1 (Qabs (avg_calorie_ratio - 1.0)) then
          Return (set_learning_applied
                    (scale_calories analysis_result avg_calorie_ratio)
                    "category_calorie_adjustment")
        else Return analysis_result
    end
  else Return analysis_result.

(** [apply_learning_adjustments] once the learning context is fetched. *)
Definition adjust_with_context (context : learning_context)
  (analysis_result : analysis) : exc analysis :=
  let exact_corrections := exact_corrections context in
  let fuzzy_corrections := fuzzy_corrections context in
  let corrections_to_use :=
    match exact_corrections with
    | [] => fuzzy_corrections
    | _ => exact_corrections
    end in
  let correction_type :=
    match exact_corrections with
    | [] => "fuzzy"
    | _ => "exact"
    end in
  analysis_result <-
    match corrections_to_use with
    | latest_correction :: _ =>
        latest_correction_step correction_type latest_correction analysis_result
    | [] => Return analysis_result
    end ;;
  category_step (similar_corrections context) analysis_result.

Definition apply_learning_adjustments (table : list UserFeedback)
  (analysis_result : analysis) (user : nat) : exc analysis :=
  let food_name :=
    match a_food_name analysis_result with
    | Some n => n
    | None => ""
    end in
  learning_context <- get_learning_context table user food_name ;;
  adjust_with_context learning_context analysis_result.

End App.

(* ================================================================== *)
(** * The specification's vocabulary *)
(* ================================================================== *)

(** Definitions that follow the words of the specification, to be compared
    with the code above. *)
Module Spec.

Import App.

(** "The relative change from [ai] to [corrected] exceeds [threshold]":
    both values are recorded and non-zero, and [|corrected - ai| / ai]
    is above the threshold. *)
Definition relative_change_exceeds (corrected ai : option Q) (threshold : Q) : bool :=
  match corrected, ai with
  | Some c, Some a =>
      negb (Qeq_bool c 0) && negb (Qeq_bool a 0)
      && Qlt_bool threshold (Qabs (c - a) / a)
  | _, _ => false
  end.

(** The markers of step 4 before the portion / calorie decision. *)
Definition name_markers (c : UserFeedback) : list string :=
  if same_name (corrected_food_name c) (ai_food_name c) then []
  else ["name_correction"].

(** The provenance string for a list of markers; no marker, no new string. *)
Definition provenance (correction_type : string) (markers : list string)
  (previous : option string) : option string :=
  match markers with
  | [] => previous
  | _ => Some (correction_type ++ "_" ++ join "_" markers)
  end.

(** "The per-record calorie ratio, restricted to [0.3, 3.0]". *)
Definition usable_ratio (c : UserFeedback) : option Q :=
  match corrected_calories c, ai_calories c with
  | Some corrected, Some ai =>
      if negb (Qeq_bool ai 0) && between 0.3 (corrected / ai) 3.0
      then Some (corrected / ai)
      else None
  | _, _ => None
  end.

Fixpoint clipped_ratios (l : list UserFeedback) : list Q :=
  match l with
  | [] => []
  | c :: r =>
      match usable_ratio c with
      | Some q => q :: clipped_ratios r
      | None => clipped_ratios r
      end
  end.

Definition mean (l : list Q) : Q := sum l / len l.

Definition is_empty {A : Type} (l : list A) : bool :=
  match l with
  | [] => true
  | _ => false
  end.

(** Step 4 of the adjuster as one case analysis on the two relative
    changes. *)
Definition step4_outcome (correction_type : string) (c : UserFeedback)
  (raw : analysis) : analysis :=
  let named :=
    if same_name (corrected_food_name c) (ai_food_name c) then raw
    else set_food_name raw (corrected_food_name c) in
  if relative_change_exceeds (corrected_weight_grams c) (ai_weight_grams c) 0.2 then
    let ratio := get (corrected_weight_grams c) 0 / get (ai_weight_grams c) 0 in
    if between 0.3 ratio 5.0 then
      set_learning_applied (scale_calories (scale_weight_grams named ratio) ratio)
        (correction_type ++ "_" ++ join "_" (name_markers c ++ ["portion_adjustment"])%list)
    else
      match name_markers c with
      | [] => named
      | m => set_learning_applied named (correction_type ++ "_" ++ join "_" m)
      end
  else if relative_change_exceeds (corrected_calories c) (ai_calories c) 0.5 then
    set_learning_applied
      (scale_calories named (get (corrected_calories c) 0 / get (ai_calories c) 0))
      (correction_type ++ "_" ++ join "_" (name_markers c ++ ["calorie_correction"])%list)
  else
    match name_markers c with
    | [] => named
    | m => set_learning_applied named (correction_type ++ "_" ++ join "_" m)
    end.

(** A registry row carries a labelled serving: a typical weight, and
    typical calories that are a whole number. *)
Definition labelled_serving (e : EnhancedFoodDatabase.food_entry) : bool :=
  match EnhancedFoodDatabase.typical_weight e, EnhancedFoodDatabase.typical_calories e with
  | Some _, Some tc => Qeq_bool (inject_Z (Qfloor tc)) tc
  | _, _ => false
  end.

End Spec.

(* ================================================================== *)
(** * Reference inputs *)
(* ================================================================== *)

Module Scenario.

Import WebSearchNutrition CalorieCalculator App.

(** A chat service that never yields an object. *)
Definition silent_chat : chat_service :=
  mk_chat (fun _ => None) (fun _ => None).

(** A government client that always raises. *)
Definition failing_usda : string -> Q -> option NutritionalInfo :=
  fun _ _ => None.

(** The label "unknown" at 100 g, no list of labels. *)
Definition unknown_100 : recognition_result :=
  mk_recognition (Some "unknown") (Some 100) None.

(** A chat service that answers the fast-food prompt with a 473 g serving. *)
Definition latte_reply : web_data :=
  mk_web false (Some "Caffe Latte") (Some 190) (Some 13) (Some 19) (Some 7)
    (Some 0) (Some 17) (Some 170) (Some 473) (Some 0.95).
Definition latte_chat : chat_service :=
  mk_chat (fun _ => Some latte_reply) (fun _ => None).

(** A chain's item, 200 g requested; and the same with a weight of zero. *)
Definition latte_200 : recognition_result :=
  mk_recognition (Some "Starbucks Latte") (Some 200) None.
Definition latte_0 : recognition_result :=
  mk_recognition (Some "Starbucks Latte") (Some 0) None.

(** A correction of user 1 for "burrito bowl" whose names agree. *)
Definition correction (ai_weight ai_cal corrected_weight corrected_cal : option Q)
  : UserFeedback :=
  mk_feedback 1 (Some "burrito bowl") ai_weight ai_cal
    (Some "burrito bowl") corrected_weight corrected_cal (Some "fast_food") 0.

(** The raw estimate the adjuster receives: 100 g, 200 kcal. *)
Definition raw_estimate : analysis :=
  mk_analysis (Some "burrito bowl") 100 200 10 20 5 None.

(** A portion fix, 100 g -> 150 g. *)
Definition portion_fix : UserFeedback :=
  correction (Some 100) (Some 200) (Some 150) (Some 200).

(** A calorie fix, 200 kcal -> 300 kcal. *)
Definition category_fix : UserFeedback :=
  correction (Some 100) (Some 200) (Some 100) (Some 300).

Definition two_category_fixes : list UserFeedback := [category_fix; category_fix].

(** The table of user 1 in which both adjustments fire for "burrito bowl":
    three calorie fixes for "fries" (200 -> 300 kcal) and, most recent, a
    portion fix for "burrito bowl" (100 g -> 150 g); the four rows are of
    category "fast_food". *)
Definition fries_fix (t : Q) : UserFeedback :=
  mk_feedback 1 (Some "fries") (Some 100) (Some 200)
    (Some "fries") (Some 100) (Some 300) (Some "fast_food") t.
Definition bowl_portion_fix : UserFeedback :=
  mk_feedback 1 (Some "burrito bowl") (Some 100) (Some 200)
    (Some "burrito bowl") (Some 150) (Some 200) (Some "fast_food") 4.
Definition both_fire_table : list UserFeedback :=
  [fries_fix 1; fries_fix 2; fries_fix 3; bowl_portion_fix].

(** The example of the specification: 100 g -> 105 g, 200 kcal -> 400 kcal. *)
Definition density_fix : UserFeedback :=
  correction (Some 100) (Some 200) (Some 105) (Some 400).

(** The weight field of the edit form left empty: corrected weight 0. *)
Definition weight_left_empty : UserFeedback :=
  correction (Some 100) (Some 200) (Some 0) (Some 400).

(** A row whose AI weight is zero and whose AI calories are NULL. *)
Definition zero_ai_fix : UserFeedback :=
  correction (Some 0) None (Some 150) (Some 400).

Definition zero_ai_table : list UserFeedback := [zero_ai_fix; zero_ai_fix; zero_ai_fix].

(** An empty nutrition dict. *)
Definition empty_macros : macro_dict := mk_macro None None None None.

End Scenario.

(* ================================================================== *)
(** * app.py: the thresholds of the adjuster in double precision *)
(* ================================================================== *)

(** The modules above compute with exact rationals.  Python computes
    step 4 and the category step of [apply_learning_adjustments] with
    [float], IEEE binary64 rounded to nearest even, and the outcome of a
    comparison with a threshold can depend on that rounding.  The two
    steps are therefore embedded again, with the machine's numbers. *)
Module Binary64.

Import PrimFloat.

(** The columns of a row of [user_feedback] that the two steps read.  A
    numeric column holds the value [float(column)] yields; [None] is
    NULL. *)
Record UserFeedback : Type := mk_feedback {
  ai_food_name : option string;
  ai_weight_grams : option PrimFloat.float;
  ai_calories : option PrimFloat.float;
  corrected_food_name : option string;
  corrected_weight_grams : option PrimFloat.float;
  corrected_calories : option PrimFloat.float
}.

(** The keys of [analysis_result] the two steps read or write. *)
Record analysis : Type := mk_analysis {
  a_food_name : option string;
  a_weight_grams : PrimFloat.float;
  a_calories : PrimFloat.float;
  learning_applied : option string
}.

(** Truthiness of a column: NULL and zero are falsy. *)
Definition truthy (x : option PrimFloat.float) : bool :=
  match x with
  | Some v => negb (PrimFloat.eqb v 0)
  | None => false
  end.

(** [float(x)]; [float(None)] is a [TypeError]. *)
Definition float (x : option PrimFloat.float) : exc PrimFloat.float :=
  match x with
  | Some v => Return v
  | None => Raise "TypeError"
  end.

(** [a / b] on floats. *)
Definition truediv (a b : PrimFloat.float) : exc PrimFloat.float :=
  if PrimFloat.eqb b 0 then Raise "ZeroDivisionError" else Return (a / b)%float.

(** [lo <= x <= hi] *)
Definition between (lo x hi : PrimFloat.float) : bool :=
  PrimFloat.leb lo x && PrimFloat.leb x hi.

(** [float(n)] of a length, by exact additions of one. *)
Fixpoint of_nat (n : nat) : PrimFloat.float :=
  match n with
  | O => 0%float
  | S k => (of_nat k + 1)%float
  end.

(** [a / n] for a float and a length: only the integer 0 raises. *)
Definition truediv_len (a : PrimFloat.float) (n : nat) : exc PrimFloat.float :=
  match n with
  | O => Raise "ZeroDivisionError"
  | S _ => Return (a / of_nat n)%float
  end.

(** [has_portion_change] of step 4. *)
Definition has_portion_change (correction : UserFeedback) : exc bool :=
  if truthy (corrected_weight_grams correction) then
    if truthy (ai_weight_grams correction) then
      corrected <- float (corrected_weight_grams correction) ;;
      ai <- float (ai_weight_grams correction) ;;
      change <- truediv (abs (corrected - ai)%float) ai ;;
      Return (PrimFloat.ltb 0.2 change)
    else Return false
  else Return false.

(** [has_calorie_change] of step 4. *)
Definition has_calorie_change (correction : UserFeedback) : exc bool :=
  if truthy (ai_calories correction) then
    if truthy (corrected_calories correction) then
      corrected <- float (corrected_calories correction) ;;
      ai <- float (ai_calories correction) ;;
      change <- truediv (abs (corrected - ai)%float) ai ;;
      Return (PrimFloat.ltb 0.5 change)
    else Return false
  else Return false.

Definition set_food_name (r : analysis) (n : option string) : analysis :=
  mk_analysis n (a_weight_grams r) (a_calories r) (learning_applied r).

Definition scale_weight_grams (r : analysis) (ratio : PrimFloat.float) : analysis :=
  mk_analysis (a_food_name r) (a_weight_grams r * ratio)%float (a_calories r)
    (learning_applied r).

Definition scale_calories (r : analysis) (ratio : PrimFloat.float) : analysis :=
  mk_analysis (a_food_name r) (a_weight_grams r) (a_calories r * ratio)%float
    (learning_applied r).

Definition set_learning_applied (r : analysis) (s : string) : analysis :=
  mk_analysis (a_food_name r) (a_weight_grams r) (a_calories r) (Some s).

(** The [if has_portion_change: ... elif has_calorie_change: ...] of the
    adjuster, on the result and the list [learning_types]. *)
Definition portion_or_calorie (latest_correction : UserFeedback)
  (has_portion_change has_calorie_change : bool)
  (st : analysis * list string) : exc (analysis * list string) :=
  let '(analysis_result, learning_types) := st in
  if has_portion_change then
    corrected <- float (corrected_weight_grams latest_correction) ;;
    ai <- float (ai_weight_grams latest_correction) ;;
    weight_ratio <- truediv corrected ai ;;
    if between 0.3 weight_ratio 5.0 then
      Return (scale_calories (scale_weight_grams analysis_result weight_ratio) weight_ratio,
              (learning_types ++ ["portion_adjustment"])%list)
    else Return (analysis_result, learning_types)
  else if has_calorie_change then
    corrected <- float (corrected_calories latest_correction) ;;
    ai <- float (ai_calories latest_correction) ;;
    calorie_ratio <- truediv corrected ai ;;
    Return (scale_calories analysis_result calorie_ratio,
            (learning_types ++ ["calorie_correction"])%list)
  else Return (analysis_result, learning_types).

(** The block under [if corrections_to_use:], step 4 of the adjuster. *)
Definition latest_correction_step (correction_type : string)
  (latest_correction : UserFeedback) (analysis_result : analysis) : exc analysis :=
  let st :=
    if negb (App.same_name (corrected_food_name latest_correction)
                       (ai_food_name latest_correction))
    then (set_food_name analysis_result (corrected_food_name latest_correction),
          ["name_correction"])
    else (analysis_result, []) in
  has_portion_change <- has_portion_change latest_correction ;;
  has_calorie_change <- has_calorie_change latest_correction ;;
  st <- portion_or_calorie latest_correction has_portion_change has_calorie_change st ;;
  let '(analysis_result, learning_types) := st in
  match learning_types with
  | [] => Return analysis_result
  | _ => Return (set_learning_applied analysis_result
                   (correction_type ++ "_" ++ join "_" learning_types))
  end.

(** The loop that fills [calorie_ratios]. *)
Fixpoint calorie_ratios (similar_corrections : list UserFeedback)
  : exc (list PrimFloat.float) :=
  match similar_corrections with
  | [] => Return []
  | correction :: rest =>
      this <-
        (if truthy (ai_calories correction) then
           if truthy (corrected_calories correction) then
             corrected <- float (corrected_calories correction) ;;
             ai <- float (ai_calories correction) ;;
             ratio <- truediv corrected ai ;;
             Return (if between 0.3 ratio 3.0 then [ratio] else [])
           else Return []
         else Return []) ;;
      others <- calorie_ratios rest ;;
      Return (this ++ others)%list
  end.

(** The builtin [sum] on floats as CPython computes it up to 3.11: from
    the integer 0, left to right. *)
Definition sum_left (l : list PrimFloat.float) : PrimFloat.float :=
  fold_left PrimFloat.add l 0%float.

(** The builtin [sum] from CPython 3.12 on: the first float is added to
    the integer 0, the others by the same additions with the rounding
    errors collected in [c], which is added at the end when it is finite
    and not zero. *)
Definition compensate (st : PrimFloat.float * PrimFloat.float) (x : PrimFloat.float)
  : PrimFloat.float * PrimFloat.float :=
  let '(f_result, c) := st in
  let t := (f_result + x)%float in
  let c :=
    if PrimFloat.leb (abs x) (abs f_result)
    then (c + ((f_result - t) + x))%float
    else (c + ((x - t) + f_result))%float in
  (t, c).

Definition is_finite (x : PrimFloat.float) : bool :=
  PrimFloat.ltb (abs x) infinity.

Definition sum_compensated (l : list PrimFloat.float) : PrimFloat.float :=
  match l with
  | [] => 0%float
  | x :: rest =>
      let '(f_result, c) := fold_left compensate rest ((0 + x)%float, 0%float) in
      if negb (PrimFloat.eqb c 0) && is_finite c then (f_result + c)%float
      else f_result
  end.

Section CategoryStep.

(** The builtin [sum]; the step is the same for either version. *)
Variable sum : list PrimFloat.float -> PrimFloat.float.

(** The category-based corrections, step 5 of the adjuster. *)
Definition category_step (similar_corrections : list UserFeedback)
  (analysis_result : analysis) : exc analysis :=
  if (3 <=? List.length similar_corrections)%nat then
    calorie_ratios <- calorie_ratios similar_corrections ;;
    match calorie_ratios with
    | [] => Return analysis_result
    | _ =>
        avg_calorie_ratio <-
          truediv_len (sum calorie_ratios) (List.length calorie_ratios) ;;
        if PrimFloat.ltb 0.1 (abs (avg_calorie_ratio - 1.0)%float) then
          Return (set_learning_applied
                    (scale_calories analysis_result avg_calorie_ratio)
                    "category_calorie_adjustment")
        else Return analysis_result
    end
  else Return analysis_result.

End CategoryStep.

(** ** The words of the specification, read in double precision *)

(** "The relative change from [ai] to [corrected] exceeds [threshold]":
    both values are recorded and non-zero, and the computed
    [|corrected - ai| / ai] is above the threshold. *)
Definition relative_change_exceeds (corrected ai : option PrimFloat.float)
  (threshold : PrimFloat.float) : bool :=
  match corrected, ai with
  | Some c, Some a =>
      negb (PrimFloat.eqb c 0) && negb (PrimFloat.eqb a 0)
      && PrimFloat.ltb threshold (abs (c - a) / a)%float
  | _, _ => false
  end.

(** The ratio [corrected / ai] of two recorded values. *)
Definition ratio_of (corrected ai : option PrimFloat.float) : PrimFloat.float :=
  match corrected, ai with
  | Some c, Some a => (c / a)%float
  | _, _ => 0%float
  end.

Definition name_markers (c : UserFeedback) : list string :=
  if App.same_name (corrected_food_name c) (ai_food_name c) then []
  else ["name_correction"].

(** The mean of a list of ratios that is not empty. *)
Definition mean (sum : list PrimFloat.float -> PrimFloat.float)
  (l : list PrimFloat.float) : PrimFloat.float :=
  (sum l / of_nat (List.length l))%float.

(** "The per-record calorie ratio, restricted to [0.3, 3.0]", of a record
    whose two calorie values are recorded and non-zero. *)
Definition usable_ratio (c : UserFeedback) : option PrimFloat.float :=
  match corrected_calories c, ai_calories c with
  | Some corrected, Some ai =>
      if negb (PrimFloat.eqb ai 0) && negb (PrimFloat.eqb corrected 0)
         && between 0.3 (corrected / ai)%float 3.0
      then Some (corrected / ai)%float
      else None
  | _, _ => None
  end.

Fixpoint clipped_ratios (l : list UserFeedback) : list PrimFloat.float :=
  match l with
  | [] => []
  | c :: r =>
      match usable_ratio c with
      | Some q => q :: clipped_ratios r
      | None => clipped_ratios r
      end
  end.

(** ** Reference inputs *)

(** A correction for "burrito bowl" whose names agree. *)
Definition correction (ai_weight ai_cal corrected_weight corrected_cal : PrimFloat.float)
  : UserFeedback :=
  mk_feedback (Some "burrito bowl") (Some ai_weight) (Some ai_cal)
    (Some "burrito bowl") (Some corrected_weight) (Some corrected_cal).

(** The raw estimate the adjuster receives: 100 g, 200 kcal. *)
Definition raw_estimate : analysis :=
  mk_analysis (Some "burrito bowl") 100 200 None.

(** The example of the specification: 100 g -> 105 g, 200 kcal -> 400 kcal. *)
Definition density_fix : UserFeedback := correction 100 200 105 400.

(** The weight field of the edit form left empty: corrected weight 0. *)
Definition weight_left_empty : UserFeedback := correction 100 200 0 400.

(** Changes that sit on a threshold: 100.2 kcal -> 150.3 kcal is a relative
    change of one half, 50.5 g -> 60.6 g one of one fifth. *)
Definition half_more_calories : UserFeedback := correction 100 100.2 100 150.3.
Definition fifth_more_weight : UserFeedback := correction 50.5 200 60.6 200.

(** Three corrections 100 kcal -> 110 kcal, a ratio of 1.1 each; and two. *)
Definition tenth_more : UserFeedback := correction 100 100 100 110.
Definition three_tenth_more : list UserFeedback := [tenth_more; tenth_more; tenth_more].
Definition two_tenth_more : list UserFeedback := [tenth_more; tenth_more].

End Binary64.

(* ================================================================== *)
(** * Replies of the chat service *)
(* ================================================================== *)

Module Replies.
Import WebSearchNutrition.



End Replies.

(* ================================================================== *)
(** * app.py: workouts *)
(* ================================================================== *)

Module Workout.

(** The three tables of [met_values]. *)
Definition light_mets : list (string * Q) :=
  [ ("default", 2.5); ("yoga", 2.5); ("walking", 3.0); ("stretching", 2.3) ].

Definition moderate_mets : list (string * Q) :=
  [ ("default", 5.0); ("weight training", 4.8); ("cycling", 5.8);
    ("brisk walking", 4.5); ("swimming", 5.8); ("dancing", 4.8) ].

Definition high_mets : list (string * Q) :=
  [ ("default", 9.0); ("running", 11.0); ("hiit", 12.0); ("jiu jitsu", 10.0);
    ("martial arts", 10.0); ("boxing", 12.0); ("basketball", 8.0); ("soccer", 10.0) ].

Definition met_values : list (string * list (string * Q)) :=
  [ ("light", light_mets); ("moderate", moderate_mets); ("high", high_mets) ].

(** The [for ... in intensity_mets.items()] loop with its [break]: the
    value of the first key that is in the activity, else [met_value]. *)
Fixpoint first_activity (activity_lower : string) (items : list (string * Q))
  (met_value : option Q) : option Q :=
  match items with
  | [] => met_value
  | (activity, met) :: rest =>
      if contains activity activity_lower then Some met
      else first_activity activity_lower rest met_value
  end.

Definition calculate_calories_burned (activity_type intensity : string)
  (duration_minutes weight_kg : Q) : exc Q :=
  let activity_lower := lower activity_type in
  let intensity_mets :=
    match lookup intensity met_values with
    | Some mets => mets
    | None => moderate_mets              (* [met_values['moderate']] *)
    end in
  let met_value := lookup "default" intensity_mets in
  let met_value := first_activity activity_lower intensity_mets met_value in
  let duration_hours := duration_minutes / 60.0 in
  met_value <- float met_value ;;
  let calories_burned := met_value * weight_kg * duration_hours in
  Return (round calories_burned 2).

(** The band of MET values an intensity can give. *)
Definition met_band (intensity : string) : Q * Q :=
  if String.eqb intensity "light" then (2.3, 3.0)
  else if String.eqb intensity "high" then (8.0, 12.0)
  else (4.5, 5.8).

End Workout.

(* ================================================================== *)
(** * app.py: the edit route and the capture of corrections *)
(* ================================================================== *)

Module Feedback.

Import App.

(** A key of a dict: absent, or present with a value that may be [None]. *)
Inductive slot (A : Type) : Type :=
| Absent
| Present (v : option A).
Arguments Absent {A}.
Arguments Present {A} v.

(** [d.get(key, default)] *)
Definition slot_get {A : Type} (s : slot A) (default : option A) : option A :=
  match s with
  | Absent => default
  | Present v => v
  end.

(** The dict [original_analysis]; the six keys the code reads. *)
Record original : Type := mk_original {
  o_food_name : slot string;
  o_weight_grams : slot Q;
  o_calories : slot Q;
  o_protein : slot Q;
  o_carbs : slot Q;
  o_fat : slot Q
}.

Definition is_absent {A : Type} (s : slot A) : bool :=
  match s with
  | Absent => true
  | Present _ => false
  end.

(** [not original_analysis]: [None], or a dict without keys. *)
Definition falsy_dict (d : option original) : bool :=
  match d with
  | None => true
  | Some o =>
      is_absent (o_food_name o) && is_absent (o_weight_grams o)
      && is_absent (o_calories o) && is_absent (o_protein o)
      && is_absent (o_carbs o) && is_absent (o_fat o)
  end.

(** A row of [food_entries]; the columns the edit route and the capture
    read. *)
Record FoodEntry : Type := mk_food_entry {
  fe_user_id : nat;
  fe_food_name : string;
  estimated_weight_grams : option Q;
  actual_weight_grams : option Q;
  fe_calories : Q;
  fe_protein : option Q;
  fe_carbs : option Q;
  fe_fat : option Q;
  user_corrected : bool;
  original_ai_food_name : option string
}.

(** [x or 0] *)
Definition or_zero (x : option Q) : Q :=
  if truthy x then get x 0 else 0.

(** [capture_user_feedback]: the row it adds to [user_feedback], stamped
    [now], and the row's [correction_type]; [None] when it returns early.
    Of the row, the columns the learning functions read. *)
Definition capture_user_feedback (now : Q) (entry : FoodEntry)
  (original_analysis : option original) : exc (option (UserFeedback * string)) :=
  match original_analysis with
  | None => Return None
  | Some o =>
      if negb (user_corrected entry) || falsy_dict original_analysis then Return None
      else
        let name :=
          negb (same_name (slot_get (o_food_name o) None) (Some (fe_food_name entry))) in
        ai_weight <- float (slot_get (o_weight_grams o) (Some 0)) ;;
        let portion :=
          Qlt_bool 5 (Qabs (ai_weight - or_zero (actual_weight_grams entry))) in
        ai_calories <- float (slot_get (o_calories o) (Some 0)) ;;
        nutrition <-
          (if Qlt_bool 10 (Qabs (ai_calories - fe_calories entry)) then Return true
           else
             ai_protein <- float (slot_get (o_protein o) (Some 0)) ;;
             Return (Qlt_bool 2 (Qabs (ai_protein - or_zero (fe_protein entry))))) ;;
        let correction_types :=
          ((if name then ["name"] else [])
           ++ (if portion then ["portion"] else [])
           ++ (if nutrition then ["nutrition"] else []))%list in
        let correction_type :=
          match correction_types with
          | [] => "all"
          | _ => join "," correction_types
          end in
        Return (Some (mk_feedback (fe_user_id entry)
                        (slot_get (o_food_name o) None)
                        (slot_get (o_weight_grams o) None)
                        (slot_get (o_calories o) None)
                        (Some (fe_food_name entry))
                        (actual_weight_grams entry)
                        (Some (fe_calories entry))
                        (Some (classify_food_category (fe_food_name entry)))
                        now,
                      correction_type))
  end.

(** The fields of the edit form, as the numbers [float] reads from them;
    a field the form may leave out is optional. *)
Record edit_form : Type := mk_form {
  form_food_name : string;
  form_weight : option Q;
  form_calories : Q;
  form_protein : option Q;
  form_carbs : option Q;
  form_fat : option Q
}.

(** [a or b] on an optional string. *)
Definition or_name (a : option string) (b : string) : string :=
  match a with
  | Some s => if String.eqb s "" then b else s
  | None => b
  end.

(** The POST branch of [edit_entry] on the entry and the table
    [user_feedback]: the entry as updated, and the table afterwards. *)
Definition edit_entry (now : Q) (table : list UserFeedback) (current_user : nat)
  (entry : FoodEntry) (form : edit_form) : FoodEntry * list UserFeedback :=
  if negb (Nat.eqb (fe_user_id entry) current_user) then (entry, table)
  else
    let original_analysis :=
      mk_original
        (Present (Some (or_name (original_ai_food_name entry) (fe_food_name entry))))
        (Present (estimated_weight_grams entry))
        (Present (Some (fe_calories entry)))
        (Present (fe_protein entry))
        (Present (fe_carbs entry))
        (Present (fe_fat entry)) in
    let entry :=
      mk_food_entry (fe_user_id entry) (form_food_name form)
        (estimated_weight_grams entry)
        (Some (get (form_weight form) 0))
        (form_calories form)
        (Some (get (form_protein form) 0))
        (Some (get (form_carbs form) 0))
        (Some (get (form_fat form) 0))
        true
        (original_ai_food_name entry) in
    match capture_user_feedback now entry (Some original_analysis) with
    | Return (Some (feedback, _)) => (entry, (table ++ [feedback])%list)
    | _ => (entry, table)
    end.

End Feedback.

(* ================================================================== *)
(** * hyper_accurate_calculator.py: the cascade *)
(* ================================================================== *)

Module HyperAccurateCascade.

Import EnhancedFoodDatabase HyperAccurateCalculator.

(** The dataclass [NutritionalInfo] of this file; [brand] and
    [serving_description] are not modelled. *)
Record NutritionalInfo : Type := mk_hyper {
  h_food_name : string;
  h_calories : Q;
  h_protein : Q;
  h_carbs : Q;
  h_fat : Q;
  h_fiber : Q;
  h_sugar : Q;
  h_sodium : Q;
  h_weight_grams : Q;
  h_confidence_score : Q;
  h_data_source : string
}.

(** A row of the branded table. *)
Record branded : Type := mk_branded {
  display_name : string;
  b_calories : Q;
  b_protein : Q;
  b_carbs : Q;
  b_fat : Q;
  b_fiber : Q;
  b_sugar : Q;
  b_sodium : Q;
  serving_weight : Q
}.

Definition _load_branded_foods_database : list (string * branded) :=
  [ ("big mac", mk_branded "McDonald's Big Mac" 570 25 45 33 3 9 1010 222);
    ("bigmac", mk_branded "McDonald's Big Mac" 570 25 45 33 3 9 1010 222);
    ("quarter pounder with cheese",
     mk_branded "McDonald's Quarter Pounder with Cheese" 540 31 43 28 3 10 1110 194);
    ("whopper", mk_branded "Burger King Whopper" 660 28 49 40 3 11 980 291) ].

Definition min (a b : Q) : Q := if Qlt_bool b a then b else a.
Definition max (a b : Q) : Q := if Qlt_bool a b then b else a.

Definition _fuzzy_match (input_text database_key : string) : bool :=
  let input_words := set (split (lower input_text)) in
  let key_words := set (split (lower database_key)) in
  if String.eqb input_text database_key then true
  else
    let overlap := len (inter input_words key_words) in
    let min_words := min (len input_words) (len key_words) in
    Qle_bool (max 1 (min_words * 0.7)) overlap.

Definition _scale_nutrition (base_value base_weight target_weight : Q) : Q :=
  if Qeq_bool base_weight 0 then 0
  else (base_value * target_weight) / base_weight.

(** The loop of [_get_branded_nutrition]: the first key that matches. *)
Fixpoint first_brand (food_lower : string) (items : list (string * branded))
  : option branded :=
  match items with
  | [] => None
  | (brand_key, nutrition_data) :: rest =>
      if _fuzzy_match food_lower brand_key then Some nutrition_data
      else first_brand food_lower rest
  end.

Definition _get_branded_nutrition (food_name : string) (weight_grams : Q)
  : option NutritionalInfo :=
  let food_lower := strip (lower food_name) in
  match first_brand food_lower _load_branded_foods_database with
  | Some nutrition_data =>
      let scale value := _scale_nutrition value (serving_weight nutrition_data) weight_grams in
      Some (mk_hyper (display_name nutrition_data)
              (scale (b_calories nutrition_data))
              (scale (b_protein nutrition_data))
              (scale (b_carbs nutrition_data))
              (scale (b_fat nutrition_data))
              (scale (b_fiber nutrition_data))
              (scale (b_sugar nutrition_data))
              (scale (b_sodium nutrition_data))
              weight_grams 0.95 "branded_database")
  | None => None
  end.

(** The first food of a search reply: its description and its
    [foodNutrients], as pairs of [nutrientName] and [value]. *)
Record usda_food : Type := mk_usda_food {
  description : option string;
  foodNutrients : list (string * Q)
}.

(** The [if / elif] chain of [_parse_usda_nutrients]: the key a nutrient
    name is stored under. *)
Definition nutrient_key (name : string) : option string :=
  if contains "Energy" name then Some "Energy"
  else if contains "Protein" name then Some "Protein"
  else if contains "Carbohydrate" name && contains "by difference" name
       then Some "Carbohydrate"
  else if contains "Total lipid" name || contains "Fat" name
       then Some "Total lipid (fat)"
  else if contains "Fiber" name then Some "Fiber"
  else if contains "Sugars" name then Some "Sugars"
  else if contains "Sodium" name then Some "Sodium"
  else None.

Definition parse_step (nutrients : list (string * Q)) (nutrient : string * Q)
  : list (string * Q) :=
  let '(name, amount) := nutrient in
  match nutrient_key name with
  | Some key => store key amount nutrients
  | None => nutrients
  end.

Definition _parse_usda_nutrients (food_data : usda_food) : list (string * Q) :=
  fold_left parse_step (foodNutrients food_data) [].

Definition is_lower (c : ascii) : bool :=
  let n := nat_of_ascii c in ((97 <=? n) && (n <=? 122))%nat.
Definition is_upper (c : ascii) : bool :=
  let n := nat_of_ascii c in ((65 <=? n) && (n <=? 90))%nat.
Definition upper_ascii (c : ascii) : ascii :=
  if is_lower c then ascii_of_nat (nat_of_ascii c - 32) else c.

(** [s.title()]: a letter after a letter is lowered, any other letter is
    raised. *)
Fixpoint title_aux (s : string) (previous_is_cased : bool) : string :=
  match s with
  | EmptyString => EmptyString
  | String c r =>
      if is_lower c then
        String (if previous_is_cased then c else upper_ascii c) (title_aux r true)
      else if is_upper c then
        String (if previous_is_cased then lower_ascii c else c) (title_aux r true)
      else String c (title_aux r false)
  end.

Definition title (s : string) : string := title_aux s false.

Definition _get_pattern_based_nutrition (food_name : string) (weight_grams : Q)
  : option NutritionalInfo :=
  match get_enhanced_nutrition_data food_name with
  | Some nutrition_data =>
      let scale_factor := weight_grams / 100.0 in
      Some (mk_hyper (title food_name)
              (calories_per_100g nutrition_data * scale_factor)
              (get (protein_per_100g nutrition_data) 0 * scale_factor)
              (get (carbs_per_100g nutrition_data) 0 * scale_factor)
              (get (fat_per_100g nutrition_data) 0 * scale_factor)
              (0 * scale_factor)
              (0 * scale_factor)
              (0 * scale_factor)
              weight_grams 0.75 "enhanced_pattern_matching")
  | None => None
  end.

Definition _get_fallback_nutrition (food_name : string) (weight_grams : Q)
  : NutritionalInfo :=
  mk_hyper food_name (weight_grams * 2.0) (weight_grams * 0.1) (weight_grams * 0.3)
    (weight_grams * 0.05) 0.0 0.0 0.0 weight_grams 0.2 "conservative_fallback".

(** Both ids are [None] in [__init__]: the guard of
    [_get_nutritionix_nutrition] returns before any request. *)
Definition nutritionix_app_id : option string := None.
Definition nutritionix_app_key : option string := None.

Definition _format_nutrition_result (nutrition_info : NutritionalInfo) : nutrition_dict :=
  mk_nutrition (Some (h_food_name nutrition_info))
    (h_weight_grams nutrition_info)
    (round (h_calories nutrition_info) 1)
    (round (h_protein nutrition_info) 1)
    (round (h_carbs nutrition_info) 1)
    (round (h_fat nutrition_info) 1)
    (Some (round (h_fiber nutrition_info) 1))
    (Some (round (h_sugar nutrition_info) 1))
    (Some (round (h_sodium nutrition_info) 3))
    (h_data_source nutrition_info)
    (Some (h_confidence_score nutrition_info)).

(** [r and r.confidence_score > threshold] *)
Definition confident (r : option NutritionalInfo) (threshold : Q) : bool :=
  match r with
  | Some i => Qlt_bool threshold (h_confidence_score i)
  | None => false
  end.

Definition add_component (combined : NutritionalInfo) (c : NutritionalInfo)
  : NutritionalInfo :=
  mk_hyper (h_food_name combined)
    (h_calories combined + h_calories c)
    (h_protein combined + h_protein c)
    (h_carbs combined + h_carbs c)
    (h_fat combined + h_fat c)
    (h_fiber combined + h_fiber c)
    (h_sugar combined + h_sugar c)
    (h_sodium combined + h_sodium c)
    (h_weight_grams combined) (h_confidence_score combined) (h_data_source combined).

Definition set_confidence_score (i : NutritionalInfo) (c : Q) : NutritionalInfo :=
  mk_hyper (h_food_name i) (h_calories i) (h_protein i) (h_carbs i) (h_fat i)
    (h_fiber i) (h_sugar i) (h_sodium i) (h_weight_grams i) c (h_data_source i).

Section Sources.

(** The search request to the government service: the first food of the
    reply, or [None] for an error status, an empty reply or an exception. *)
Variable usda_search : string -> option usda_food.

(** The request to the commercial service, likewise. *)
Variable nutritionix_request : string -> Q -> option NutritionalInfo.

Definition _get_usda_nutrition (food_name : string) (weight_grams : Q)
  : option NutritionalInfo :=
  match usda_search food_name with
  | Some best_food =>
      let nutrients := _parse_usda_nutrients best_food in
      match nutrients with
      | [] => None
      | _ =>
          let scale_factor := weight_grams / 100.0 in
          Some (mk_hyper
                  (match description best_food with
                   | Some d => d
                   | None => food_name
                   end)
                  (get (lookup "Energy" nutrients) 0 * scale_factor)
                  (get (lookup "Protein" nutrients) 0 * scale_factor)
                  (get (lookup "Carbohydrate" nutrients) 0 * scale_factor)
                  (get (lookup "Total lipid (fat)" nutrients) 0 * scale_factor)
                  (get (lookup "Fiber" nutrients) 0 * scale_factor)
                  (get (lookup "Sugars" nutrients) 0 * scale_factor)
                  (get (lookup "Sodium" nutrients) 0 * scale_factor / 1000)
                  weight_grams 0.85 "usda_fdc")
      end
  | None => None
  end.

Definition _get_nutritionix_nutrition (food_name : string) (weight_grams : Q)
  : option NutritionalInfo :=
  match nutritionix_app_id, nutritionix_app_key with
  | Some _, Some _ => nutritionix_request food_name weight_grams
  | _, _ => None
  end.

(** [a or b or c] *)
Definition _get_single_food_nutrition (food_name : string) (weight_grams : Q)
  : option NutritionalInfo :=
  match _get_branded_nutrition food_name weight_grams with
  | Some i => Some i
  | None =>
      match _get_usda_nutrition food_name weight_grams with
      | Some i => Some i
      | None => _get_pattern_based_nutrition food_name weight_grams
      end
  end.

(** One turn of the loop over [weight_distribution.items()]. *)
Definition component_step (st : NutritionalInfo * Q) (item : string * Q)
  : NutritionalInfo * Q :=
  let '(combined_nutrition, total_confidence) := st in
  let '(food_name, estimated_weight) := item in
  match _get_single_food_nutrition food_name estimated_weight with
  | Some component_nutrition =>
      (add_component combined_nutrition component_nutrition,
       total_confidence + h_confidence_score component_nutrition)
  | None => st
  end.

Definition _calculate_multi_food_ai_enhanced (all_foods : list string) (total_weight : Q)
  : exc (option NutritionalInfo) :=
  if (List.length all_foods <=? 1)%nat then Return None
  else
    weight_distribution <- _estimate_weight_distribution all_foods total_weight ;;
    let combined_nutrition :=
      mk_hyper (join " + " all_foods) 0 0 0 0 0 0 0 total_weight 0.0
        "ai_enhanced_multi_food" in
    let '(combined_nutrition, total_confidence) :=
      fold_left component_step weight_distribution (combined_nutrition, 0) in
    if (0 <? List.length weight_distribution)%nat then
      confidence <- truediv total_confidence (len weight_distribution) ;;
      Return (Some (set_confidence_score combined_nutrition confidence))
    else Return None.

Definition calculate_hyper_accurate_calories (recognition_result : recognition_result)
  : exc nutrition_dict :=
  let food_name :=
    strip (match primary_food recognition_result with
           | Some n => n
           | None => ""
           end) in
  let estimated_weight := get (estimated_weight recognition_result) 100 in
  let all_foods :=
    match all_foods recognition_result with
    | Some l => l
    | None => [food_name]
    end in
  let branded_result := _get_branded_nutrition food_name estimated_weight in
  match (if confident branded_result 0.8 then branded_result else None) with
  | Some i => Return (_format_nutrition_result i)
  | None =>
  let usda_result := _get_usda_nutrition food_name estimated_weight in
  match (if confident usda_result 0.7 then usda_result else None) with
  | Some i => Return (_format_nutrition_result i)
  | None =>
  let nutritionix_result := _get_nutritionix_nutrition food_name estimated_weight in
  match (if confident nutritionix_result 0.7 then nutritionix_result else None) with
  | Some i => Return (_format_nutrition_result i)
  | None =>
  ai_result <-
    (if (1 <? List.length all_foods)%nat
     then _calculate_multi_food_ai_enhanced all_foods estimated_weight
     else Return None) ;;
  match ai_result with
  | Some i => Return (_format_nutrition_result i)
  | None =>
  match _get_pattern_based_nutrition food_name estimated_weight with
  | Some i => Return (_format_nutrition_result i)
  | None =>
      Return (_format_nutrition_result (_get_fallback_nutrition food_name estimated_weight))
  end end end end end.

End Sources.

End HyperAccurateCascade.

(* ================================================================== *)
(** * web_search_nutrition.py: reading the reply *)
(* ================================================================== *)

Module ReplyParser.

(** [s.find(c)] for a character; [None] is [-1]. *)
Fixpoint find (c : ascii) (s : string) : option nat :=
  match s with
  | EmptyString => None
  | String x r => if Ascii.eqb x c then Some 0%nat else option_map S (find c r)
  end.

(** [s.rfind(c)], likewise. *)
Fixpoint rfind (c : ascii) (s : string) : option nat :=
  match s with
  | EmptyString => None
  | String x r =>
      match rfind c r with
      | Some i => Some (S i)
      | None => if Ascii.eqb x c then Some 0%nat else None
      end
  end.

Section Parser.

(** The value [json.loads] builds, and [json.loads] itself, which raises
    on text that is not JSON. *)
Variable J : Type.
Variable loads : string -> exc J.

Definition _parse_nutrition_json (content : string) : option J :=
  let start := find "{" content in
  let end_ :=
    match rfind "}" content with
    | Some i => S i
    | None => 0%nat                      (* [-1 + 1] *)
    end in
  match start with
  | Some start =>
      if (start <? end_)%nat then
        let json_str := substring start (end_ - start) content in
        try_except (x <- loads json_str ;; Return (Some x)) None
      else None
  | None => None
  end.

End Parser.

End ReplyParser.

(* ================================================================== *)
(** * Measures used in the statements *)
(* ================================================================== *)

Module Measures.

Import CalorieCalculator.

(** The row [_get_local_nutrition] settles on for a label: the best row of
    the local table, else the category row, else the default. *)
Definition local_density (food_name : string) : density :=
  let food_name_lower := lower food_name in
  let best :=
    fold_left (best_step food_name_lower) _load_local_food_database (None, 0) in
  let best_match :=
    match fst best with
    | Some m => if Qlt_bool (snd best) 10 then _match_food_category food_name_lower
                else Some m
    | None => _match_food_category food_name_lower
    end in
  match best_match with
  | Some m => m
  | None => default_density
  end.

(** A row at a weight. *)
Definition at_weight (d : density) (weight_grams : Q) : NutritionalInfo :=
  mk_info (d_calories_per_100g d * (weight_grams / 100))
          (d_protein_per_100g d * (weight_grams / 100))
          (d_carbs_per_100g d * (weight_grams / 100))
          (d_fat_per_100g d * (weight_grams / 100))
          (d_fiber_per_100g d * (weight_grams / 100))
          (d_sugar_per_100g d * (weight_grams / 100))
          (d_sodium_per_100g d * (weight_grams / 100)).

Definition nonneg_density (d : density) : bool :=
  Qle_bool 0 (d_calories_per_100g d) && Qle_bool 0 (d_protein_per_100g d)
  && Qle_bool 0 (d_carbs_per_100g d) && Qle_bool 0 (d_fat_per_100g d)
  && Qle_bool 0 (d_fiber_per_100g d) && Qle_bool 0 (d_sugar_per_100g d)
  && Qle_bool 0 (d_sodium_per_100g d).

Definition nonneg_info (i : NutritionalInfo) : Prop :=
  0 <= i_calories i /\ 0 <= i_protein i /\ 0 <= i_carbs i /\ 0 <= i_fat i
  /\ 0 <= i_fiber i /\ 0 <= i_sugar i /\ 0 <= i_sodium i.

(** The seven nutrients of a row and of a [NutritionalInfo]. *)
Inductive nutrient : Type :=
  Calories | Protein | Carbs | Fat | Fiber | Sugar | Sodium.

Definition density_of (n : nutrient) (d : density) : Q :=
  match n with
  | Calories => d_calories_per_100g d
  | Protein => d_protein_per_100g d
  | Carbs => d_carbs_per_100g d
  | Fat => d_fat_per_100g d
  | Fiber => d_fiber_per_100g d
  | Sugar => d_sugar_per_100g d
  | Sodium => d_sodium_per_100g d
  end.

Definition amount_of (n : nutrient) (i : NutritionalInfo) : Q :=
  match n with
  | Calories => i_calories i
  | Protein => i_protein i
  | Carbs => i_carbs i
  | Fat => i_fat i
  | Fiber => i_fiber i
  | Sugar => i_sugar i
  | Sodium => i_sodium i
  end.

(** What [lstrip] leaves starts with no whitespace, and [rstrip] keeps
    the first character of such a string. *)
Definition starts_clean (s : string) : bool :=
  match s with
  | EmptyString => true
  | String c _ => negb (isspace c)
  end.

(** A list of keys without a repeated key. *)
Fixpoint nodup_keys (l : list string) : bool :=
  match l with
  | [] => true
  | x :: r => negb (mem x r) && nodup_keys r
  end.

(** [met] lies in the band [(lo, hi)]. *)
Definition in_band (band : Q * Q) (met : Q) : Prop :=
  fst band <= met /\ met <= snd band.

End Measures.

(* ================================================================== *)
(** * Further reference inputs *)
(* ================================================================== *)

Module Cases.

Import WebSearchNutrition CalorieCalculator App Feedback.

(** A packaged snack: branded for the calculator, no keyword of the web
    client. *)
Definition oreo_50 : recognition_result :=
  mk_recognition (Some "Oreo cookies") (Some 50) None.

(** A plate of three items, the first of which no table knows. *)
Definition mixed_plate : recognition_result :=
  mk_recognition (Some "paella") (Some 300) (Some ["paella"; "salad"; "bread"]).

(** A government client that always answers. *)
Definition generous_usda : string -> Q -> option NutritionalInfo :=
  fun _ w => Some (mk_info (9 * w) 0 0 0 0 0 0).

(** A registry label with a list of labels beside it. *)
Definition dal_plate : recognition_result :=
  mk_recognition (Some "Dal") (Some 200) (Some ["dal"; "rice"; "naan"]).

(** An upload of user 1 recognised as "pasta", 250 g and 400 kcal, not yet
    edited. *)
Definition pasta_entry : FoodEntry :=
  mk_food_entry 1 "pasta" (Some 250) None 400 (Some 14) (Some 75) (Some 3)
    false (Some "pasta").

(** The same row without an estimated weight. *)
Definition pasta_without_estimate : FoodEntry :=
  mk_food_entry 1 "pasta" None None 400 (Some 14) (Some 75) (Some 3)
    false (Some "pasta").

(** The edit that renames it and keeps the numbers. *)
Definition rename_form : edit_form :=
  mk_form "spaghetti bolognese" (Some 250) 400 (Some 14) (Some 75) (Some 3).

(** The edit that saves the entry as it is. *)
Definition confirm_form : edit_form :=
  mk_form "pasta" (Some 250) 400 (Some 14) (Some 75) (Some 3).

(** An earlier portion fix of user 1 for "pasta", 250 g -> 400 g. *)
Definition pasta_portion_fix : UserFeedback :=
  mk_feedback 1 (Some "pasta") (Some 250) (Some 400)
    (Some "pasta") (Some 400) (Some 400) (Some "grain") 5.

(** A row of user 2. *)
Definition stranger_fix : UserFeedback :=
  mk_feedback 2 (Some "pasta") (Some 250) (Some 400)
    (Some "lasagne") (Some 500) (Some 900) (Some "grain") 6.

Definition pasta_raw : analysis :=
  mk_analysis (Some "pasta") 250 400 14 75 3 None.

End Cases.

(* ================================================================== *)
(** * Properties *)
(* ================================================================== *)

Import EnhancedFoodDatabase WebSearchNutrition CalorieCalculator
       HyperAccurateCalculator App Spec Scenario.

(** ** Facts about the primitives *)

Section NumberFacts.

Lemma Qlt_bool_iff (a b : Q) : Qlt_bool a b = true <-> a < b.
Proof.
  unfold Qlt_bool. rewrite negb_true_iff, <- not_true_iff_false, Qle_bool_iff.
  split; [apply Qnot_le_lt | apply Qlt_not_le].
Qed.

Lemma Qlt_bool_false_iff (a b : Q) : Qlt_bool a b = false <-> b <= a.
Proof.
  unfold Qlt_bool. rewrite negb_false_iff. apply Qle_bool_iff.
Qed.

Lemma Qlt_bool_comp (a b b' : Q) : b == b' -> Qlt_bool a b = Qlt_bool a b'.
Proof.
  intros E. destruct (Qlt_bool a b') eqn:H.
  - apply Qlt_bool_iff. apply Qlt_bool_iff in H. now rewrite E.
  - apply Qlt_bool_false_iff. apply Qlt_bool_false_iff in H. now rewrite E.
Qed.

Lemma Qeq_bool_false_iff (a b : Q) : Qeq_bool a b = false <-> ~ a == b.
Proof.
  rewrite <- not_true_iff_false, Qeq_bool_iff. tauto.
Qed.

Lemma truthy_Some (q : Q) : ~ q == 0 -> truthy (Some q) = true.
Proof.
  intros H. simpl. now rewrite negb_true_iff, Qeq_bool_false_iff.
Qed.

Lemma truediv_defined (a b : Q) : ~ b == 0 -> truediv a b = Return (a / b).
Proof.
  intros H. unfold truediv. apply Qeq_bool_false_iff in H. now rewrite H.
Qed.

Lemma len_nonzero {A : Type} (l : list A) : l <> [] -> ~ len l == 0.
Proof.
  destruct l as [|a l]; [congruence|]. intros _. unfold len.
  change 0 with (inject_Z 0). rewrite inject_Z_injective.
  rewrite length_cons. lia.
Qed.

(** Rounding sees a number, not its representation. *)
Lemma round_half_even_comp (x y : Q) :
  x == y -> round_half_even x = round_half_even y.
Proof.
  intros H. unfold round_half_even.
  rewrite (Qfloor_comp _ _ H).
  assert (E : x - inject_Z (Qfloor y) == y - inject_Z (Qfloor y))
    by (rewrite H; reflexivity).
  rewrite E. reflexivity.
Qed.

Lemma round_half_even_Z (z : Z) : round_half_even (inject_Z z) = z.
Proof.
  unfold round_half_even. rewrite Qfloor_Z.
  assert (E : inject_Z z - inject_Z z == 0) by ring.
  rewrite E. reflexivity.
Qed.

(** The nearest integer is within one half. *)
Lemma round_half_even_near (y : Q) :
  Qabs (inject_Z (round_half_even y) - y) <= 1 # 2.
Proof.
  unfold round_half_even.
  pose proof (Qfloor_le y) as Hlo. pose proof (Qlt_floor y) as Hhi.
  rewrite inject_Z_plus in Hhi. change (inject_Z 1) with 1 in Hhi.
  apply Qabs_Qle_condition.
  destruct (Qcompare_spec (y - inject_Z (Qfloor y)) (1 # 2)) as [E | L | G].
  - destruct (Z.even (Qfloor y)).
    + split; lra.
    + rewrite inject_Z_plus. change (inject_Z 1) with 1. split; lra.
  - split; lra.
  - rewrite inject_Z_plus. change (inject_Z 1) with 1. split; lra.
Qed.

Lemma pow10_pos (n : nat) : 0 < pow10 n.
Proof.
  unfold pow10. change 0 with (inject_Z 0). rewrite <- Zlt_Qlt.
  apply Z.pow_pos_nonneg; lia.
Qed.

Lemma round_comp (x y : Q) (n : nat) : x == y -> round x n == round y n.
Proof.
  intros H. unfold round.
  rewrite (round_half_even_comp (x * pow10 n) (y * pow10 n)); [reflexivity|].
  now rewrite H.
Qed.

(** [round] leaves a whole number alone. *)
Lemma round_integer (z : Z) (n : nat) : round (inject_Z z) n == inject_Z z.
Proof.
  unfold round, pow10.
  rewrite (round_half_even_comp _ (inject_Z (z * 10 ^ Z.of_nat n)))
    by (rewrite inject_Z_mult; reflexivity).
  rewrite round_half_even_Z, inject_Z_mult.
  pose proof (pow10_pos n) as P. unfold pow10 in P.
  field. intros E. rewrite E in P. discriminate.
Qed.

Lemma round_near (x : Q) (n : nat) : Qabs (round x n - x) <= (1 # 2) / pow10 n.
Proof.
  pose proof (pow10_pos n) as P.
  pose proof (round_half_even_near (x * pow10 n)) as H.
  unfold round.
  assert (E : inject_Z (round_half_even (x * pow10 n)) / pow10 n - x
              == (inject_Z (round_half_even (x * pow10 n)) - x * pow10 n) / pow10 n).
  { field. intros Z. rewrite Z in P. discriminate. }
  rewrite E. unfold Qdiv. rewrite Qabs_Qmult.
  rewrite (Qabs_pos (/ pow10 n)) by (apply Qlt_le_weak, Qinv_lt_0_compat, P).
  apply Qmult_le_compat_r; [exact H|].
  apply Qlt_le_weak, Qinv_lt_0_compat, P.
Qed.

(** One decimal: the result is within 0.05. *)
Lemma round_1_near (x : Q) : Qabs (round x 1 - x) <= 1 # 20.
Proof.
  pose proof (round_near x 1) as H.
  assert (E : (1 # 2) / pow10 1 == 1 # 20) by reflexivity.
  now rewrite E in H.
Qed.

End NumberFacts.

Section DictFacts.

Lemma lookup_In {V : Type} (k : string) (d : list (string * V)) (v : V) :
  lookup k d = Some v -> In v (values d).
Proof.
  induction d as [|[k' v'] d IH]; simpl; [discriminate|].
  destruct (String.eqb k k').
  - intros [= <-]. now left.
  - intros H. right. now apply IH.
Qed.

End DictFacts.

(* ------------------------------------------------------------------ *)
(** ** The resolver: where a record comes from *)
(* ------------------------------------------------------------------ *)

Section Provenance.

Lemma unknown_misses_every_lookup :
  get_enhanced_nutrition_data "unknown" = None
  /\ CalorieCalculator._is_fast_food_item "unknown" = false
  /\ _is_branded_or_restaurant_item "unknown" = false
  /\ fold_left (best_step (lower "unknown")) _load_local_food_database (None, 0)
     = (None, 0)
  /\ _match_food_category (lower "unknown") = None.
Proof. repeat split; vm_compute; reflexivity. Qed.

Lemma unknown_local_nutrition :
  _get_local_nutrition "unknown" 100
  = mk_info (150 * (100 / 100)) (5 * (100 / 100)) (20 * (100 / 100))
            (5 * (100 / 100)) (2 * (100 / 100)) (8 * (100 / 100))
            (0.3 * (100 / 100)).
Proof.
  unfold _get_local_nutrition.
  destruct unknown_misses_every_lookup as (_ & _ & _ & Hloop & Hcat).
  rewrite Hloop, Hcat. reflexivity.
Qed.

Lemma enhanced_step_source :
  forall enhanced_modules chat recognition name w r,
    enhanced_step enhanced_modules chat recognition name w = Some r ->
    data_source r = "enhanced_database" \/ data_source r = "web_search_enhanced".
Proof.
  intros em chat rr name w r. unfold enhanced_step.
  destruct em; [|discriminate].
  destruct (calculate_accurate_calories name (Some w)) as [e|]; [|discriminate].
  destruct (CalorieCalculator._is_fast_food_item name).
  - destruct (String.eqb_spec
                (data_source (enhance_nutrition_with_web_search chat rr
                                (set_data_source e "enhanced_database")))
                "web_search_enhanced") as [E|E];
      intros [= <-]; [right; exact E | left; reflexivity].
  - intros [= <-]. left. reflexivity.
Qed.

Lemma web_search_step_source :
  forall enhanced_modules chat name w r,
    web_search_step enhanced_modules chat name w = Some r ->
    data_source r = "web_search_direct".
Proof.
  intros em chat name w r. unfold web_search_step.
  destruct (em && _); [|discriminate].
  destruct (get_web_search_nutrition chat name w) as [wd|]; [|discriminate].
  destruct (Qlt_bool _ _); [|discriminate].
  intros [= <-]. reflexivity.
Qed.

(** The tag [fallback_estimate] is the tag of the exception handler, and of
    nothing else. *)
Lemma fallback_estimate_iff_raise :
  forall enhanced_modules chat usda recognition,
    data_source (calculate_calories enhanced_modules chat usda recognition)
    = "fallback_estimate"
    <-> raises (calculate_calories_try enhanced_modules chat usda recognition) = true.
Proof.
  intros em chat usda rr. unfold calculate_calories, calculate_calories_try.
  destruct (primary_food rr) as [name|]; [|split; reflexivity].
  destruct (enhanced_step em chat rr name _) as [r|] eqn:E1.
  - apply enhanced_step_source in E1. cbn [try_except raises].
    split; [|discriminate]. intros H. rewrite H in E1. destruct E1; discriminate.
  - destruct (web_search_step em chat name _) as [r|] eqn:E2.
    + apply web_search_step_source in E2. cbn [try_except raises].
      split; [|discriminate]. intros H. rewrite H in E2. discriminate.
    + cbn [try_except raises]. split; discriminate.
Qed.

End Provenance.

(** C1, as the code has it.  When the government client misses for the
    label "unknown" (every table lookup misses for it, and the chat service
    is not consulted), resolution at 100 g returns calories 150.0, protein
    5.0, carbs 20.0, fat 5.0, and the record's [data_source] is
    "calculated": the values are the default densities of
    [_get_local_nutrition], not the output of [_get_fallback_nutrition]. *)
Theorem all_sources_miss_unknown_100 :
  forall (enhanced_modules : bool) (chat : chat_service)
         (usda : string -> Q -> option NutritionalInfo),
    usda "unknown" 100 = None ->
    let r := calculate_calories enhanced_modules chat usda unknown_100 in
    total_calories r == 150 /\ protein r == 5 /\ carbs r == 20 /\ fat r == 5
    /\ data_source r = "calculated".
Proof.
  intros enhanced_modules chat usda Husda.
  destruct unknown_misses_every_lookup as (Henh & Hfast & Hbrand & _ & _).
  assert (Hstd : calculate_calories enhanced_modules chat usda unknown_100
                 = standard_step usda "unknown" 100 ["unknown"]).
  { unfold calculate_calories, calculate_calories_try, enhanced_step,
      web_search_step, calculate_accurate_calories, unknown_100.
    cbn [primary_food estimated_weight all_foods get].
    rewrite Henh, Hfast, Hbrand.
    destruct enhanced_modules; reflexivity. }
  cbv zeta. rewrite Hstd.
  unfold standard_step, _get_nutrition_info. rewrite Husda.
  rewrite unknown_local_nutrition. simpl.
  repeat split; vm_compute; reflexivity.
Qed.

Lemma all_sources_miss_unknown_100_witness :
  failing_usda "unknown" 100 = None
  /\ data_source (calculate_calories true silent_chat failing_usda unknown_100)
     = "calculated".
Proof.
  split; [reflexivity|].
  apply (all_sources_miss_unknown_100 true silent_chat failing_usda). reflexivity.
Defined.

(** C1 as stated fails: with every client silent and every lookup missing,
    the record for "unknown" at 100 g is not tagged "fallback_estimate". *)
Lemma unknown_100_is_not_fallback_estimate :
  (forall n w, failing_usda n w = None)
  /\ (forall n, fast_food_reply silent_chat n = None)
  /\ (forall n, general_reply silent_chat n = None)
  /\ get_enhanced_nutrition_data "unknown" = None
  /\ _match_food_category (lower "unknown") = None
  /\ data_source (calculate_calories true silent_chat failing_usda unknown_100)
     <> "fallback_estimate".
Proof.
  repeat split; try reflexivity. vm_compute. discriminate.
Qed.

(* ------------------------------------------------------------------ *)
(** ** Splitting a weight over several labels *)
(* ------------------------------------------------------------------ *)

Section WeightSplit.

Lemma equal_shares_sum (foods : list string) (w : Q) :
  sum (values (map (fun food : string => (food, w)) foods)) == len foods * w.
Proof.
  unfold len, values. induction foods as [|food foods IH].
  - simpl. ring.
  - cbn [map snd sum]. rewrite IH.
    rewrite length_cons, Nat2Z.inj_succ, <- Z.add_1_r, inject_Z_plus.
    change (inject_Z 1) with 1. ring.
Qed.

Lemma len_cons {A : Type} (a : A) (l : list A) : len (a :: l) == len l + 1.
Proof.
  unfold len. rewrite length_cons, Nat2Z.inj_succ, <- Z.add_1_r, inject_Z_plus.
  reflexivity.
Qed.

(** A new key goes to the end of the dict. *)
Lemma store_absent {V : Type} (k : string) (v : V) (d : list (string * V)) :
  lookup k d = None -> store k v d = (d ++ [(k, v)])%list.
Proof.
  induction d as [|[k' v'] d IH]; cbn [lookup store app]; [reflexivity|].
  destruct (String.eqb k k'); [discriminate|].
  intros H. now rewrite IH.
Qed.

Lemma lookup_app_other {V : Type} (k k' : string) (v : V) (d : list (string * V)) :
  k <> k' -> lookup k d = None -> lookup k (d ++ [(k', v)])%list = None.
Proof.
  intros Hne. induction d as [|[k2 v2] d IH]; cbn [lookup app].
  - apply String.eqb_neq in Hne. now rewrite Hne.
  - destruct (String.eqb k k2); [discriminate|]. exact IH.
Qed.

(** The first loop over main-dish labels only counts them. *)
Lemma count_main_dishes (foods : list string) (p : portions) :
  Forall (fun food => branch_of food = Main) foods ->
  main_weight (fold_left count_step foods p) == main_weight p + len foods
  /\ veggie_weight (fold_left count_step foods p) = veggie_weight p
  /\ sauce_weight (fold_left count_step foods p) = sauce_weight p.
Proof.
  intros H. revert p. induction H as [|food foods Hf _ IH]; intros p.
  - cbn [fold_left]. repeat split. unfold len. simpl. ring.
  - cbn [fold_left]. destruct (IH (count_step p food)) as (Hm & Hv & Hs).
    unfold count_step in *. rewrite Hf in *. cbn [main_weight veggie_weight sauce_weight] in *.
    repeat split; [|exact Hv|exact Hs].
    rewrite Hm, len_cons. ring.
Qed.

(** The second loop over distinct main-dish labels gives each the same
    share, in order. *)
Lemma assign_main_dishes (p : portions) (total_portions total_weight n : Q)
  (foods : list string) (acc : list (string * Q)) :
  Forall (fun food => branch_of food = Main) foods ->
  NoDup foods ->
  (forall food, In food foods -> lookup food acc = None) ->
  fold_left (assign_step p total_portions total_weight n) foods acc
  = (acc ++ map (fun food =>
                   (food, main_weight p / total_portions * total_weight * 0.5)) foods)%list.
Proof.
  intros H. revert acc. induction H as [|food foods Hf _ IH]; intros acc Hnd Hacc.
  - cbn [fold_left map]. now rewrite app_nil_r.
  - cbn [fold_left map]. unfold assign_step at 2. rewrite Hf.
    rewrite (store_absent food _ acc) by (apply Hacc; now left).
    inversion Hnd as [|? ? Hnotin Hnd']; subst.
    rewrite IH; [now rewrite <- app_assoc| exact Hnd' |].
    intros f Hin. apply lookup_app_other.
    + intros ->. contradiction.
    + apply Hacc. now right.
Qed.

(** The heuristic on distinct main-dish labels: each is assigned half of
    the total, whatever their number. *)
Lemma main_dishes_get_half_each (foods : list string) (total_weight : Q) :
  foods <> [] ->
  NoDup foods ->
  Forall (fun food => branch_of food = Main) foods ->
  exists share,
    _estimate_weight_distribution foods total_weight
    = Return (map (fun food => (food, share)) foods)
    /\ share == total_weight / 2
    /\ assigned_total (map (fun food => (food, share)) foods)
       == len foods / 2 * total_weight.
Proof.
  intros Hne Hnd Hmain.
  destruct (count_main_dishes foods (mk_portions 0 0 0) Hmain) as (Hm & Hv & Hs).
  cbn [main_weight veggie_weight sauce_weight] in Hm, Hv, Hs.
  pose proof (len_nonzero foods Hne) as Hlen.
  unfold _estimate_weight_distribution.
  set (p := fold_left count_step foods (mk_portions 0 0 0)) in *.
  rewrite Hv, Hs.
  assert (HP : ~ main_weight p + 0 + 0 == 0) by (rewrite Hm; lra).
  apply Qeq_bool_false_iff in HP. rewrite HP.
  rewrite (assign_main_dishes p _ total_weight (len foods) foods [] Hmain Hnd)
    by reflexivity.
  cbn [app]. eexists. split; [reflexivity|].
  apply Qeq_bool_false_iff in HP.
  assert (Hshare : main_weight p / (main_weight p + 0 + 0) * total_weight * 0.5
                   == total_weight / 2).
  { field. intros E. apply HP. rewrite E. ring. }
  split; [exact Hshare|].
  unfold assigned_total. rewrite equal_shares_sum, Hshare. field.
Qed.

End WeightSplit.

(** The equal split of [_calculate_multi_food_nutrition], and with it the
    equal fallback inside the heuristic, hands out sub-weights whose sum
    is the total. *)
Remark equal_split_sums_to_the_total :
  forall (all_foods : list string) (total_weight : Q),
    (2 <= List.length all_foods)%nat ->
    sum (values (multi_food_shares all_foods total_weight)) == total_weight.
Proof.
  intros foods total Hlen. unfold multi_food_shares.
  rewrite equal_shares_sum. field. apply len_nonzero.
  destruct foods; [simpl in Hlen; lia | discriminate].
Qed.

(** C2, evaluated on the code.  [_estimate_weight_distribution] announces
    a proportional distribution of the total, half of it for the mains,
    three tenths for the vegetables and one tenth for the sauces, but it
    gives every label the whole share of its group and never normalises:
    for rice and broccoli and a total of 100 g it assigns 25 g and 15 g,
    40 g in all; for rice, chicken and beef it assigns 50 g each, 150 g in
    all. *)
Theorem rice_broccoli_sum_to_40 :
  (exists rice broccoli,
      _estimate_weight_distribution ["rice"; "broccoli"] 100
      = Return [("rice", rice); ("broccoli", broccoli)]
      /\ rice == 25 /\ broccoli == 15
      /\ assigned_total [("rice", rice); ("broccoli", broccoli)] == 40
      /\ ~ assigned_total [("rice", rice); ("broccoli", broccoli)] == 100)
  /\ (exists distribution,
         _estimate_weight_distribution ["rice"; "chicken"; "beef"] 100
         = Return distribution
         /\ assigned_total distribution == 150).
Proof.
  split.
  - do 2 eexists. split; [vm_compute; reflexivity|].
    repeat split; try (vm_compute; reflexivity).
    vm_compute. discriminate.
  - eexists. split; [vm_compute; reflexivity|]. vm_compute. reflexivity.
Qed.

(* ------------------------------------------------------------------ *)
(** ** The weight a record reports *)
(* ------------------------------------------------------------------ *)

Section ReportedWeight.

Lemma search_fast_food_serving_weight :
  forall chat name w wd,
    ~ w == 0 ->
    _search_fast_food_nutrition chat name w = Some wd ->
    get (w_serving_weight_grams wd) w == w.
Proof.
  intros chat name w wd Hw. unfold _search_fast_food_nutrition.
  destruct (fast_food_reply chat name) as [reply|]; [|discriminate].
  destruct (w_error reply); cbn [negb]; [discriminate|].
  rewrite (truthy_Some w Hw). cbn [andb].
  destruct (Qeq_bool w (get (w_serving_weight_grams reply) w)) eqn:E; cbn [negb].
  - intros [= <-]. apply Qeq_bool_iff in E. symmetry. exact E.
  - unfold _scale_nutrition_data, truediv.
    destruct (Qeq_bool (get (w_serving_weight_grams reply) 100) 0);
      cbn [bind try_except]; [discriminate|].
    intros [= <-]. reflexivity.
Qed.

Lemma search_general_serving_weight :
  forall chat name w wd,
    ~ w == 0 ->
    _search_general_nutrition chat name w = Some wd ->
    get (w_serving_weight_grams wd) w == w.
Proof.
  intros chat name w wd Hw. unfold _search_general_nutrition.
  destruct (general_reply chat name) as [reply|]; [|discriminate].
  destruct (g_error reply); cbn [negb]; [discriminate|].
  rewrite (truthy_Some w Hw). intros [= <-]. reflexivity.
Qed.

(** The client rescales a reply to the weight it was asked for, so the
    serving weight it reports is that weight. *)
Lemma web_search_serving_weight :
  forall chat name w wd,
    ~ w == 0 ->
    get_web_search_nutrition chat name w = Some wd ->
    get (w_serving_weight_grams wd) w == w.
Proof.
  intros chat name w wd Hw. unfold get_web_search_nutrition.
  destruct (WebSearchNutrition._is_fast_food_item name).
  - now apply search_fast_food_serving_weight.
  - destruct (_needs_web_search name); [|discriminate].
    now apply search_general_serving_weight.
Qed.

Lemma enhance_keeps_weight :
  forall chat recognition existing,
    ~ get (estimated_weight recognition) 100 == 0 ->
    weight_grams existing == get (estimated_weight recognition) 100 ->
    weight_grams (enhance_nutrition_with_web_search chat recognition existing)
    == get (estimated_weight recognition) 100.
Proof.
  intros chat rr existing Hw Hex. unfold enhance_nutrition_with_web_search.
  destruct (get_web_search_nutrition chat _ _) as [wd|] eqn:E.
  - destruct (Qlt_bool 0.8 _).
    + cbn [weight_grams]. now apply web_search_serving_weight in E.
    + exact Hex.
  - exact Hex.
Qed.

Lemma accurate_calories_weight :
  forall name w r,
    calculate_accurate_calories name (Some w) = Some r -> weight_grams r = w.
Proof.
  intros name w r. unfold calculate_accurate_calories.
  destruct (get_enhanced_nutrition_data name); [|discriminate].
  intros [= <-]. reflexivity.
Qed.

(** The hypothesis of a positive weight is needed: asked for 0 g, the
    fast-food path does not rescale and the record reports the serving of
    the source. *)
Remark zero_weight_reports_the_serving :
  weight_grams (calculate_calories true latte_chat failing_usda latte_0) == 473.
Proof. vm_compute. reflexivity. Qed.

End ReportedWeight.

(** C3.  For every record the resolver returns for a positive requested
    weight, whichever step of the cascade produced it (enhanced database,
    web enhancement, direct web search, standard calculation, fallback),
    [weight_grams] is the requested weight: a web reply is rescaled to the
    request before its serving weight is read. *)
Theorem weight_grams_is_requested_weight :
  forall (enhanced_modules : bool) (chat : chat_service)
         (usda : string -> Q -> option NutritionalInfo)
         (recognition : recognition_result),
    0 < get (estimated_weight recognition) 100 ->
    weight_grams (calculate_calories enhanced_modules chat usda recognition)
    == get (estimated_weight recognition) 100.
Proof.
  intros em chat usda rr Hpos.
  assert (Hw : ~ get (estimated_weight rr) 100 == 0) by lra.
  unfold calculate_calories, calculate_calories_try.
  destruct (primary_food rr) as [name|] eqn:Hname; [|reflexivity].
  destruct (enhanced_step em chat rr name _) as [r|] eqn:E1.
  - cbn [try_except]. unfold enhanced_step in E1.
    destruct em; [|discriminate].
    destruct (calculate_accurate_calories name _) as [e|] eqn:Ee; [|discriminate].
    apply accurate_calories_weight in Ee.
    destruct (CalorieCalculator._is_fast_food_item name).
    + destruct (String.eqb _ _); injection E1 as <-.
      * apply enhance_keeps_weight; [exact Hw|]. cbn. now rewrite Ee.
      * cbn. now rewrite Ee.
    + injection E1 as <-. cbn. now rewrite Ee.
  - destruct (web_search_step em chat name _) as [r|] eqn:E2.
    + cbn [try_except]. unfold web_search_step in E2.
      destruct (em && _); [|discriminate].
      destruct (get_web_search_nutrition chat name _) as [wd|] eqn:Ew; [|discriminate].
      destruct (Qlt_bool _ _); [|discriminate].
      injection E2 as <-. cbn [weight_grams].
      now apply web_search_serving_weight in Ew.
    + reflexivity.
Qed.

Lemma weight_grams_witness :
  0 < get (estimated_weight latte_200) 100
  /\ data_source (calculate_calories true latte_chat failing_usda latte_200)
     = "web_search_direct"
  /\ weight_grams (calculate_calories true latte_chat failing_usda latte_200) == 200.
Proof.
  split; [reflexivity|]. split; [vm_compute; reflexivity|].
  apply (weight_grams_is_requested_weight true latte_chat failing_usda latte_200).
  reflexivity.
Defined.

(* ------------------------------------------------------------------ *)
(** ** The brand registry *)
(* ------------------------------------------------------------------ *)

Section Registry.

Lemma fuzzy_match_In (food_lower : string) (db : list (string * food_entry))
  (e : food_entry) :
  fuzzy_match food_lower db = Some e -> In e (values db).
Proof.
  induction db as [|[k v] db IH]; simpl; [discriminate|].
  destruct (_ || _).
  - intros [= <-]. now left.
  - intros H. right. now apply IH.
Qed.

Lemma category_foods_match_In (food_lower : string) (foods : list string)
  (e : food_entry) :
  category_foods_match food_lower foods = Some e ->
  In e (values ENHANCED_FOOD_DATABASE).
Proof.
  induction foods as [|food foods IH]; cbn [category_foods_match]; [discriminate|].
  destruct (_ || _); [|exact IH].
  destruct (lookup food ENHANCED_FOOD_DATABASE) eqn:E; [|exact IH].
  intros [= <-]. exact (lookup_In _ _ _ E).
Qed.

Lemma category_match_In (food_lower : string) (cats : list (string * list string))
  (e : food_entry) :
  category_match food_lower cats = Some e ->
  In e (values ENHANCED_FOOD_DATABASE).
Proof.
  induction cats as [|[c foods] cats IH]; cbn [category_match]; [discriminate|].
  destruct (category_foods_match food_lower foods) eqn:E; [|exact IH].
  intros [= <-]. exact (category_foods_match_In _ _ _ E).
Qed.

(** Whatever pass finds it, a found entry is a row of the registry. *)
Lemma enhanced_data_In (food_name : string) (e : food_entry) :
  get_enhanced_nutrition_data food_name = Some e ->
  In e (values ENHANCED_FOOD_DATABASE).
Proof.
  unfold get_enhanced_nutrition_data.
  destruct (lookup _ ENHANCED_FOOD_DATABASE) eqn:E1.
  - intros [= <-]. exact (lookup_In _ _ _ E1).
  - destruct (fuzzy_match _ ENHANCED_FOOD_DATABASE) eqn:E2.
    + intros [= <-]. exact (fuzzy_match_In _ _ _ E2).
    + apply category_match_In.
Qed.

Lemma database_servings_labelled :
  forallb labelled_serving (values ENHANCED_FOOD_DATABASE) = true.
Proof. vm_compute. reflexivity. Qed.

Lemma labelled_serving_inv (e : food_entry) :
  labelled_serving e = true ->
  exists tw tc, typical_weight e = Some tw /\ typical_calories e = Some tc
                /\ round tc 1 == tc.
Proof.
  unfold labelled_serving.
  destruct (typical_weight e) as [tw|]; [|discriminate].
  destruct (typical_calories e) as [tc|]; [|discriminate].
  intros H. apply Qeq_bool_iff in H. exists tw, tc. repeat split.
  rewrite <- H at 2. rewrite <- (round_comp _ _ 1 H). apply round_integer.
Qed.

End Registry.

(** The registry record.  For every weight [w > 0] and every label found
    in the brand registry, the calories of the record
    [calculate_accurate_calories] builds are the entry's calories per
    100 g times [w / 100], rounded to one decimal (so within 0.05 of the
    product), except when [w] is the entry's typical weight: then they are
    the entry's [typical_calories], with no scaling. *)
Lemma registry_record_calories :
  forall (food_name : string) (w : Q) (e : food_entry),
    0 < w ->
    get_enhanced_nutrition_data food_name = Some e ->
    exists r tw tc,
      calculate_accurate_calories food_name (Some w) = Some r
      /\ typical_weight e = Some tw /\ typical_calories e = Some tc
      /\ (w == tw -> total_calories r == tc)
      /\ (~ w == tw ->
          total_calories r == round (calories_per_100g e * (w / 100)) 1
          /\ Qabs (total_calories r - calories_per_100g e * w / 100) <= 1 # 20).
Proof.
  intros name w e _ Hfound.
  pose proof (enhanced_data_In _ _ Hfound) as Hin.
  pose proof database_servings_labelled as Hall.
  rewrite forallb_forall in Hall.
  destruct (labelled_serving_inv e (Hall e Hin)) as (tw & tc & Htw & Htc & Hround).
  unfold calculate_accurate_calories. rewrite Hfound.
  eexists. exists tw, tc. split; [reflexivity|].
  cbn [total_calories]. unfold accurate_calories. rewrite Htw, Htc.
  split; [reflexivity|]. split; [reflexivity|]. split.
  - intros Heq. apply Qeq_bool_iff in Heq. rewrite Heq. exact Hround.
  - intros Hne. apply Qeq_bool_false_iff in Hne. rewrite Hne. split; [reflexivity|].
    assert (E : calories_per_100g e * w / 100 == calories_per_100g e * (w / 100))
      by (field).
    rewrite E. apply round_1_near.
Qed.

Lemma registry_record_example :
  0 < 222
  /\ (exists r, calculate_accurate_calories "Big Mac" (Some 222) = Some r
                /\ total_calories r == 570)
  /\ (exists r, calculate_accurate_calories "Big Mac" (Some 100) = Some r
                /\ total_calories r == 257).
Proof.
  split; [reflexivity|]. split.
  - destruct (registry_record_calories "Big Mac" 222 (entry 257 13 20 17 222 570))
      as (r & tw & tc & Hr & Htw & Htc & Htyp & _); [reflexivity | reflexivity |].
    exists r. split; [exact Hr|].
    injection Htw as <-. injection Htc as <-. apply Htyp. reflexivity.
  - destruct (registry_record_calories "Big Mac" 100 (entry 257 13 20 17 222 570))
      as (r & tw & tc & Hr & Htw & Htc & _ & Hscale); [reflexivity | reflexivity |].
    exists r. split; [exact Hr|].
    injection Htw as <-. destruct Hscale as [Hs _]; [discriminate|].
    rewrite Hs. reflexivity.
Defined.

Import Replies.




(* ------------------------------------------------------------------ *)
(** ** The adjuster *)
(* ------------------------------------------------------------------ *)

Section AdjusterFacts.

(** The guarded expressions of the code are the relative changes of the
    specification; neither raises. *)
Lemma has_portion_change_spec (c : UserFeedback) :
  has_portion_change c
  = Return (relative_change_exceeds (corrected_weight_grams c) (ai_weight_grams c) 0.2).
Proof.
  unfold has_portion_change, relative_change_exceeds, truthy.
  destruct (corrected_weight_grams c) as [cw|]; [|reflexivity].
  destruct (Qeq_bool cw 0); cbn [negb andb]; [destruct (ai_weight_grams c); reflexivity|].
  destruct (ai_weight_grams c) as [aw|]; [|reflexivity].
  destruct (Qeq_bool aw 0) eqn:E; cbn [negb andb]; [reflexivity|].
  cbn [float bind]. unfold truediv. rewrite E. reflexivity.
Qed.

Lemma has_calorie_change_spec (c : UserFeedback) :
  has_calorie_change c
  = Return (relative_change_exceeds (corrected_calories c) (ai_calories c) 0.5).
Proof.
  unfold has_calorie_change, relative_change_exceeds, truthy.
  destruct (ai_calories c) as [ac|]; [|destruct (corrected_calories c); reflexivity].
  destruct (Qeq_bool ac 0) eqn:E; cbn [negb andb].
  - destruct (corrected_calories c) as [cc|]; [|reflexivity].
    cbn [negb]. rewrite andb_false_r. reflexivity.
  - destruct (corrected_calories c) as [cc|]; [|reflexivity].
    destruct (Qeq_bool cc 0); cbn [negb andb]; [reflexivity|].
    cbn [float bind]. unfold truediv. rewrite E. reflexivity.
Qed.

Lemma relative_change_inv (corrected ai : option Q) (threshold : Q) :
  relative_change_exceeds corrected ai threshold = true ->
  exists c a, corrected = Some c /\ ai = Some a /\ Qeq_bool a 0 = false.
Proof.
  unfold relative_change_exceeds.
  destruct corrected as [c|]; [|discriminate].
  destruct ai as [a|]; [|discriminate].
  destruct (Qeq_bool a 0) eqn:E; [cbn [negb]; rewrite andb_false_r; discriminate|].
  intros _. exists c, a. repeat split. exact E.
Qed.


(** Step 4 always returns, and returns the outcome of the case analysis. *)
Lemma latest_correction_step_outcome (correction_type : string) (c : UserFeedback)
  (raw : analysis) :
  latest_correction_step correction_type c raw
  = Return (step4_outcome correction_type c raw).
Proof.
  unfold latest_correction_step, step4_outcome, name_markers.
  rewrite has_portion_change_spec, has_calorie_change_spec. cbn [bind].
  unfold portion_or_calorie.
  destruct (relative_change_exceeds (corrected_weight_grams c) _ _) eqn:Ep.
  - destruct (relative_change_inv _ _ _ Ep) as (cw & aw & -> & -> & Haw).
    destruct (same_name _ _); cbn [negb float bind get]; unfold truediv; rewrite Haw;
      cbn [bind]; destruct (between 0.3 (cw / aw) 5.0); reflexivity.
  - destruct (relative_change_exceeds (corrected_calories c) _ _) eqn:Ec.
    + destruct (relative_change_inv _ _ _ Ec) as (cc & ac & -> & -> & Hac).
      destruct (same_name _ _); cbn [negb float bind get]; unfold truediv; rewrite Hac;
        reflexivity.
    + destruct (same_name _ _); reflexivity.
Qed.

(** The loop over the category's corrections collects the usable ratios. *)
Lemma calorie_ratios_spec (l : list UserFeedback) :
  calorie_ratios l = Return (clipped_ratios l).
Proof.
  induction l as [|c l IH]; [reflexivity|].
  cbn [calorie_ratios clipped_ratios]. rewrite IH. unfold usable_ratio, truthy.
  destruct (ai_calories c) as [ac|]; [|destruct (corrected_calories c); reflexivity].
  destruct (Qeq_bool ac 0) eqn:Ea; cbn [negb andb].
  - destruct (corrected_calories c); reflexivity.
  - destruct (corrected_calories c) as [cc|]; [|reflexivity].
    destruct (Qeq_bool cc 0) eqn:Ec; cbn [negb].
    + apply Qeq_bool_iff in Ec.
      assert (Hz : between 0.3 (cc / ac) 3.0 = false).
      { unfold between. apply andb_false_intro1.
        rewrite <- not_true_iff_false, Qle_bool_iff.
        assert (E : cc / ac == 0) by (rewrite Ec; unfold Qdiv; ring).
        rewrite E. intros H. apply (Qle_not_lt _ _ H). reflexivity. }
      rewrite Hz. reflexivity.
    + cbn [float bind]. unfold truediv. rewrite Ea. cbn [bind].
      destruct (between 0.3 (cc / ac) 3.0); reflexivity.
Qed.


Lemma correction_priority_total (c : UserFeedback) :
  exists p, correction_priority c = Return p.
Proof.
  unfold correction_priority.
  rewrite has_calorie_change_spec, has_portion_change_spec. cbn [bind]. eauto.
Qed.

Lemma keyed_total {A : Type} (key : A -> exc Q) (l : list A) :
  (forall x, exists k, key x = Return k) ->
  exists kl, keyed key l = Return kl.
Proof.
  intros Hkey. induction l as [|x l [kl IH]]; [now exists []|].
  destruct (Hkey x) as [k Hk]. cbn [keyed]. rewrite Hk, IH. cbn [bind]. eauto.
Qed.

Lemma get_learning_context_total (table : list UserFeedback) (user : nat)
  (name : string) :
  exists context, get_learning_context table user name = Return context.
Proof.
  unfold get_learning_context.
  destruct (firstn 5 _) as [|e es]; cbn [bind]; [|eauto].
  destruct (keyed_total correction_priority
              (filter (shares_two_words (set (split (lower name))))
                      (filter (fun r => Nat.eqb (user_id r) user) table))
              correction_priority_total) as [kl Hkl].
  rewrite Hkl. cbn [bind]. eauto.
Qed.


Lemma insert_desc_length {A : Type} (x : Q * A) (l : list (Q * A)) :
  List.length (insert_desc x l) = S (List.length l).
Proof.
  induction l as [|y l IH]; [reflexivity|].
  cbn [insert_desc]. destruct (Qlt_bool (fst x) (fst y)); cbn [List.length]; congruence.
Qed.

(** Sorting loses no row. *)
Lemma sort_desc_length {A : Type} (l : list (Q * A)) :
  List.length (sort_desc l) = List.length l.
Proof.
  unfold sort_desc. rewrite length_map.
  induction l as [|x l IH]; [reflexivity|].
  cbn [fold_right]. rewrite insert_desc_length. cbn [List.length]. congruence.
Qed.

Lemma similar_corrections_query :
  forall (table : list UserFeedback) (user : nat) (food_name : string)
         (context : learning_context),
    get_learning_context table user food_name = Return context ->
    similar_corrections context
    = firstn 10 (order_by_created_at_desc
                   (filter (fun r => Nat.eqb (user_id r) user
                                     && column_is (food_category r)
                                          (classify_food_category food_name)) table)).
Proof.
  intros table user name ctx. unfold get_learning_context.
  destruct (match firstn 5 _ with [] => _ | _ => _ end) as [fz|]; cbn [bind];
    [|discriminate].
  intros H. injection H as <-. reflexivity.
Qed.

(** [similar_corrections] holds three rows or more exactly when the user
    has three corrections or more in the category of the label. *)
Lemma similar_corrections_threshold :
  forall (table : list UserFeedback) (user : nat) (food_name : string)
         (context : learning_context),
    get_learning_context table user food_name = Return context ->
    (3 <= List.length (similar_corrections context))%nat
    <-> (3 <= List.length
               (filter (fun r => Nat.eqb (user_id r) user
                                 && column_is (food_category r)
                                      (classify_food_category food_name)) table))%nat.
Proof.
  intros table user name ctx H.
  rewrite (similar_corrections_query _ _ _ _ H).
  rewrite length_firstn. unfold order_by_created_at_desc.
  rewrite sort_desc_length, length_map. lia.
Qed.

(** The portion example of the specification: AI 100 g and 200 kcal,
    corrected 150 g: weight 150, calories 300, marker [portion_adjustment]. *)
Lemma portion_adjustment_example :
  exists r,
    latest_correction_step "exact" portion_fix raw_estimate = Return r
    /\ a_weight_grams r == 150 /\ a_calories r == 300
    /\ learning_applied r = Some "exact_portion_adjustment".
Proof.
  eexists. split; [apply latest_correction_step_outcome|].
  repeat split; vm_compute; reflexivity.
Qed.

End AdjusterFacts.

(** *** Step 4 and the category step in double precision *)

Section DoublePrecision.

Import PrimFloat.
Import Binary64.

(** The guarded expressions of the code are the relative changes of the
    specification, computed in double precision; neither raises. *)
Lemma portion_test_in_double (c : UserFeedback) :
  has_portion_change c
  = Return (relative_change_exceeds (corrected_weight_grams c) (ai_weight_grams c) 0.2).
Proof.
  unfold has_portion_change, relative_change_exceeds, truthy.
  destruct (corrected_weight_grams c) as [cw|]; [|reflexivity].
  destruct (PrimFloat.eqb cw 0); cbn [negb andb]; [destruct (ai_weight_grams c); reflexivity|].
  destruct (ai_weight_grams c) as [aw|]; [|reflexivity].
  destruct (PrimFloat.eqb aw 0) eqn:E; cbn [negb andb]; [reflexivity|].
  cbn [float bind]. unfold truediv. rewrite E. reflexivity.
Qed.

Lemma calorie_test_in_double (c : UserFeedback) :
  has_calorie_change c
  = Return (relative_change_exceeds (corrected_calories c) (ai_calories c) 0.5).
Proof.
  unfold has_calorie_change, relative_change_exceeds, truthy.
  destruct (ai_calories c) as [ac|]; [|destruct (corrected_calories c); reflexivity].
  destruct (PrimFloat.eqb ac 0) eqn:E; cbn [negb andb].
  - destruct (corrected_calories c) as [cc|]; [|reflexivity].
    rewrite andb_false_r. reflexivity.
  - destruct (corrected_calories c) as [cc|]; [|reflexivity].
    destruct (PrimFloat.eqb cc 0); cbn [negb andb]; [reflexivity|].
    cbn [float bind]. unfold truediv. rewrite E. reflexivity.
Qed.

Lemma exceeding_needs_both_values (corrected ai : option PrimFloat.float)
  (threshold : PrimFloat.float) :
  relative_change_exceeds corrected ai threshold = true ->
  exists c a, corrected = Some c /\ ai = Some a /\ PrimFloat.eqb a 0 = false.
Proof.
  unfold relative_change_exceeds.
  destruct corrected as [c|]; [|discriminate].
  destruct ai as [a|]; [|discriminate].
  destruct (PrimFloat.eqb a 0) eqn:E; [cbn [negb]; rewrite andb_false_r; discriminate|].
  intros _. exists c, a. repeat split. exact E.
Qed.

(** The loop over the category's corrections collects the usable ratios. *)
Lemma calorie_ratios_in_double (l : list UserFeedback) :
  calorie_ratios l = Return (clipped_ratios l).
Proof.
  induction l as [|c l IH]; [reflexivity|].
  cbn [calorie_ratios clipped_ratios]. rewrite IH. unfold usable_ratio, truthy.
  destruct (ai_calories c) as [ac|]; [|destruct (corrected_calories c); reflexivity].
  destruct (PrimFloat.eqb ac 0) eqn:Ea; cbn [negb andb].
  - destruct (corrected_calories c); reflexivity.
  - destruct (corrected_calories c) as [cc|]; [|reflexivity].
    destruct (PrimFloat.eqb cc 0) eqn:Ec; cbn [negb andb]; [reflexivity|].
    cbn [float bind]. unfold truediv. rewrite Ea. cbn [bind].
    destruct (between 0.3 (cc / ac) 3.0); reflexivity.
Qed.

(** C6 as stated fails: a corrected weight of 0 against an AI weight of
    100 is a relative weight change of 1, above 0.2, yet the correction is
    not treated as a portion correction; the calorie-density branch runs
    (calories 200 -> 400, weight unchanged). *)
Lemma zero_corrected_weight_takes_calorie_branch :
  PrimFloat.ltb 0.2 (abs (0 - 100) / 100) = true
  /\ corrected_weight_grams weight_left_empty = Some 0%float
  /\ ai_weight_grams weight_left_empty = Some 100%float
  /\ latest_correction_step "exact" weight_left_empty raw_estimate
     = Return (mk_analysis (Some "burrito bowl") 100 400
                 (Some "exact_calorie_correction")).
Proof.
  repeat split; vm_compute; reflexivity.
Qed.

(** C6, as the code has it, with every quotient and comparison computed
    in double precision.  In step 4, for the top candidate: if both
    weights are recorded and non-zero and the relative weight change
    exceeds 0.2, the correction is a portion correction: the weight ratio
    is applied to [weight_grams] and to [calories], but only when it lies
    in [0.3, 5.0], and the calorie-density branch is not taken; otherwise,
    if both calorie values are recorded and non-zero and the relative
    calorie change exceeds 0.5, calories alone are multiplied by the
    calorie ratio and the weight stays; otherwise neither changes. *)
Theorem step4_portion_before_calorie :
  forall (correction_type : string) (c : UserFeedback) (raw : analysis),
    exists r,
      latest_correction_step correction_type c raw = Return r
      /\ (if relative_change_exceeds (corrected_weight_grams c) (ai_weight_grams c) 0.2 then
            let ratio := ratio_of (corrected_weight_grams c) (ai_weight_grams c) in
            if between 0.3 ratio 5.0 then
              a_weight_grams r = (a_weight_grams raw * ratio)%float
              /\ a_calories r = (a_calories raw * ratio)%float
              /\ learning_applied r
                 = Some (correction_type ++ "_"
                         ++ join "_" (name_markers c ++ ["portion_adjustment"])%list)
            else
              a_weight_grams r = a_weight_grams raw
              /\ a_calories r = a_calories raw
              /\ learning_applied r
                 = provenance correction_type (name_markers c) (learning_applied raw)
          else if relative_change_exceeds (corrected_calories c) (ai_calories c) 0.5 then
            a_weight_grams r = a_weight_grams raw
            /\ a_calories r
               = (a_calories raw * ratio_of (corrected_calories c) (ai_calories c))%float
            /\ learning_applied r
               = Some (correction_type ++ "_"
                       ++ join "_" (name_markers c ++ ["calorie_correction"])%list)
          else
            a_weight_grams r = a_weight_grams raw
            /\ a_calories r = a_calories raw
            /\ learning_applied r
               = provenance correction_type (name_markers c) (learning_applied raw)).
Proof.
  intros ctype c raw. unfold latest_correction_step.
  rewrite portion_test_in_double, calorie_test_in_double. cbn [bind].
  unfold portion_or_calorie, provenance, name_markers.
  destruct (relative_change_exceeds (corrected_weight_grams c) (ai_weight_grams c) 0.2)
    eqn:Ep.
  - destruct (exceeding_needs_both_values _ _ _ Ep) as (cw & aw & Hc & Ha & Haw).
    rewrite Hc, Ha. cbn [float bind ratio_of]. unfold truediv. rewrite Haw. cbn [bind].
    cbv zeta.
    destruct (between 0.3 (cw / aw) 5.0);
      destruct (same_name (corrected_food_name c) (ai_food_name c));
      cbn [negb]; eexists; (split; [reflexivity|]); repeat split.
  - destruct (relative_change_exceeds (corrected_calories c) (ai_calories c) 0.5) eqn:Ec.
    + destruct (exceeding_needs_both_values _ _ _ Ec) as (cc & ac & Hc & Ha & Hac).
      rewrite Hc, Ha. cbn [float bind ratio_of]. unfold truediv. rewrite Hac. cbn [bind].
      destruct (same_name (corrected_food_name c) (ai_food_name c));
        cbn [negb]; eexists; (split; [reflexivity|]); repeat split.
    + destruct (same_name (corrected_food_name c) (ai_food_name c));
        cbn [negb]; eexists; (split; [reflexivity|]); repeat split.
Qed.

(** The example of the specification: AI 100 g and 200 kcal, corrected
    105 g and 400 kcal: calories 400, weight unchanged. *)
Lemma step4_calorie_example :
  exists r,
    latest_correction_step "exact" density_fix raw_estimate = Return r
    /\ a_calories r = 400%float /\ a_weight_grams r = 100%float.
Proof.
  destruct (step4_portion_before_calorie "exact" density_fix raw_estimate)
    as (r & Hr & H).
  exists r. split; [exact Hr|].
  change (relative_change_exceeds (corrected_weight_grams density_fix)
            (ai_weight_grams density_fix) 0.2) with false in H.
  change (relative_change_exceeds (corrected_calories density_fix)
            (ai_calories density_fix) 0.5) with true in H.
  cbv iota in H. destruct H as (Hw & Hc & _).
  split; [rewrite Hc; reflexivity | rewrite Hw; reflexivity].
Defined.

(** Where the thresholds fall.  A relative change of exactly one half,
    or of exactly one fifth, does not exceed the threshold in exact
    arithmetic (the first step of the exact model leaves the record
    alone), but it does as Python computes it: the quotient is rounded
    upwards, and step 4 applies the correction. *)
Remark thresholds_are_crossed_by_rounding :
  (Qabs (150.3 - 100.2) / 100.2 == 0.5)%Q
  /\ (Qabs (60.6 - 50.5) / 50.5 == 0.2)%Q
  /\ (abs (150.3 - 100.2) / 100.2 = 0.5000000000000001)%float
  /\ (abs (60.6 - 50.5) / 50.5 = 0.20000000000000004)%float
  /\ has_calorie_change half_more_calories = Return true
  /\ has_portion_change fifth_more_weight = Return true
  /\ latest_correction_step "exact" half_more_calories raw_estimate
     = Return (mk_analysis (Some "burrito bowl") 100 300
                 (Some "exact_calorie_correction"))
  /\ latest_correction_step "exact" fifth_more_weight raw_estimate
     = Return (mk_analysis (Some "burrito bowl") 120 240
                 (Some "exact_portion_adjustment")).
Proof.
  repeat split; vm_compute; reflexivity.
Qed.

(** C7 as stated fails: three corrections 100 kcal -> 110 kcal have the
    ratio 1.1 each, a mean that deviates from 1.0 by 0.1 and no more; yet
    the mean is computed as 1.1000000000000001, its deviation as
    0.10000000000000009, and the step multiplies the calories
    (200 -> 220.00000000000003), with either version of [sum]. *)
Lemma mean_of_one_point_one_is_applied :
  (Qabs (110 / 100 - 1) == 0.1)%Q
  /\ clipped_ratios three_tenth_more = [1.1; 1.1; 1.1]%float
  /\ abs (mean sum_left (clipped_ratios three_tenth_more) - 1.0)
     = 0.10000000000000009%float
  /\ category_step sum_left three_tenth_more raw_estimate
     = Return (mk_analysis (Some "burrito bowl") 100 220.00000000000003
                 (Some "category_calorie_adjustment"))
  /\ category_step sum_compensated three_tenth_more raw_estimate
     = Return (mk_analysis (Some "burrito bowl") 100 220.00000000000003
                 (Some "category_calorie_adjustment")).
Proof.
  repeat split; vm_compute; reflexivity.
Qed.

(** C7, as the code has it, with the mean and the comparison computed in
    double precision, for either version of [sum].  The category step
    multiplies calories by the mean of the per-record calorie ratios that
    lie in [0.3, 3.0] exactly when three category corrections or more
    exist, one ratio at least is usable, and the computed mean deviates
    from 1.0 by more than 0.1; in every other case, and always with fewer
    than three records, the record is returned unchanged. *)
Theorem category_adjustment_needs_three_and_deviation :
  forall (sum : list PrimFloat.float -> PrimFloat.float)
         (similar : list UserFeedback) (raw : analysis),
    exists r,
      category_step sum similar raw = Return r
      /\ (if (3 <=? List.length similar)%nat
             && negb (is_empty (clipped_ratios similar))
             && PrimFloat.ltb 0.1 (abs (mean sum (clipped_ratios similar) - 1.0))
          then a_calories r = (a_calories raw * mean sum (clipped_ratios similar))%float
               /\ a_weight_grams r = a_weight_grams raw
               /\ learning_applied r = Some "category_calorie_adjustment"
          else r = raw)
      /\ ((List.length similar < 3)%nat -> r = raw).
Proof.
  intros sum similar raw. unfold category_step.
  destruct (3 <=? List.length similar)%nat eqn:E3; cbn [andb].
  - apply Nat.leb_le in E3.
    rewrite calorie_ratios_in_double. cbn [bind].
    destruct (clipped_ratios similar) as [|q qs] eqn:Er; cbn [is_empty negb andb].
    + exists raw. repeat split.
    + cbn [List.length truediv_len bind]. unfold mean. cbn [List.length].
      destruct (PrimFloat.ltb 0.1 _).
      * eexists. split; [reflexivity|]. split; [repeat split; reflexivity|].
        intros H. lia.
      * exists raw. repeat split.
  - exists raw. repeat split.
Qed.

Lemma category_adjustment_witness :
  (List.length two_tenth_more < 3)%nat
  /\ category_step sum_left two_tenth_more raw_estimate = Return raw_estimate.
Proof.
  split; [simpl; lia|].
  destruct (category_adjustment_needs_three_and_deviation sum_left two_tenth_more
              raw_estimate) as (r & Hr & _ & Hfew).
  rewrite Hr. f_equal. apply Hfew. simpl. lia.
Defined.

End DoublePrecision.

(** C4, evaluated on the code.  User 1 has a portion fix for "burrito
    bowl" (100 g -> 150 g) and, with it, four corrections of the category
    "fast_food" whose usable calorie ratios average 1.375.  Step 4 writes
    the provenance "exact_portion_adjustment"; the category step, which
    compounds the calories (200 -> 300 -> 412.5), replaces it by
    "category_calorie_adjustment": the markers of step 4 are gone from the
    returned record. *)
Theorem category_marker_replaces_step4_markers :
  exists context after_step4 result,
    get_learning_context both_fire_table 1 "burrito bowl" = Return context
    /\ exact_corrections context = [bowl_portion_fix]
    /\ List.length (similar_corrections context) = 4%nat
    /\ latest_correction_step "exact" bowl_portion_fix raw_estimate = Return after_step4
    /\ learning_applied after_step4 = Some "exact_portion_adjustment"
    /\ a_weight_grams after_step4 == 150
    /\ a_calories after_step4 == 300
    /\ category_step (similar_corrections context) after_step4 = Return result
    /\ apply_learning_adjustments both_fire_table raw_estimate 1 = Return result
    /\ a_weight_grams result == 150
    /\ a_calories result == 412.5
    /\ learning_applied result = Some "category_calorie_adjustment".
Proof.
  do 3 eexists.
  split; [vm_compute; reflexivity|].
  split; [reflexivity|]. split; [reflexivity|].
  split; [vm_compute; reflexivity|].
  repeat split; vm_compute; reflexivity.
Qed.



(** What the guards are for: without them the division would raise. *)
Remark unguarded_division_raises :
  truediv (Qabs (150 - 0)) 0 = Raise "ZeroDivisionError"
  /\ apply_learning_adjustments zero_ai_table raw_estimate 1 = Return raw_estimate.
Proof. split; vm_compute; reflexivity. Qed.

(* ------------------------------------------------------------------ *)
(** ** The category classifier *)
(* ------------------------------------------------------------------ *)

(** C8.  [classify_food_category] maps "chicken sandwich" to "grain", not
    "protein": "sandwich" is a grain keyword, "chicken" a protein keyword,
    both occur in the label, and the grain group is evaluated first; with
    the two groups swapped the answer would be "protein". *)
Theorem chicken_sandwich_is_grain :
  classify_food_category "chicken sandwich" = "grain"
  /\ (exists grain protein rest,
         category_keywords = ("grain", grain) :: ("protein", protein) :: rest
         /\ mem "sandwich" grain = true
         /\ contains "sandwich" "chicken sandwich" = true
         /\ mem "chicken" protein = true
         /\ contains "chicken" "chicken sandwich" = true
         /\ first_group "chicken sandwich" (("protein", protein) :: ("grain", grain) :: rest)
            = "protein").
Proof.
  split; [reflexivity|].
  do 3 eexists. split; [reflexivity|].
  repeat split; reflexivity.
Qed.

(* ------------------------------------------------------------------ *)
(** ** The calorie breakdown *)
(* ------------------------------------------------------------------ *)

Lemma percentage_total (part total_calories : Q) :
  exists q, percentage part total_calories = Return q
            /\ (total_calories <= 0 -> q = 0).
Proof.
  unfold percentage. destruct (Qlt_bool 0 total_calories) eqn:E.
  - apply Qlt_bool_iff in E.
    rewrite truediv_defined by lra. cbn [bind].
    eexists. split; [reflexivity|]. intros H. lra.
  - eexists. split; reflexivity.
Qed.

(** C10.  [get_calorie_breakdown] is total: for every nutrition dict it
    returns a dict with exactly the six fields, and when the total calories
    (the key [total_calories], or the sum of the macro calories when the
    key is absent) are zero or negative, the three percentages are 0. *)
Theorem calorie_breakdown_is_total :
  forall nutrition_info : macro_dict,
    exists pc cc fc pp cp fp,
      get_calorie_breakdown nutrition_info
      = Return [ ("protein_calories", pc); ("carb_calories", cc); ("fat_calories", fc);
                 ("protein_percentage", pp); ("carb_percentage", cp);
                 ("fat_percentage", fp) ]
      /\ (get (m_total_calories nutrition_info)
              (get (m_protein nutrition_info) 0 * 4
               + get (m_carbs nutrition_info) 0 * 4
               + get (m_fat nutrition_info) 0 * 9) <= 0 ->
          pp == 0 /\ cp == 0 /\ fp == 0).
Proof.
  intros info. unfold get_calorie_breakdown.
  set (total := get (m_total_calories info) _).
  destruct (percentage_total (get (m_protein info) 0 * 4) total) as (pp & Hp & Hpz).
  destruct (percentage_total (get (m_carbs info) 0 * 4) total) as (cp & Hc & Hcz).
  destruct (percentage_total (get (m_fat info) 0 * 9) total) as (fp & Hf & Hfz).
  rewrite Hp, Hc, Hf. cbn [bind].
  do 6 eexists. split; [reflexivity|].
  intros Hle. rewrite (Hpz Hle), (Hcz Hle), (Hfz Hle).
  repeat split; reflexivity.
Qed.

Lemma calorie_breakdown_witness :
  get (m_total_calories empty_macros) (0 * 4 + 0 * 4 + 0 * 9) <= 0
  /\ exists d, get_calorie_breakdown empty_macros = Return d
               /\ keys d = [ "protein_calories"; "carb_calories"; "fat_calories";
                             "protein_percentage"; "carb_percentage"; "fat_percentage" ].
Proof.
  split; [vm_compute; discriminate|].
  destruct (calorie_breakdown_is_total empty_macros)
    as (pc & cc & fc & pp & cp & fp & H & _).
  eexists. split; [exact H|]. reflexivity.
Defined.

(* ================================================================== *)
(** * Further properties of the code *)
(* ================================================================== *)

Import Workout Feedback Measures Cases.

Section ResolverFacts.

Lemma enhance_source :
  forall chat recognition existing,
    data_source existing = "enhanced_database" ->
    let r := enhance_nutrition_with_web_search chat recognition existing in
    (data_source r = "web_search_enhanced"
     /\ exists c, confidence_score r = Some c /\ 0.8 < c)
    \/ data_source r = "enhanced_database_web_verified".
Proof.
  intros chat rr existing Hex. unfold enhance_nutrition_with_web_search.
  destruct (get_web_search_nutrition chat _ _) as [wd|].
  - destruct (Qlt_bool 0.8 (get (w_confidence wd) 0)) eqn:E.
    + left. split; [reflexivity|]. cbn [confidence_score].
      apply Qlt_bool_iff in E. destruct (w_confidence wd) as [c|]; cbn [get] in *.
      * now exists c.
      * exfalso. apply (Qlt_irrefl 0). apply Qlt_trans with (0.8); [reflexivity | exact E].
    + right. cbn. now rewrite Hex.
  - right. cbn. now rewrite Hex.
Qed.

Lemma web_search_step_confidence :
  forall enhanced_modules chat name w r,
    web_search_step enhanced_modules chat name w = Some r ->
    exists c, confidence_score r = Some c /\ 0.7 < c.
Proof.
  intros em chat name w r. unfold web_search_step.
  destruct (em && _); [|discriminate].
  destruct (get_web_search_nutrition chat name w) as [wd|]; [|discriminate].
  destruct (Qlt_bool 0.7 (get (w_confidence wd) 0)) eqn:E; [|discriminate].
  intros [= <-]. cbn [confidence_score]. apply Qlt_bool_iff in E.
  destruct (w_confidence wd) as [c|]; cbn [get] in *.
  - now exists c.
  - exfalso. apply (Qlt_irrefl 0). apply Qlt_trans with (0.7); [reflexivity | exact E].
Qed.

Lemma accurate_calories_source :
  forall name w r,
    calculate_accurate_calories name w = Some r ->
    set_data_source r "enhanced_database" = r /\ confidence_score r = None.
Proof.
  intros name w r. unfold calculate_accurate_calories.
  destruct (get_enhanced_nutrition_data name); [|discriminate].
  intros [= <-]. split; reflexivity.
Qed.

End ResolverFacts.

(** X1.  [calculate_calories] tags every record with one of five sources.
    Without a [primary_food] key the body raises and the record is the
    fallback estimate; with the enhanced modules switched off every
    labelled input is tagged "calculated".  (The handler also catches what
    a reply with a field that is not a number raises; replies are typed
    here, so nothing is said about which labelled inputs end in the
    fallback.) *)
Theorem data_source_is_one_of_five :
  forall (enhanced_modules : bool) (chat : chat_service)
         (usda : string -> Q -> option NutritionalInfo)
         (recognition : recognition_result),
    let r := calculate_calories enhanced_modules chat usda recognition in
    In (data_source r)
       ["enhanced_database"; "web_search_enhanced"; "web_search_direct";
        "calculated"; "fallback_estimate"]
    /\ (primary_food recognition = None -> data_source r = "fallback_estimate")
    /\ (enhanced_modules = false -> primary_food recognition <> None ->
        data_source r = "calculated").
Proof.
  intros em chat usda rr. cbv zeta.
  unfold calculate_calories, calculate_calories_try.
  destruct (primary_food rr) as [name|].
  - destruct (enhanced_step em chat rr name _) as [r|] eqn:E1.
    + cbn [try_except]. pose proof (enhanced_step_source _ _ _ _ _ _ E1) as Hs.
      split; [|split].
      * destruct Hs as [-> | ->]; simpl; auto.
      * discriminate.
      * intros ->. discriminate E1.
    + destruct (web_search_step em chat name _) as [r|] eqn:E2.
      * cbn [try_except]. pose proof (web_search_step_source _ _ _ _ _ E2) as Hs.
        split; [|split].
        -- rewrite Hs. simpl. auto.
        -- discriminate.
        -- intros ->. discriminate E2.
      * cbn [try_except]. split; [|split].
        -- simpl. auto.
        -- discriminate.
        -- reflexivity.
  - cbn [try_except]. split; [|split].
    + simpl. auto 6.
    + reflexivity.
    + intros _ H. now contradiction H.
Qed.

(** X2.  A record taken from the web client has passed its confidence
    gate: above 0.7 for a direct web record, above 0.8 for one that
    replaced a registry hit.  Every other record carries no
    [confidence_score] key. *)
Theorem web_records_pass_the_confidence_gate :
  forall (enhanced_modules : bool) (chat : chat_service)
         (usda : string -> Q -> option NutritionalInfo)
         (recognition : recognition_result),
    let r := calculate_calories enhanced_modules chat usda recognition in
    (data_source r = "web_search_direct" ->
     exists c, confidence_score r = Some c /\ 0.7 < c)
    /\ (data_source r = "web_search_enhanced" ->
        exists c, confidence_score r = Some c /\ 0.8 < c)
    /\ (data_source r <> "web_search_direct" ->
        data_source r <> "web_search_enhanced" ->
        confidence_score r = None).
Proof.
  intros em chat usda rr. cbv zeta.
  unfold calculate_calories, calculate_calories_try.
  destruct (primary_food rr) as [name|];
    [|cbn; repeat split; try discriminate; reflexivity].
  destruct (enhanced_step em chat rr name _) as [r|] eqn:E1.
  - cbn [try_except]. unfold enhanced_step in E1.
    destruct em; [|discriminate].
    destruct (calculate_accurate_calories name _) as [e|] eqn:Ee; [|discriminate].
    destruct (accurate_calories_source _ _ _ Ee) as [Hset Hconf].
    rewrite Hset in E1.
    assert (He : data_source e = "enhanced_database") by (rewrite <- Hset; reflexivity).
    destruct (CalorieCalculator._is_fast_food_item name).
    + pose proof (enhance_source chat rr e He) as Hen. cbv zeta in Hen.
      destruct (String.eqb_spec (data_source (enhance_nutrition_with_web_search chat rr e))
                  "web_search_enhanced") as [Eq|Ne]; injection E1 as <-.
      * destruct Hen as [[_ Hc] | Hv]; [|rewrite Hv in Eq; discriminate].
        split; [intros H; rewrite H in Eq; discriminate|].
        split; [intros _; exact Hc|]. intros _ H. contradiction.
      * rewrite He. repeat split; try discriminate. intros _ _. exact Hconf.
    + injection E1 as <-. rewrite He. repeat split; try discriminate.
      intros _ _. exact Hconf.
  - destruct (web_search_step em chat name _) as [r|] eqn:E2.
    + cbn [try_except]. pose proof (web_search_step_source _ _ _ _ _ E2) as Hs.
      pose proof (web_search_step_confidence _ _ _ _ _ E2) as Hc.
      rewrite Hs. split; [intros _; exact Hc|]. split; [discriminate|].
      intros H. contradiction.
    + cbn. repeat split; try discriminate.
Qed.

Lemma confidence_gate_witness :
  data_source (calculate_calories true latte_chat failing_usda latte_200)
  = "web_search_direct"
  /\ exists c,
       confidence_score (calculate_calories true latte_chat failing_usda latte_200)
       = Some c /\ 0.7 < c.
Proof.
  assert (H : data_source (calculate_calories true latte_chat failing_usda latte_200)
              = "web_search_direct") by (vm_compute; reflexivity).
  split; [exact H|].
  apply (web_records_pass_the_confidence_gate true latte_chat failing_usda latte_200).
  exact H.
Defined.

(* ------------------------------------------------------------------ *)

Lemma unlisted_label_gets_no_web_data :
  forall chat name w,
    WebSearchNutrition._is_fast_food_item name = false ->
    _needs_web_search name = false ->
    get_web_search_nutrition chat name w = None.
Proof.
  intros chat name w Hf Hn. unfold get_web_search_nutrition. now rewrite Hf, Hn.
Qed.

(** X3.  A label that names no chain and holds no web-search keyword is
    resolved without the chat service: whatever the service would answer,
    the record is the same. *)
Theorem unlisted_labels_never_reach_the_chat_service :
  forall (enhanced_modules : bool) (chat chat' : chat_service)
         (usda : string -> Q -> option NutritionalInfo)
         (recognition : recognition_result) (name : string),
    primary_food recognition = Some name ->
    WebSearchNutrition._is_fast_food_item name = false ->
    _needs_web_search name = false ->
    calculate_calories enhanced_modules chat usda recognition
    = calculate_calories enhanced_modules chat' usda recognition.
Proof.
  intros em chat chat' usda rr name Hname Hf Hn.
  unfold calculate_calories, calculate_calories_try. rewrite Hname.
  unfold enhanced_step, web_search_step, enhance_nutrition_with_web_search.
  rewrite Hname.
  rewrite !(unlisted_label_gets_no_web_data _ name _ Hf Hn).
  reflexivity.
Qed.

Lemma unlisted_labels_witness :
  primary_food oreo_50 = Some "Oreo cookies"
  /\ _is_branded_or_restaurant_item "Oreo cookies" = true
  /\ calculate_calories true latte_chat failing_usda oreo_50
     = calculate_calories true silent_chat failing_usda oreo_50.
Proof.
  split; [reflexivity|]. split; [reflexivity|].
  apply (unlisted_labels_never_reach_the_chat_service true latte_chat silent_chat
           failing_usda oreo_50 "Oreo cookies"); reflexivity.
Defined.

(** X4.  When the recognizer lists two items or more, the standard step
    splits the weight over the local table and never consults the
    government client: the record does not depend on it. *)
Theorem multi_item_detection_discards_usda :
  forall (enhanced_modules : bool) (chat : chat_service)
         (usda usda' : string -> Q -> option NutritionalInfo)
         (recognition : recognition_result) (foods : list string),
    all_foods recognition = Some foods ->
    (1 < List.length foods)%nat ->
    calculate_calories enhanced_modules chat usda recognition
    = calculate_calories enhanced_modules chat usda' recognition.
Proof.
  intros em chat usda usda' rr foods Hfoods Hlen.
  unfold calculate_calories, calculate_calories_try.
  destruct (primary_food rr) as [name|]; [|reflexivity].
  rewrite Hfoods. unfold standard_step.
  apply Nat.ltb_lt in Hlen. rewrite Hlen. reflexivity.
Qed.

Lemma multi_item_witness :
  all_foods mixed_plate = Some ["paella"; "salad"; "bread"]
  /\ (1 < List.length ["paella"; "salad"; "bread"])%nat
  /\ calculate_calories true silent_chat generous_usda mixed_plate
     = calculate_calories true silent_chat failing_usda mixed_plate
  /\ data_source (calculate_calories true silent_chat generous_usda mixed_plate)
     = "calculated".
Proof.
  split; [reflexivity|]. split; [simpl; lia|]. split.
  - apply (multi_item_detection_discards_usda true silent_chat generous_usda
             failing_usda mixed_plate ["paella"; "salad"; "bread"]);
      [reflexivity | simpl; lia].
  - vm_compute. reflexivity.
Defined.

(** X5.  With the enhanced modules on, a label the brand registry knows and
    the calculator does not take for fast food is answered by the
    registry record itself, whatever the chat service, the government
    client and the list of items are. *)
Theorem registry_hit_is_returned_as_is :
  forall (chat : chat_service) (usda : string -> Q -> option NutritionalInfo)
         (recognition : recognition_result) (name : string) (r : nutrition_dict),
    primary_food recognition = Some name ->
    CalorieCalculator._is_fast_food_item name = false ->
    calculate_accurate_calories name (Some (get (estimated_weight recognition) 100))
    = Some r ->
    calculate_calories true chat usda recognition = r.
Proof.
  intros chat usda rr name r Hname Hf Hr.
  unfold calculate_calories, calculate_calories_try. rewrite Hname.
  unfold enhanced_step. rewrite Hr, Hf.
  destruct (accurate_calories_source _ _ _ Hr) as [Hset _].
  rewrite Hset. reflexivity.
Qed.

Lemma registry_hit_witness :
  primary_food dal_plate = Some "Dal"
  /\ CalorieCalculator._is_fast_food_item "Dal" = false
  /\ exists r,
       calculate_accurate_calories "Dal" (Some 200) = Some r
       /\ calculate_calories true latte_chat generous_usda dal_plate = r
       /\ total_calories r == 260.
Proof.
  split; [reflexivity|]. split; [reflexivity|].
  eexists. split; [reflexivity|]. split.
  - apply (registry_hit_is_returned_as_is latte_chat generous_usda dal_plate "Dal");
      reflexivity.
  - reflexivity.
Defined.

(** X6.  [calculate_accurate_calories] without a weight reports the
    labelled serving of the row: its typical weight and its typical
    calories. *)
Theorem no_weight_means_the_labelled_serving :
  forall (food_name : string) (e : food_entry),
    get_enhanced_nutrition_data food_name = Some e ->
    exists r tw tc,
      calculate_accurate_calories food_name None = Some r
      /\ typical_weight e = Some tw /\ typical_calories e = Some tc
      /\ weight_grams r = tw
      /\ total_calories r == tc.
Proof.
  intros name e Hfound.
  pose proof (enhanced_data_In _ _ Hfound) as Hin.
  pose proof database_servings_labelled as Hall.
  rewrite forallb_forall in Hall.
  destruct (labelled_serving_inv e (Hall e Hin)) as (tw & tc & Htw & Htc & Hround).
  unfold calculate_accurate_calories. rewrite Hfound.
  eexists. exists tw, tc. split; [reflexivity|].
  split; [exact Htw|]. split; [exact Htc|].
  cbn [weight_grams total_calories]. rewrite Htw. cbn [get].
  split; [reflexivity|].
  unfold accurate_calories. rewrite Htw, Htc.
  assert (E : Qeq_bool tw tw = true) by (apply Qeq_bool_iff; reflexivity).
  rewrite E. exact Hround.
Qed.

Lemma no_weight_witness :
  get_enhanced_nutrition_data "Whopper" = Some (entry 250 13 22 15 291 660)
  /\ exists r, calculate_accurate_calories "Whopper" None = Some r
               /\ weight_grams r = 291 /\ total_calories r == 660.
Proof.
  split; [reflexivity|].
  destruct (no_weight_means_the_labelled_serving "Whopper" (entry 250 13 22 15 291 660))
    as (r & tw & tc & Hr & Htw & Htc & Hw & Hc); [reflexivity|].
  exists r. split; [exact Hr|].
  injection Htw as <-. injection Htc as <-. split; [exact Hw | exact Hc].
Defined.

(* ------------------------------------------------------------------ *)

Section StringFacts.

Lemma lower_ascii_idempotent (c : ascii) : lower_ascii (lower_ascii c) = lower_ascii c.
Proof. destruct c as [[] [] [] [] [] [] [] []]; reflexivity. Qed.

Lemma isspace_lower_ascii (c : ascii) : isspace (lower_ascii c) = isspace c.
Proof. destruct c as [[] [] [] [] [] [] [] []]; reflexivity. Qed.

Lemma lower_idempotent (s : string) : lower (lower s) = lower s.
Proof.
  induction s as [|c s IH]; [reflexivity|].
  cbn [lower]. now rewrite lower_ascii_idempotent, IH.
Qed.

Lemma lower_lstrip (s : string) : lower (lstrip s) = lstrip (lower s).
Proof.
  induction s as [|c s IH]; [reflexivity|].
  cbn [lstrip lower]. rewrite isspace_lower_ascii.
  destruct (isspace c); [exact IH | reflexivity].
Qed.

Lemma lower_rstrip (s : string) : lower (rstrip s) = rstrip (lower s).
Proof.
  induction s as [|c s IH]; [reflexivity|].
  cbn [rstrip lower]. rewrite <- IH, isspace_lower_ascii.
  destruct (rstrip s) as [|a r]; cbn [lower].
  - destruct (isspace c); reflexivity.
  - reflexivity.
Qed.

Lemma lower_strip (s : string) : lower (strip s) = strip (lower s).
Proof. unfold strip. now rewrite lower_rstrip, lower_lstrip. Qed.

Lemma lstrip_idempotent (s : string) : lstrip (lstrip s) = lstrip s.
Proof.
  induction s as [|c s IH]; [reflexivity|].
  cbn [lstrip]. destruct (isspace c) eqn:E; [exact IH|].
  cbn [lstrip]. now rewrite E.
Qed.

Lemma rstrip_idempotent (s : string) : rstrip (rstrip s) = rstrip s.
Proof.
  induction s as [|c s IH]; [reflexivity|].
  cbn [rstrip]. destruct (rstrip s) as [|a r] eqn:E.
  - destruct (isspace c) eqn:Ec; [reflexivity|].
    cbn [rstrip]. now rewrite Ec.
  - cbn [rstrip]. cbn [rstrip] in IH. now rewrite IH.
Qed.

Lemma lstrip_starts_clean (s : string) : starts_clean (lstrip s) = true.
Proof.
  induction s as [|c s IH]; [reflexivity|].
  cbn [lstrip]. destruct (isspace c) eqn:E; [exact IH|].
  cbn [starts_clean]. now rewrite E.
Qed.

Lemma lstrip_clean (s : string) : starts_clean s = true -> lstrip s = s.
Proof.
  destruct s as [|c s]; [reflexivity|]. cbn [starts_clean lstrip].
  now destruct (isspace c).
Qed.

Lemma rstrip_starts_clean (s : string) :
  starts_clean s = true -> starts_clean (rstrip s) = true.
Proof.
  destruct s as [|c s]; [reflexivity|]. cbn [starts_clean rstrip].
  intros H. destruct (rstrip s); [|exact H].
  apply negb_true_iff in H. rewrite H. cbn. now rewrite H.
Qed.

Lemma strip_idempotent (s : string) : strip (strip s) = strip s.
Proof.
  unfold strip.
  rewrite (lstrip_clean (rstrip (lstrip s)))
    by (apply rstrip_starts_clean, lstrip_starts_clean).
  apply rstrip_idempotent.
Qed.

End StringFacts.

Lemma normal_form_of_stripped (s : string) : strip (lower (strip s)) = strip (lower s).
Proof. now rewrite lower_strip, strip_idempotent. Qed.

(** X7.  [get_enhanced_nutrition_data] reads a label up to case and
    surrounding whitespace: lowering it, stripping it, or both, finds the
    same row. *)
Theorem registry_lookup_ignores_case_and_padding :
  forall food_name : string,
    get_enhanced_nutrition_data (strip (lower food_name))
    = get_enhanced_nutrition_data food_name
    /\ get_enhanced_nutrition_data (lower food_name)
       = get_enhanced_nutrition_data food_name
    /\ get_enhanced_nutrition_data (strip food_name)
       = get_enhanced_nutrition_data food_name.
Proof.
  intros name. unfold get_enhanced_nutrition_data. split; [|split].
  - now rewrite normal_form_of_stripped, lower_idempotent.
  - now rewrite lower_idempotent.
  - now rewrite normal_form_of_stripped.
Qed.

Section RegistryKeys.

Lemma lookup_first {V : Type} (k : string) (v : V) (d : list (string * V)) :
  NoDup (keys d) -> In (k, v) d -> lookup k d = Some v.
Proof.
  induction d as [|[k' v'] d IH]; cbn [keys map fst lookup]; [intros _ []|].
  intros Hnd [H | H].
  - injection H as -> ->. now rewrite String.eqb_refl.
  - inversion Hnd as [|? ? Hnotin Hnd']; subst.
    destruct (String.eqb_spec k k') as [->|Hne].
    + exfalso. apply Hnotin. change k' with (fst (k', v)). now apply in_map.
    + now apply IH.
Qed.

Lemma nodup_keys_NoDup (l : list string) : nodup_keys l = true -> NoDup l.
Proof.
  induction l as [|x l IH]; cbn [nodup_keys]; [constructor|].
  intros H. apply andb_true_iff in H. destruct H as [Hx Hl].
  constructor; [|now apply IH].
  intros Hin. apply negb_true_iff in Hx.
  assert (mem x l = true); [|congruence].
  unfold mem. apply existsb_exists. exists x. split; [exact Hin|apply String.eqb_refl].
Qed.

Lemma registry_keys_distinct : NoDup (keys ENHANCED_FOOD_DATABASE).
Proof. apply nodup_keys_NoDup. vm_compute. reflexivity. Qed.

End RegistryKeys.

(** X8.  A label that is a key of [ENHANCED_FOOD_DATABASE] up to case and
    surrounding whitespace gets the row of that key: the substring and
    category passes cannot take it elsewhere, and no key occurs twice. *)
Theorem registry_key_finds_its_own_row :
  forall (food_name key : string) (e : food_entry),
    In (key, e) ENHANCED_FOOD_DATABASE ->
    strip (lower food_name) = key ->
    get_enhanced_nutrition_data food_name = Some e.
Proof.
  intros name key e Hin Hnorm. unfold get_enhanced_nutrition_data.
  rewrite Hnorm, (lookup_first key e _ registry_keys_distinct Hin). reflexivity.
Qed.

Lemma registry_key_witness :
  In ("club sandwich", entry 280 15 25 15 200 560) ENHANCED_FOOD_DATABASE
  /\ strip (lower "  Club Sandwich ") = "club sandwich"
  /\ get_enhanced_nutrition_data "  Club Sandwich " = Some (entry 280 15 25 15 200 560).
Proof.
  assert (Hin : In ("club sandwich", entry 280 15 25 15 200 560) ENHANCED_FOOD_DATABASE).
  { unfold ENHANCED_FOOD_DATABASE. simpl. auto 60. }
  split; [exact Hin|]. split; [reflexivity|].
  apply (registry_key_finds_its_own_row "  Club Sandwich " "club sandwich");
    [exact Hin | reflexivity].
Defined.

(** X9.  A label that is empty or blank is not rejected: the empty string is
    a substring of every key, so the substring pass returns the first row
    of the registry, and the label is priced as a "big mac". *)
Theorem blank_label_is_priced_as_the_first_row :
  forall (food_name : string) (weight_grams : option Q),
    strip (lower food_name) = "" ->
    get_enhanced_nutrition_data food_name = Some (entry 257 13 20 17 222 570)
    /\ calculate_accurate_calories food_name weight_grams
       = calculate_accurate_calories "big mac" weight_grams.
Proof.
  intros name w Hblank.
  assert (H : get_enhanced_nutrition_data name = Some (entry 257 13 20 17 222 570)).
  { unfold get_enhanced_nutrition_data. rewrite Hblank. reflexivity. }
  split; [exact H|].
  unfold calculate_accurate_calories. rewrite H. reflexivity.
Qed.

Lemma blank_label_witness :
  strip (lower "   ") = ""
  /\ exists r, calculate_accurate_calories "   " (Some 100) = Some r
               /\ total_calories r == 257.
Proof.
  split; [reflexivity|].
  destruct (blank_label_is_priced_as_the_first_row "   " (Some 100)) as [_ H];
    [reflexivity|].
  rewrite H. eexists. split; reflexivity.
Defined.

(* ------------------------------------------------------------------ *)

Section LocalFacts.

Lemma local_nutrition_at_weight (food_name : string) (w : Q) :
  _get_local_nutrition food_name w = at_weight (local_density food_name) w.
Proof.
  unfold _get_local_nutrition, local_density, at_weight.
  destruct (fold_left _ _ _) as [best_match best_score]. reflexivity.
Qed.

(** The loop keeps a row of the table, or what it started with. *)
Lemma best_loop_row (name : string) (db : list (string * density))
  (st : option density * Q) (d : density) :
  fst (fold_left (best_step name) db st) = Some d ->
  In d (values db) \/ fst st = Some d.
Proof.
  revert st. induction db as [|row db IH]; intros st; cbn [fold_left].
  - intros H. now right.
  - intros H. destruct (IH _ H) as [Hin | Hst].
    + left. cbn. now right.
    + unfold best_step in Hst. destruct (Qlt_bool (snd st) _).
      * left. cbn in *. left. congruence.
      * now right.
Qed.

Lemma first_category_row (name : string) (cats : list (string * density)) (d : density) :
  first_category name cats = Some d -> In d (values cats).
Proof.
  induction cats as [|[c n] cats IH]; cbn [first_category]; [discriminate|].
  destruct (contains c name).
  - intros [= <-]. now left.
  - intros H. right. now apply IH.
Qed.

Lemma match_food_category_row (name : string) (d : density) :
  _match_food_category name = Some d -> In d (values category_nutrition).
Proof.
  unfold _match_food_category.
  destruct (first_category name category_nutrition) eqn:E.
  - intros [= <-]. now apply first_category_row in E.
  - repeat (destruct (any_in _ name); [apply lookup_In|]). discriminate.
Qed.

Lemma local_density_row (food_name : string) :
  In (local_density food_name)
     (values _load_local_food_database ++ values category_nutrition ++ [default_density]).
Proof.
  unfold local_density.
  set (best := fold_left _ _ _).
  assert (Hcat : forall o, o = _match_food_category (lower food_name) ->
                 In match o with Some m => m | None => default_density end
                    (values _load_local_food_database ++ values category_nutrition
                     ++ [default_density])).
  { intros [m|] Ho.
    - apply in_or_app. right. apply in_or_app. left.
      apply (match_food_category_row (lower food_name)). now symmetry.
    - apply in_or_app. right. apply in_or_app. right. now left. }
  destruct (fst best) as [m|] eqn:Eb.
  - destruct (Qlt_bool (snd best) 10); [now apply Hcat|].
    unfold best in Eb. apply best_loop_row in Eb. destruct Eb as [Hin | Habs];
      [|discriminate Habs].
    apply in_or_app. now left.
  - now apply Hcat.
Qed.

Lemma local_rows_nonneg :
  forallb nonneg_density
    (values _load_local_food_database ++ values category_nutrition ++ [default_density])
  = true.
Proof. vm_compute. reflexivity. Qed.

Lemma nonneg_density_at_weight (d : density) (w : Q) :
  nonneg_density d = true -> 0 <= w -> nonneg_info (at_weight d w).
Proof.
  unfold nonneg_density, nonneg_info, at_weight. intros H Hw.
  repeat (apply andb_true_iff in H; destruct H as [H ?]).
  repeat match goal with
         | H : Qle_bool _ _ = true |- _ => apply Qle_bool_iff in H
         end.
  assert (Hs : 0 <= w / 100) by (apply Qle_shift_div_l; [reflexivity | lra]).
  cbn. repeat split; apply Qmult_le_0_compat; assumption.
Qed.

End LocalFacts.

(** X10.  [_get_local_nutrition] never reports a negative amount for a
    weight that is not negative, whichever row (best match, category or
    default) it settles on. *)
Theorem local_nutrition_is_never_negative :
  forall (food_name : string) (weight_grams : Q),
    0 <= weight_grams ->
    nonneg_info (_get_local_nutrition food_name weight_grams).
Proof.
  intros name w Hw. rewrite local_nutrition_at_weight.
  apply nonneg_density_at_weight; [|exact Hw].
  pose proof local_rows_nonneg as Hall. rewrite forallb_forall in Hall.
  apply Hall, local_density_row.
Qed.

Lemma local_nutrition_nonneg_witness :
  0 <= 250 /\ 0 <= i_calories (_get_local_nutrition "mystery stew" 250).
Proof.
  split; [discriminate|].
  apply (local_nutrition_is_never_negative "mystery stew" 250). discriminate.
Defined.

Section ScoreFacts.

Lemma len_le {A B : Type} (a : list A) (b : list B) :
  (List.length a <= List.length b)%nat -> len a <= len b.
Proof. intros H. unfold len. rewrite <- Zle_Qle. lia. Qed.

Lemma max_ge_l (a b : Q) : a <= CalorieCalculator.max a b.
Proof.
  unfold CalorieCalculator.max. destruct (Qlt_bool a b) eqn:E.
  - apply Qlt_bool_iff in E. lra.
  - lra.
Qed.

Lemma word_score_bounds (common food_words key_words : list string) :
  common <> [] ->
  (List.length common <= List.length food_words)%nat ->
  0 < len common / CalorieCalculator.max (len food_words) (len key_words) * 50 <= 50.
Proof.
  intros Hne Hle.
  assert (Hc : 0 < len common).
  { destruct common; [congruence|]. unfold len. change 0 with (inject_Z 0).
    rewrite <- Zlt_Qlt. rewrite length_cons. lia. }
  pose proof (len_le _ _ Hle) as Hcf.
  pose proof (max_ge_l (len food_words) (len key_words)) as Hm.
  set (m := CalorieCalculator.max _ _) in *.
  assert (Hmpos : 0 < m) by lra.
  split.
  - apply Qmult_lt_0_compat; [|reflexivity].
    apply Qlt_shift_div_l; lra.
  - assert (H1 : len common / m <= 1) by (apply Qle_shift_div_r; lra).
    lra.
Qed.

End ScoreFacts.

(** X11.  The score of a key against a label is 100 exactly for the key
    itself; any other key scores 80 (one string contains the other) or at
    most 70 (word overlap, with the bonus), so an exact key is never
    outranked. *)
Theorem match_score_ranks_exact_then_containment_then_words :
  forall food_name_lower food_key : string,
    (food_name_lower = food_key /\ match_score food_name_lower food_key == 100)
    \/ (food_name_lower <> food_key
        /\ (match_score food_name_lower food_key == 80
            \/ 0 <= match_score food_name_lower food_key <= 70)).
Proof.
  intros a k. unfold match_score.
  destruct (String.eqb_spec a k) as [->|Hne]; [left; split; reflexivity|].
  right. split; [exact Hne|].
  destruct (contains a k || contains k a); [left; reflexivity|].
  right.
  destruct (inter (set (split a)) (set (split k))) as [|c cs] eqn:Ec.
  - split; discriminate.
  - pose proof (word_score_bounds (c :: cs) (set (split a)) (set (split k))) as Hb.
    destruct Hb as [Hlo Hhi]; [discriminate | rewrite <- Ec; apply filter_length_le |].
    destruct (inter (c :: cs) important_words); lra.
Qed.

Section ExactKey.

Lemma match_score_other (a k : string) : a <> k -> match_score a k <= 80.
Proof.
  intros Hne. unfold match_score.
  destruct (String.eqb_spec a k) as [E|_]; [contradiction|].
  destruct (contains a k || contains k a); [discriminate|].
  destruct (inter (set (split a)) (set (split k))) as [|c cs] eqn:Ec; [discriminate|].
  pose proof (word_score_bounds (c :: cs) (set (split a)) (set (split k))) as Hb.
  destruct Hb as [Hlo Hhi]; [discriminate | rewrite <- Ec; apply filter_length_le |].
  destruct (inter (c :: cs) important_words); lra.
Qed.

Lemma match_score_self (k : string) : match_score k k = 100.
Proof. unfold match_score. now rewrite String.eqb_refl. Qed.

(** Once the exact key holds the lead, no other key takes it. *)
Lemma best_loop_keeps_exact (name : string) (d : density) (db : list (string * density)) :
  ~ In name (keys db) ->
  fold_left (best_step name) db (Some d, 100) = (Some d, 100).
Proof.
  induction db as [|[k v] db IH]; [reflexivity|].
  cbn [keys map fst]. intros Hnotin. cbn [fold_left]. unfold best_step at 2.
  cbn [fst snd].
  assert (Hne : name <> k) by (intros ->; apply Hnotin; now left).
  pose proof (match_score_other name k Hne) as Hs.
  assert (E : Qlt_bool 100 (match_score name k) = false)
    by (apply Qlt_bool_false_iff; lra).
  rewrite E. apply IH. intros Hin. apply Hnotin. now right.
Qed.

Lemma best_loop_exact (name : string) (d : density) (db : list (string * density)) :
  NoDup (keys db) -> In (name, d) db ->
  forall st, snd st < 100 ->
  fold_left (best_step name) db st = (Some d, 100).
Proof.
  induction db as [|[k v] db IH]; [intros _ []|].
  cbn [keys map fst]. intros Hnd Hin st Hst.
  inversion Hnd as [|? ? Hnotin Hnd']; subst.
  cbn [fold_left]. destruct Hin as [Heq | Hin].
  - injection Heq as -> ->. unfold best_step at 2. cbn [fst snd].
    rewrite match_score_self.
    assert (E : Qlt_bool (snd st) 100 = true) by (now apply Qlt_bool_iff).
    rewrite E. now apply best_loop_keeps_exact.
  - assert (Hne : name <> k).
    { intros ->. apply Hnotin. change k with (fst (k, d)). now apply in_map. }
    apply IH; [exact Hnd' | exact Hin |].
    unfold best_step. cbn [fst snd].
    pose proof (match_score_other name k Hne) as Hs.
    destruct (Qlt_bool (snd st) (match_score name k)); cbn [snd]; lra.
Qed.

Lemma local_keys_distinct : NoDup (keys _load_local_food_database).
Proof. apply nodup_keys_NoDup. vm_compute. reflexivity. Qed.

End ExactKey.

(** X12.  A label that is a key of the local table up to case is priced
    from the row of that key: no containing or overlapping key replaces
    it. *)
Theorem local_key_finds_its_own_row :
  forall (food_name key : string) (d : density) (weight_grams : Q),
    In (key, d) _load_local_food_database ->
    lower food_name = key ->
    _get_local_nutrition food_name weight_grams = at_weight d weight_grams.
Proof.
  intros name key d w Hin Hlow.
  rewrite local_nutrition_at_weight. f_equal.
  unfold local_density. rewrite Hlow.
  rewrite (best_loop_exact key d _ local_keys_distinct Hin (None, 0)) by reflexivity.
  reflexivity.
Qed.

Lemma local_key_witness :
  In ("chicken breast", per100 165 31 0 3.6 0 0 0.074) _load_local_food_database
  /\ lower "Chicken Breast" = "chicken breast"
  /\ i_calories (_get_local_nutrition "Chicken Breast" 200) == 330.
Proof.
  assert (Hin : In ("chicken breast", per100 165 31 0 3.6 0 0 0.074)
                   _load_local_food_database).
  { unfold _load_local_food_database. simpl. auto 30. }
  split; [exact Hin|]. split; [reflexivity|].
  rewrite (local_key_finds_its_own_row "Chicken Breast" "chicken breast" _ 200 Hin)
    by reflexivity.
  reflexivity.
Defined.

(* ------------------------------------------------------------------ *)

Section MultiFoodFacts.

Lemma amount_at_weight (n : nutrient) (d : density) (w : Q) :
  amount_of n (at_weight d w) = density_of n d * (w / 100).
Proof. destruct n; reflexivity. Qed.

Lemma amount_add_info (n : nutrient) (a b : NutritionalInfo) :
  amount_of n (add_info a b) = amount_of n a + amount_of n b.
Proof. destruct n; reflexivity. Qed.

(** The loop adds, to what it starts with, each label's row at the share. *)
Lemma combined_amount (n : nutrient) (foods : list string) (w : Q)
  (init : NutritionalInfo) :
  amount_of n
    (fold_left
       (fun combined_nutrition share =>
          add_info combined_nutrition (_get_local_nutrition (fst share) (snd share)))
       (map (fun food_name : string => (food_name, w)) foods) init)
  == amount_of n init
     + w / 100 * sum (map (fun food => density_of n (local_density food)) foods).
Proof.
  revert init. induction foods as [|food foods IH]; intros init.
  - cbn [map fold_left sum]. ring.
  - cbn [map fold_left sum]. rewrite IH, amount_add_info.
    cbn [fst snd]. rewrite local_nutrition_at_weight, amount_at_weight. ring.
Qed.

Lemma nonneg_add_info (a b : NutritionalInfo) :
  nonneg_info a -> nonneg_info b -> nonneg_info (add_info a b).
Proof.
  unfold nonneg_info. intros (?&?&?&?&?&?&?) (?&?&?&?&?&?&?).
  cbn. repeat split; lra.
Qed.

End MultiFoodFacts.

(** X13.  For two labels or more, every amount [_calculate_multi_food_nutrition]
    reports is the total weight times the plain mean of the per-100 g
    values of the rows the labels resolve to. *)
Theorem multi_food_amount_is_mean_density :
  forall (n : nutrient) (all_foods : list string) (total_weight : Q),
    (2 <= List.length all_foods)%nat ->
    amount_of n (_calculate_multi_food_nutrition all_foods total_weight)
    == total_weight / 100
       * mean (map (fun food => density_of n (local_density food)) all_foods).
Proof.
  intros n foods total Hlen.
  assert (Hne : ~ len foods == 0).
  { apply len_nonzero. destruct foods; [simpl in Hlen; lia | discriminate]. }
  unfold _calculate_multi_food_nutrition.
  destruct foods as [|a [|b foods]]; [simpl in Hlen; lia | simpl in Hlen; lia |].
  unfold multi_food_shares. rewrite combined_amount.
  unfold mean. set (l := a :: b :: foods) in *.
  assert (El : len (map (fun food => density_of n (local_density food)) l) == len l).
  { unfold len. now rewrite length_map. }
  rewrite El. destruct n; cbn [amount_of i_calories i_protein i_carbs i_fat i_fiber
                                 i_sugar i_sodium]; field; exact Hne.
Qed.

Lemma multi_food_mean_witness :
  (2 <= List.length ["rice"; "chicken"])%nat
  /\ i_calories (_calculate_multi_food_nutrition ["rice"; "chicken"] 300) == 442.5.
Proof.
  split; [simpl; lia|].
  rewrite (multi_food_amount_is_mean_density Calories ["rice"; "chicken"] 300)
    by (simpl; lia).
  vm_compute. reflexivity.
Defined.

(* ------------------------------------------------------------------ *)

Section BreakdownFacts.

Lemma percentage_value (part total_calories : Q) :
  0 < total_calories ->
  percentage part total_calories = Return (part / total_calories * 100).
Proof.
  intros H. unfold percentage.
  assert (E : Qlt_bool 0 total_calories = true) by (now apply Qlt_bool_iff).
  rewrite E, truediv_defined by lra. reflexivity.
Qed.

Lemma three_roundings (x y z : Q) :
  Qabs (round x 1 + round y 1 + round z 1 - (x + y + z)) <= 3 # 20.
Proof.
  pose proof (round_1_near x) as Hx. pose proof (round_1_near y) as Hy.
  pose proof (round_1_near z) as Hz.
  apply Qabs_Qle_condition in Hx. apply Qabs_Qle_condition in Hy.
  apply Qabs_Qle_condition in Hz. apply Qabs_Qle_condition.
  destruct Hx, Hy, Hz. split; lra.
Qed.

End BreakdownFacts.

(** X14.  When the caller passes no [total_calories] and the macro calories
    are positive, the three percentages of [get_calorie_breakdown] add up
    to 100 within 0.15, the error of three roundings to one decimal. *)
Theorem breakdown_percentages_add_up :
  forall nutrition_info : macro_dict,
    m_total_calories nutrition_info = None ->
    0 < get (m_protein nutrition_info) 0 * 4 + get (m_carbs nutrition_info) 0 * 4
        + get (m_fat nutrition_info) 0 * 9 ->
    exists breakdown pp cp fp,
      get_calorie_breakdown nutrition_info = Return breakdown
      /\ lookup "protein_percentage" breakdown = Some pp
      /\ lookup "carb_percentage" breakdown = Some cp
      /\ lookup "fat_percentage" breakdown = Some fp
      /\ Qabs (pp + cp + fp - 100) <= 3 # 20.
Proof.
  intros info Hnone Hpos. unfold get_calorie_breakdown. rewrite Hnone. cbn [get].
  set (p := get (m_protein info) 0 * 4) in *.
  set (c := get (m_carbs info) 0 * 4) in *.
  set (f := get (m_fat info) 0 * 9) in *.
  rewrite !percentage_value by exact Hpos. cbn [bind].
  do 4 eexists. split; [reflexivity|].
  split; [reflexivity|]. split; [reflexivity|]. split; [reflexivity|].
  assert (E : p / (p + c + f) * 100 + c / (p + c + f) * 100 + f / (p + c + f) * 100
              == 100) by (field; lra).
  pose proof (three_roundings (p / (p + c + f) * 100) (c / (p + c + f) * 100)
                (f / (p + c + f) * 100)) as H.
  apply Qabs_Qle_condition in H. apply Qabs_Qle_condition.
  destruct H. split; lra.
Qed.

Lemma breakdown_percentages_witness :
  m_total_calories (mk_macro (Some 10) (Some 10) (Some 10) None) = None
  /\ exists breakdown,
       get_calorie_breakdown (mk_macro (Some 10) (Some 10) (Some 10) None)
       = Return breakdown
       /\ lookup "fat_percentage" breakdown = Some 52.9.
Proof.
  split; [reflexivity|].
  destruct (breakdown_percentages_add_up (mk_macro (Some 10) (Some 10) (Some 10) None))
    as (b & pp & cp & fp & Hb & _); [reflexivity | reflexivity |].
  exists b. split; [exact Hb|].
  injection Hb as <-. vm_compute. reflexivity.
Defined.

(* ------------------------------------------------------------------ *)

Section ContainsFacts.

Lemma lower_app (a b : string) : lower (a ++ b) = lower a ++ lower b.
Proof.
  induction a as [|c a IH]; [reflexivity|].
  cbn [append lower]. now rewrite IH.
Qed.

Lemma substring_prefix (w s : string) :
  substring 0 (String.length w) (w ++ s) = w.
Proof.
  induction w as [|c w IH]; cbn [String.length append substring].
  - now destruct s.
  - now rewrite IH.
Qed.

Lemma substring_middle (p w s : string) :
  substring (String.length p) (String.length w) (p ++ w ++ s) = w.
Proof.
  induction p as [|c p IH]; cbn [String.length append substring].
  - apply substring_prefix.
  - exact IH.
Qed.

(** A word that stands somewhere in a text is found in it. *)
Lemma contains_middle (p w s : string) :
  w <> "" -> contains w (p ++ w ++ s) = true.
Proof.
  intros Hne. unfold contains.
  destruct (index 0 w (p ++ w ++ s)) eqn:E; [reflexivity|].
  exfalso. apply (index_correct3 0 (String.length p) _ _ E Hne); [lia|].
  apply substring_middle.
Qed.

Lemma any_in_middle (words : list string) (k p s : string) :
  In k words -> k <> "" -> any_in words (p ++ k ++ s) = true.
Proof.
  intros Hin Hne. unfold any_in. apply existsb_exists.
  exists k. split; [exact Hin | now apply contains_middle].
Qed.

End ContainsFacts.

(** X15.  [classify_food_category] tests the grain keywords first and by
    containment: a label in which a grain keyword occurs anywhere, in any
    case, is classified "grain", whatever else it mentions. *)
Theorem grain_word_anywhere_means_grain :
  forall (before word after keyword : string) (words : list string)
         (rest : list (string * list string)),
    category_keywords = ("grain", words) :: rest ->
    In keyword words ->
    lower word = keyword ->
    classify_food_category (before ++ word ++ after) = "grain".
Proof.
  intros p w s k words rest Hk Hin Hlow.
  assert (Hne : k <> "").
  { injection Hk as <- _. intros ->. simpl in Hin.
    repeat (destruct Hin as [Hin | Hin]; [discriminate Hin|]). exact Hin. }
  unfold classify_food_category. rewrite Hk. cbn [first_group].
  rewrite !lower_app, Hlow.
  now rewrite (any_in_middle words k (lower p) (lower s) Hin Hne).
Qed.

Lemma grain_word_witness :
  (exists words rest, category_keywords = ("grain", words) :: rest /\ In "wrap" words)
  /\ lower "WRAP" = "wrap"
  /\ classify_food_category ("Grilled chicken " ++ "WRAP" ++ " with bacon") = "grain".
Proof.
  split.
  - do 2 eexists. split; [reflexivity|]. simpl. auto 20.
  - split; [reflexivity|].
    eapply (grain_word_anywhere_means_grain "Grilled chicken " "WRAP" " with bacon" "wrap");
      [reflexivity | simpl; auto 20 | reflexivity].
Defined.

(** X16.  A fast-food reply with a serving weight is rescaled to the
    requested non-zero weight: serving weight the request, calories and
    macros multiplied by request / serving, confidence kept.  A reply
    whose serving weight is zero yields no data (the division raises and
    the exception is swallowed). *)
Theorem fast_food_reply_is_rescaled_to_the_request :
  forall (chat : chat_service) (food_name : string) (w s : Q) (reply : web_data),
    fast_food_reply chat food_name = Some reply ->
    w_error reply = false ->
    w_serving_weight_grams reply = Some s ->
    ~ w == 0 ->
    (~ s == 0 ->
     exists data,
       _search_fast_food_nutrition chat food_name w = Some data
       /\ get (w_serving_weight_grams data) 0 == w
       /\ get (w_calories data) 0 == get (w_calories reply) 0 * (w / s)
       /\ get (w_protein data) 0 == get (w_protein reply) 0 * (w / s)
       /\ get (w_carbs data) 0 == get (w_carbs reply) 0 * (w / s)
       /\ get (w_fat data) 0 == get (w_fat reply) 0 * (w / s)
       /\ w_confidence data = w_confidence reply)
    /\ (s == 0 -> _search_fast_food_nutrition chat food_name w = None).
Proof.
  intros chat name w s reply Hreply Herr Hs Hw.
  unfold _search_fast_food_nutrition. rewrite Hreply, Herr, Hs.
  cbn [negb get]. rewrite (truthy_Some w Hw). cbn [andb].
  split.
  - intros Hs0. destruct (Qeq_bool w s) eqn:E; cbn [negb].
    + apply Qeq_bool_iff in E. eexists. split; [reflexivity|].
      rewrite Hs. cbn [get].
      assert (E1 : w / s == 1) by (rewrite E; field; exact Hs0).
      repeat split; try (rewrite E1; ring). symmetry. exact E.
    + unfold _scale_nutrition_data. rewrite Hs. cbn [get].
      rewrite (truediv_defined w s Hs0). cbn [bind try_except].
      eexists. split; [reflexivity|]. cbn [get w_serving_weight_grams w_calories
        w_protein w_carbs w_fat w_confidence]. repeat split; reflexivity.
  - intros Hs0.
    assert (E : Qeq_bool w s = false).
    { apply Qeq_bool_false_iff. intros H. apply Hw. now rewrite H. }
    rewrite E. cbn [negb]. unfold _scale_nutrition_data, truediv. rewrite Hs. cbn [get].
    apply Qeq_bool_iff in Hs0. rewrite Hs0. reflexivity.
Qed.

Lemma fast_food_rescale_witness :
  fast_food_reply latte_chat "Starbucks Latte" = Some latte_reply
  /\ exists data,
       _search_fast_food_nutrition latte_chat "Starbucks Latte" 946 = Some data
       /\ get (w_calories data) 0 == 380.
Proof.
  split; [reflexivity|].
  destruct (fast_food_reply_is_rescaled_to_the_request latte_chat "Starbucks Latte"
              946 473 latte_reply) as [H _];
    [reflexivity | reflexivity | reflexivity | discriminate |].
  destruct H as (data & Hd & _ & Hc & _); [discriminate|].
  exists data. split; [exact Hd|]. rewrite Hc. reflexivity.
Defined.

(* ------------------------------------------------------------------ *)

Section RoundingOrder.

(** Rounding to the nearest integer keeps the order. *)
Lemma round_half_even_mono (x y : Q) :
  x <= y -> (round_half_even x <= round_half_even y)%Z.
Proof.
  intros Hxy.
  destruct (Z_le_gt_dec (round_half_even x) (round_half_even y)) as [H|H]; [exact H|].
  exfalso.
  pose proof (round_half_even_near x) as Hx.
  pose proof (round_half_even_near y) as Hy.
  apply Qabs_Qle_condition in Hx. apply Qabs_Qle_condition in Hy.
  assert (H1 : inject_Z (round_half_even y) + 1 <= inject_Z (round_half_even x)).
  { change 1 with (inject_Z 1). rewrite <- inject_Z_plus, <- Zle_Qle. lia. }
  assert (E : x == y) by lra.
  rewrite (round_half_even_comp _ _ E) in H. lia.
Qed.

Lemma round_mono (x y : Q) (n : nat) : x <= y -> round x n <= round y n.
Proof.
  intros Hxy. pose proof (pow10_pos n) as P. unfold round.
  apply Qmult_le_compat_r; [|apply Qlt_le_weak, Qinv_lt_0_compat, P].
  rewrite <- Zle_Qle. apply round_half_even_mono.
  apply Qmult_le_compat_r; [exact Hxy | apply Qlt_le_weak, P].
Qed.

End RoundingOrder.

Section WorkoutFacts.

Lemma first_activity_In (a : string) (items : list (string * Q)) (d : option Q) :
  first_activity a items d = d
  \/ exists met, first_activity a items d = Some met /\ In met (values items).
Proof.
  induction items as [|[k v] items IH]; [now left|].
  cbn [first_activity]. destruct (contains k a).
  - right. exists v. split; [reflexivity | now left].
  - destruct IH as [IH | (met & IH & Hin)]; [now left|].
    right. exists met. split; [exact IH | now right].
Qed.

Lemma table_met (a : string) (items : list (string * Q)) (band : Q * Q) :
  (exists d, lookup "default" items = Some d) ->
  (forall met, In met (values items) -> in_band band met) ->
  exists met, first_activity a items (lookup "default" items) = Some met
              /\ in_band band met.
Proof.
  intros [d Hd] Hall.
  destruct (first_activity_In a items (lookup "default" items)) as [E | (met & E & Hin)].
  - exists d. split; [now rewrite E|]. apply Hall. now apply (lookup_In "default").
  - exists met. split; [exact E | now apply Hall].
Qed.

Lemma band_of_values (items : list (string * Q)) (band : Q * Q) :
  forallb (fun met => Qle_bool (fst band) met && Qle_bool met (snd band)) (values items) = true ->
  forall met, In met (values items) -> in_band band met.
Proof.
  intros H met Hin. rewrite forallb_forall in H. specialize (H met Hin).
  apply andb_true_iff in H. destruct H as [H1 H2].
  split; now apply Qle_bool_iff.
Qed.

(** The MET value the code uses lies in the band of the intensity. *)
Lemma met_in_band (activity_type intensity : string) :
  exists met,
    first_activity (lower activity_type)
      (match lookup intensity met_values with Some mets => mets | None => moderate_mets end)
      (lookup "default"
         (match lookup intensity met_values with Some mets => mets | None => moderate_mets end))
    = Some met
    /\ in_band (met_band intensity) met.
Proof.
  unfold met_band, met_values. cbn [lookup].
  destruct (String.eqb intensity "light") eqn:El.
  - apply table_met; [now exists 2.5 | now apply band_of_values].
  - destruct (String.eqb intensity "moderate") eqn:Em.
    + apply String.eqb_eq in Em. subst intensity. cbn [String.eqb Ascii.eqb Bool.eqb].
      apply table_met; [now exists 5.0 | now apply band_of_values].
    + destruct (String.eqb intensity "high") eqn:Eh.
      * apply table_met; [now exists 9.0 | now apply band_of_values].
      * apply table_met; [now exists 5.0 | now apply band_of_values].
Qed.

End WorkoutFacts.


(** X18.  For a weight that is not negative, a longer workout of the same
    activity and intensity is never credited fewer calories: rounding
    keeps the order. *)
Theorem longer_workout_burns_no_less :
  forall (activity_type intensity : string) (d1 d2 weight_kg : Q),
    0 <= weight_kg -> d1 <= d2 ->
    exists c1 c2,
      calculate_calories_burned activity_type intensity d1 weight_kg = Return c1
      /\ calculate_calories_burned activity_type intensity d2 weight_kg = Return c2
      /\ c1 <= c2.
Proof.
  intros a i d1 d2 w Hw Hd. destruct (met_in_band a i) as (met & E & Hlo & Hhi).
  assert (Hmet : 0 <= met).
  { unfold met_band in Hlo.
    destruct (String.eqb i "light"); [cbn in Hlo; lra|].
    destruct (String.eqb i "high"); cbn in Hlo; lra. }
  unfold calculate_calories_burned. rewrite E. cbn [float bind].
  do 2 eexists. split; [reflexivity|]. split; [reflexivity|].
  apply round_mono.
  rewrite (Qmult_comm (met * w) (d1 / 60.0)), (Qmult_comm (met * w) (d2 / 60.0)).
  apply Qmult_le_compat_r; [|apply Qmult_le_0_compat; assumption].
  apply Qmult_le_compat_r; [exact Hd | discriminate].
Qed.

Lemma longer_workout_witness :
  exists c1 c2,
    calculate_calories_burned "Jiu Jitsu" "high" 60 80 = Return c1
    /\ calculate_calories_burned "Jiu Jitsu" "high" 90 80 = Return c2
    /\ c1 <= c2.
Proof.
  apply (longer_workout_burns_no_less "Jiu Jitsu" "high" 60 90 80); discriminate.
Defined.

(* ------------------------------------------------------------------ *)

Section IsolationFacts.

Lemma filter_filter_and {A : Type} (f g : A -> bool) (l : list A) :
  filter (fun x => f x && g x) (filter f l) = filter (fun x => f x && g x) l.
Proof.
  induction l as [|x l IH]; [reflexivity|].
  cbn [filter]. destruct (f x) eqn:E; cbn [filter andb].
  - rewrite E. cbn [andb]. destruct (g x); now rewrite IH.
  - exact IH.
Qed.

Lemma filter_idem {A : Type} (f : A -> bool) (l : list A) :
  filter f (filter f l) = filter f l.
Proof.
  induction l as [|x l IH]; [reflexivity|].
  cbn [filter]. destruct (f x) eqn:E; cbn [filter]; [rewrite E|]; now rewrite IH.
Qed.

(** The three queries of [get_learning_context] see the rows of the user
    only. *)
Lemma learning_context_of_own_rows (table : list UserFeedback) (user : nat)
  (name : string) :
  get_learning_context (filter (fun r => Nat.eqb (user_id r) user) table) user name
  = get_learning_context table user name.
Proof.
  unfold get_learning_context.
  rewrite (filter_filter_and (fun r => Nat.eqb (user_id r) user)
             (fun r => column_is (food_category r) (classify_food_category name))).
  rewrite (filter_filter_and (fun r => Nat.eqb (user_id r) user)
             (fun r => column_is (ai_food_name r) name)).
  rewrite filter_idem. reflexivity.
Qed.

Lemma filter_none {A : Type} (f : A -> bool) (l : list A) :
  (forall x, In x l -> f x = false) -> filter f l = [].
Proof.
  induction l as [|x l IH]; [reflexivity|].
  intros H. cbn [filter]. rewrite (H x (or_introl eq_refl)).
  apply IH. intros y Hy. apply H. now right.
Qed.

End IsolationFacts.

(** X19.  [apply_learning_adjustments] reads the rows of the user only:
    the result on a table is the result on the user's own rows. *)
Theorem corrections_of_other_users_are_never_read :
  forall (table : list UserFeedback) (analysis_result : analysis) (user : nat),
    apply_learning_adjustments table analysis_result user
    = apply_learning_adjustments
        (filter (fun r => Nat.eqb (user_id r) user) table) analysis_result user.
Proof.
  intros table raw user. unfold apply_learning_adjustments.
  now rewrite learning_context_of_own_rows.
Qed.

(** X20.  For a user without a row in [user_feedback] the adjuster returns
    the analysis unchanged, whatever other users have corrected. *)
Theorem user_without_corrections_gets_the_raw_analysis :
  forall (table : list UserFeedback) (analysis_result : analysis) (user : nat),
    (forall r, In r table -> user_id r <> user) ->
    apply_learning_adjustments table analysis_result user = Return analysis_result.
Proof.
  intros table raw user H. unfold apply_learning_adjustments.
  rewrite <- learning_context_of_own_rows.
  rewrite (filter_none (fun r => Nat.eqb (user_id r) user) table).
  - reflexivity.
  - intros r Hr. apply Nat.eqb_neq. now apply H.
Qed.

Lemma user_without_corrections_witness :
  apply_learning_adjustments [stranger_fix; stranger_fix; stranger_fix] pasta_raw 1
  = Return pasta_raw.
Proof.
  apply (user_without_corrections_gets_the_raw_analysis
           [stranger_fix; stranger_fix; stranger_fix] pasta_raw 1).
  intros r [<- | [<- | [<- | []]]]; discriminate.
Defined.

(* ------------------------------------------------------------------ *)

Section AdjusterShape.

(** What step 4 can do to a record. *)
Lemma step4_keeps_macros (t : string) (c : UserFeedback) (raw : analysis) :
  a_protein (step4_outcome t c raw) = a_protein raw
  /\ a_carbs (step4_outcome t c raw) = a_carbs raw
  /\ a_fat (step4_outcome t c raw) = a_fat raw.
Proof.
  unfold step4_outcome, name_markers.
  destruct (same_name (corrected_food_name c) (ai_food_name c));
    destruct (relative_change_exceeds (corrected_weight_grams c) (ai_weight_grams c) 0.2);
    destruct (relative_change_exceeds (corrected_calories c) (ai_calories c) 0.5);
    try match goal with
        | |- context [between ?a ?b ?d] => destruct (between a b d)
        end;
    repeat split; reflexivity.
Qed.

Lemma step4_marked (t : string) (c : UserFeedback) (raw : analysis) :
  step4_outcome t c raw = raw
  \/ exists m, learning_applied (step4_outcome t c raw) = Some m.
Proof.
  unfold step4_outcome, name_markers.
  destruct (same_name (corrected_food_name c) (ai_food_name c));
    destruct (relative_change_exceeds (corrected_weight_grams c) (ai_weight_grams c) 0.2);
    destruct (relative_change_exceeds (corrected_calories c) (ai_calories c) 0.5);
    try match goal with
        | |- context [between ?a ?b ?d] => destruct (between a b d)
        end;
    cbn [learning_applied set_learning_applied]; eauto.
Qed.

Lemma step4_name (t : string) (c : UserFeedback) (raw : analysis) :
  same_name (corrected_food_name c) (ai_food_name c) = false ->
  a_food_name (step4_outcome t c raw) = corrected_food_name c
  /\ exists m, learning_applied (step4_outcome t c raw) = Some m.
Proof.
  intros H. unfold step4_outcome, name_markers. rewrite H.
  destruct (relative_change_exceeds (corrected_weight_grams c) (ai_weight_grams c) 0.2);
    destruct (relative_change_exceeds (corrected_calories c) (ai_calories c) 0.5);
    try match goal with
        | |- context [between ?a ?b ?d] => destruct (between a b d)
        end;
    cbn [a_food_name learning_applied set_learning_applied set_food_name
         scale_calories scale_weight_grams]; eauto.
Qed.

Lemma step4_weight (t : string) (c : UserFeedback) (raw : analysis) :
  relative_change_exceeds (corrected_weight_grams c) (ai_weight_grams c) 0.2 = false ->
  a_weight_grams (step4_outcome t c raw) = a_weight_grams raw.
Proof.
  intros H. unfold step4_outcome, name_markers. rewrite H.
  destruct (same_name (corrected_food_name c) (ai_food_name c));
    destruct (relative_change_exceeds (corrected_calories c) (ai_calories c) 0.5);
    reflexivity.
Qed.

(** What the category step can do to a record. *)
Lemma category_step_shape (similar : list UserFeedback) (raw : analysis) :
  exists r, category_step similar raw = Return r
            /\ (r = raw
                \/ exists q, r = set_learning_applied (scale_calories raw q)
                                   "category_calorie_adjustment").
Proof.
  unfold category_step. destruct (3 <=? List.length similar)%nat; [|eauto].
  rewrite calorie_ratios_spec. cbn [bind].
  destruct (clipped_ratios similar) as [|q qs]; [eauto|].
  rewrite truediv_defined by (apply len_nonzero; discriminate).
  cbn [bind]. destruct (Qlt_bool 0.1 _); eauto.
Qed.

(** The adjuster is step 4 on the top candidate, if there is one, followed
    by the category step. *)
Lemma adjust_with_context_shape (context : learning_context) (raw : analysis) :
  exists mid r,
    (mid = raw \/ exists t c, mid = step4_outcome t c raw)
    /\ adjust_with_context context raw = Return r
    /\ (r = mid
        \/ exists q, r = set_learning_applied (scale_calories mid q)
                           "category_calorie_adjustment").
Proof.
  unfold adjust_with_context.
  destruct (exact_corrections context) as [|e es].
  - destruct (fuzzy_corrections context) as [|f fs]; cbn [bind].
    + destruct (category_step_shape (similar_corrections context) raw) as (r & Hr & Hs).
      exists raw, r. split; [now left|]. split; [exact Hr | exact Hs].
    + rewrite latest_correction_step_outcome. cbn [bind].
      destruct (category_step_shape (similar_corrections context)
                  (step4_outcome "fuzzy" f raw)) as (r & Hr & Hs).
      exists (step4_outcome "fuzzy" f raw), r.
      split; [right; eauto|]. split; [exact Hr | exact Hs].
  - rewrite latest_correction_step_outcome. cbn [bind].
    destruct (category_step_shape (similar_corrections context)
                (step4_outcome "exact" e raw)) as (r & Hr & Hs).
    exists (step4_outcome "exact" e raw), r.
    split; [right; eauto|]. split; [exact Hr | exact Hs].
Qed.

Lemma apply_learning_adjustments_shape (table : list UserFeedback) (raw : analysis)
  (user : nat) :
  exists mid r,
    (mid = raw \/ exists t c, mid = step4_outcome t c raw)
    /\ apply_learning_adjustments table raw user = Return r
    /\ (r = mid
        \/ exists q, r = set_learning_applied (scale_calories mid q)
                           "category_calorie_adjustment").
Proof.
  unfold apply_learning_adjustments.
  destruct (get_learning_context_total table user
              (match a_food_name raw with Some n => n | None => "" end)) as [ctx Hctx].
  rewrite Hctx. cbn [bind]. apply adjust_with_context_shape.
Qed.

End AdjusterShape.

(** X21.  [apply_learning_adjustments] always returns, and it changes the
    name, the weight and the calories only: protein, carbs and fat of the
    analysis are returned as they came, even when the calories are
    rescaled.  Whatever it changes it marks: a result without
    [learning_applied] is the analysis it was given. *)
Theorem adjustments_spare_the_macros_and_are_marked :
  forall (table : list UserFeedback) (analysis_result : analysis) (user : nat),
  exists r,
    apply_learning_adjustments table analysis_result user = Return r
    /\ a_protein r = a_protein analysis_result
    /\ a_carbs r = a_carbs analysis_result
    /\ a_fat r = a_fat analysis_result
    /\ (learning_applied r = None -> r = analysis_result).
Proof.
  intros table raw user.
  destruct (apply_learning_adjustments_shape table raw user)
    as (mid & r & Hmid & Hr & Hcat).
  exists r. split; [exact Hr|].
  assert (Hm : a_protein mid = a_protein raw /\ a_carbs mid = a_carbs raw
               /\ a_fat mid = a_fat raw).
  { destruct Hmid as [-> | (t & c & ->)]; [repeat split | apply step4_keeps_macros]. }
  destruct Hm as (Hp & Hc & Hf).
  split; [|split; [|split]].
  - destruct Hcat as [-> | (q & ->)]; exact Hp.
  - destruct Hcat as [-> | (q & ->)]; exact Hc.
  - destruct Hcat as [-> | (q & ->)]; exact Hf.
  - intros Hnone.
    destruct Hcat as [-> | (q & ->)]; [|discriminate Hnone].
    destruct Hmid as [-> | (t & c & ->)]; [reflexivity|].
    destruct (step4_marked t c raw) as [E | [m Hm]]; [exact E|].
    rewrite Hm in Hnone. discriminate.
Qed.

Section NewestRow.

Lemma insert_above {A : Type} (x y : Q * A) (l : list (Q * A)) :
  fst y < fst x -> insert_desc y (x :: l) = x :: insert_desc y l.
Proof.
  intros H. cbn [insert_desc]. apply Qlt_bool_iff in H. now rewrite H.
Qed.

Lemma fold_insert_newest {A : Type} (x : Q * A) (l : list (Q * A)) :
  (forall y, In y l -> fst y < fst x) ->
  fold_right insert_desc [x] l = x :: fold_right insert_desc [] l.
Proof.
  induction l as [|y l IH]; intros H; [reflexivity|].
  cbn [fold_right]. rewrite IH by (intros z Hz; apply H; now right).
  apply insert_above. apply H. now left.
Qed.

(** A row stamped later than every other row comes first. *)
Lemma order_newest_first (rows : list UserFeedback) (x : UserFeedback) :
  (forall r, In r rows -> created_at r < created_at x) ->
  order_by_created_at_desc (rows ++ [x]) = x :: order_by_created_at_desc rows.
Proof.
  intros H. unfold order_by_created_at_desc, sort_desc.
  rewrite map_app, fold_right_app. cbn [map fold_right insert_desc].
  rewrite fold_insert_newest; [reflexivity|].
  intros y Hy. apply in_map_iff in Hy. destruct Hy as (r & <- & Hr).
  cbn [fst]. now apply H.
Qed.

(** The newest row of the user for the label is the top exact candidate,
    and the adjuster applies step 4 with it. *)
Lemma newest_exact_row_is_applied (table : list UserFeedback) (row : UserFeedback)
  (raw : analysis) (user : nat) (name : string) :
  user_id row = user ->
  ai_food_name row = Some name ->
  a_food_name raw = Some name ->
  (forall r, In r table -> created_at r < created_at row) ->
  exists r,
    apply_learning_adjustments (table ++ [row]) raw user = Return r
    /\ (r = step4_outcome "exact" row raw
        \/ exists q, r = set_learning_applied
                           (scale_calories (step4_outcome "exact" row raw) q)
                           "category_calorie_adjustment").
Proof.
  intros Hu Hn Hraw Hnew.
  assert (E : firstn 5 (order_by_created_at_desc
                (filter (fun r => Nat.eqb (user_id r) user
                                  && column_is (ai_food_name r) name) (table ++ [row])))
              = row :: firstn 4 (order_by_created_at_desc
                  (filter (fun r => Nat.eqb (user_id r) user
                                    && column_is (ai_food_name r) name) table))).
  { rewrite filter_app. cbn [filter]. rewrite Hu, Hn, Nat.eqb_refl. cbn [column_is andb].
    rewrite String.eqb_refl. rewrite order_newest_first; [reflexivity|].
    intros r Hr. apply filter_In in Hr. now apply Hnew. }
  unfold apply_learning_adjustments. rewrite Hraw.
  unfold get_learning_context. cbv zeta. rewrite E. cbn [bind].
  unfold adjust_with_context. cbn [exact_corrections fuzzy_corrections similar_corrections].
  rewrite latest_correction_step_outcome. cbn [bind].
  destruct (category_step_shape
              (firstn 10 (order_by_created_at_desc
                 (filter (fun r => Nat.eqb (user_id r) user
                                   && column_is (food_category r)
                                        (classify_food_category name)) (table ++ [row]))))
              (step4_outcome "exact" row raw)) as (r & Hr & Hs).
  exists r. split; [exact Hr | exact Hs].
Qed.

(** The row an edit adds, when the entry has its estimate and its protein. *)
Lemma edit_entry_row (now : Q) (table : list UserFeedback) (user : nat)
  (entry : FoodEntry) (form : edit_form) (w p : Q) :
  fe_user_id entry = user ->
  estimated_weight_grams entry = Some w ->
  fe_protein entry = Some p ->
  snd (edit_entry now table user entry form)
  = (table ++ [mk_feedback user
                 (Some (or_name (original_ai_food_name entry) (fe_food_name entry)))
                 (Some w) (Some (fe_calories entry))
                 (Some (form_food_name form))
                 (Some (get (form_weight form) 0))
                 (Some (form_calories form))
                 (Some (classify_food_category (form_food_name form)))
                 now])%list.
Proof.
  intros Hu Hw Hp. unfold edit_entry. rewrite Hu, Nat.eqb_refl. cbn [negb].
  unfold capture_user_feedback.
  cbn [user_corrected negb orb falsy_dict o_food_name o_weight_grams o_calories
       o_protein o_carbs o_fat is_absent andb slot_get fe_food_name fe_user_id
       actual_weight_grams fe_calories fe_protein].
  rewrite Hw, Hp. cbn [float bind].
  destruct (Qlt_bool 10 _); cbn [bind]; reflexivity.
Qed.

End NewestRow.

(** X22.  Round trip of a rename.  When a user saves an entry under another
    name than the label the recognizer gave, [edit_entry] stores a row
    through [capture_user_feedback], and the next analysis of that user
    with the same label is returned under the corrected name, with a
    marker.  The entry must hold its estimated weight and its protein,
    otherwise the capture raises. *)
Theorem rename_is_replayed_on_the_next_analysis :
  forall (now : Q) (table : list UserFeedback) (user : nat) (entry : FoodEntry)
         (form : edit_form) (label : string) (w p : Q) (analysis_result : analysis),
    fe_user_id entry = user ->
    or_name (original_ai_food_name entry) (fe_food_name entry) = label ->
    estimated_weight_grams entry = Some w ->
    fe_protein entry = Some p ->
    (forall r, In r table -> created_at r < now) ->
    form_food_name form <> label ->
    a_food_name analysis_result = Some label ->
    exists r m,
      apply_learning_adjustments (snd (edit_entry now table user entry form))
        analysis_result user = Return r
      /\ a_food_name r = Some (form_food_name form)
      /\ learning_applied r = Some m.
Proof.
  intros now table user entry form label w p raw Hu Hl Hw Hp Hnew Hne Hraw.
  rewrite (edit_entry_row now table user entry form w p Hu Hw Hp). rewrite Hl.
  set (row := mk_feedback _ _ _ _ _ _ _ _ _).
  destruct (newest_exact_row_is_applied table row raw user label)
    as (r & Hr & Hs); [reflexivity | reflexivity | exact Hraw | exact Hnew |].
  assert (Hsame : same_name (corrected_food_name row) (ai_food_name row) = false).
  { cbn. now apply String.eqb_neq. }
  destruct (step4_name "exact" row raw Hsame) as [Hname [m Hm]].
  exists r. destruct Hs as [-> | (q & ->)].
  - exists m. split; [exact Hr|]. split; [exact Hname | exact Hm].
  - exists "category_calorie_adjustment". split; [exact Hr|]. split; [exact Hname | reflexivity].
Qed.

Lemma rename_witness :
  exists r m,
    apply_learning_adjustments (snd (edit_entry 10 [pasta_portion_fix] 1 pasta_entry rename_form))
      pasta_raw 1 = Return r
    /\ a_food_name r = Some "spaghetti bolognese"
    /\ learning_applied r = Some m.
Proof.
  apply (rename_is_replayed_on_the_next_analysis 10 [pasta_portion_fix] 1 pasta_entry
           rename_form "pasta" 250 14 pasta_raw); try reflexivity.
  - intros r [<- | []]. reflexivity.
  - discriminate.
Defined.

(** X23.  Saving an entry with the weight the application estimated
    stores a row whose AI weight and corrected weight agree.  Being the
    newest row for the label it is the one step 4 reads, so the next
    analysis of the label keeps its raw weight, whatever portion
    corrections older rows hold. *)
Theorem saving_the_estimated_weight_switches_portion_learning_off :
  forall (now : Q) (table : list UserFeedback) (user : nat) (entry : FoodEntry)
         (form : edit_form) (label : string) (w p : Q) (analysis_result : analysis),
    fe_user_id entry = user ->
    or_name (original_ai_food_name entry) (fe_food_name entry) = label ->
    estimated_weight_grams entry = Some w ->
    fe_protein entry = Some p ->
    (forall r, In r table -> created_at r < now) ->
    get (form_weight form) 0 == w ->
    a_food_name analysis_result = Some label ->
    exists r,
      apply_learning_adjustments (snd (edit_entry now table user entry form))
        analysis_result user = Return r
      /\ a_weight_grams r = a_weight_grams analysis_result.
Proof.
  intros now table user entry form label w p raw Hu Hl Hw Hp Hnew Hsame Hraw.
  rewrite (edit_entry_row now table user entry form w p Hu Hw Hp). rewrite Hl.
  set (row := mk_feedback _ _ _ _ _ _ _ _ _).
  destruct (newest_exact_row_is_applied table row raw user label)
    as (r & Hr & Hs); [reflexivity | reflexivity | exact Hraw | exact Hnew |].
  assert (Hno : relative_change_exceeds (corrected_weight_grams row)
                  (ai_weight_grams row) 0.2 = false).
  { cbn [row corrected_weight_grams ai_weight_grams relative_change_exceeds].
    destruct (Qeq_bool w 0) eqn:E0; [cbn [negb]; now rewrite andb_false_r|].
    apply andb_false_intro2. apply Qlt_bool_false_iff.
    apply Qeq_bool_false_iff in E0.
    assert (E : Qabs (get (form_weight form) 0 - w) / w == 0).
    { rewrite Hsame. setoid_replace (w - w) with 0 by ring. reflexivity. }
    rewrite E. discriminate. }
  pose proof (step4_weight "exact" row raw Hno) as Hweight.
  exists r. split; [exact Hr|].
  destruct Hs as [-> | (q & ->)]; exact Hweight.
Qed.

Lemma saving_the_estimate_witness :
  (exists before,
     apply_learning_adjustments [pasta_portion_fix] pasta_raw 1 = Return before
     /\ a_weight_grams before == 400)
  /\ exists r,
       apply_learning_adjustments
         (snd (edit_entry 10 [pasta_portion_fix] 1 pasta_entry confirm_form))
         pasta_raw 1 = Return r
       /\ a_weight_grams r = 250.
Proof.
  split.
  - eexists. split; [vm_compute; reflexivity|]. vm_compute. reflexivity.
  - apply (saving_the_estimated_weight_switches_portion_learning_off 10
             [pasta_portion_fix] 1 pasta_entry confirm_form "pasta" 250 14 pasta_raw);
      try reflexivity.
    intros r [<- | []]. reflexivity.
Defined.

(** X24.  An entry without an estimated weight is updated by the edit,
    but its correction is not stored: [float(None)] raises inside
    [capture_user_feedback], the route swallows the exception, and the
    table is left as it was. *)
Theorem correction_of_an_entry_without_estimate_is_lost :
  forall (now : Q) (table : list UserFeedback) (user : nat) (entry : FoodEntry)
         (form : edit_form),
    estimated_weight_grams entry = None ->
    snd (edit_entry now table user entry form) = table
    /\ (fe_user_id entry = user ->
        user_corrected (fst (edit_entry now table user entry form)) = true
        /\ fe_food_name (fst (edit_entry now table user entry form))
           = form_food_name form).
Proof.
  intros now table user entry form Hw. unfold edit_entry.
  destruct (Nat.eqb (fe_user_id entry) user) eqn:Eu; cbn [negb].
  - unfold capture_user_feedback.
    cbn [user_corrected negb orb falsy_dict o_food_name o_weight_grams o_calories
         o_protein o_carbs o_fat is_absent andb slot_get].
    rewrite Hw. cbn [float bind]. split; [reflexivity|]. intros _. split; reflexivity.
  - split; [reflexivity|]. intros Hu. rewrite Hu, Nat.eqb_refl in Eu. discriminate.
Qed.

Lemma lost_correction_witness :
  estimated_weight_grams pasta_without_estimate = None
  /\ snd (edit_entry 10 [pasta_portion_fix] 1 pasta_without_estimate rename_form)
     = [pasta_portion_fix]
  /\ user_corrected
       (fst (edit_entry 10 [pasta_portion_fix] 1 pasta_without_estimate rename_form))
     = true
  /\ fe_food_name
       (fst (edit_entry 10 [pasta_portion_fix] 1 pasta_without_estimate rename_form))
     = "spaghetti bolognese".
Proof.
  split; [reflexivity|].
  destruct (correction_of_an_entry_without_estimate_is_lost 10 [pasta_portion_fix] 1
              pasta_without_estimate rename_form) as [Htable Hentry]; [reflexivity|].
  split; [exact Htable|]. apply Hentry. reflexivity.
Defined.

(* ================================================================== *)
(** * The cascade of hyper_accurate_calculator.py *)
(* ================================================================== *)

Import HyperAccurateCascade.

Section StoreFacts.
Context {V : Type}.

Lemma lookup_store_same (k : string) (v : V) (d : list (string * V)) :
  lookup k (store k v d) = Some v.
Proof.
  induction d as [|[k' v'] d IH]; cbn [store lookup].
  - now rewrite String.eqb_refl.
  - destruct (String.eqb k k') eqn:E; cbn [lookup]; rewrite E; [reflexivity | exact IH].
Qed.

Lemma lookup_store_other (k k' : string) (v : V) (d : list (string * V)) :
  k <> k' -> lookup k (store k' v d) = lookup k d.
Proof.
  intros Hne. induction d as [|[k2 v2] d IH]; cbn [store lookup].
  - apply String.eqb_neq in Hne. now rewrite Hne.
  - destruct (String.eqb k' k2) eqn:E; cbn [lookup].
    + apply String.eqb_eq in E. subst k2.
      apply String.eqb_neq in Hne. now rewrite Hne.
    + destruct (String.eqb k k2); [reflexivity | exact IH].
Qed.

Lemma store_keys (k k' : string) (v : V) (d : list (string * V)) :
  In k (keys (store k' v d)) -> k = k' \/ In k (keys d).
Proof.
  induction d as [|[k2 v2] d IH]; cbn [store keys map fst In].
  - intros [H | []]. now left.
  - destruct (String.eqb k' k2) eqn:E; cbn [map fst In].
    + intros H. right. exact H.
    + intros [H | H]; [right; now left|].
      destruct (IH H) as [H1 | H1]; [now left | right; now right].
Qed.

Lemma store_nonempty (k : string) (v : V) (d : list (string * V)) :
  store k v d <> [].
Proof.
  destruct d as [|[k' v'] d]; cbn [store]; [discriminate|].
  destruct (String.eqb k k'); discriminate.
Qed.

Variable step : list (string * V) -> string -> list (string * V).
Hypothesis step_stores : forall d food, exists v, step d food = store food v d.

Lemma fold_store_keys (foods : list string) (d : list (string * V)) (k : string) :
  In k (keys (fold_left step foods d)) -> In k (keys d) \/ In k foods.
Proof.
  revert d. induction foods as [|f foods IH]; intros d; cbn [fold_left]; [now left|].
  intros H. destruct (IH _ H) as [H1 | H1]; [|right; now right].
  destruct (step_stores d f) as [v Hv]. rewrite Hv in H1.
  destruct (store_keys _ _ _ _ H1) as [-> | H2]; [right; now left | now left].
Qed.

Lemma fold_store_nonempty (foods : list string) (d : list (string * V)) :
  d <> [] \/ foods <> [] -> fold_left step foods d <> [].
Proof.
  revert d. induction foods as [|f foods IH]; intros d; cbn [fold_left].
  - intros [H | H]; [exact H | congruence].
  - intros _. apply IH. left.
    destruct (step_stores d f) as [v ->]. apply store_nonempty.
Qed.

End StoreFacts.

Section HyperFacts.

Variable usda_search : string -> option usda_food.
Variable nutritionix_request : string -> Q -> option NutritionalInfo.

(** The distribution covers labels of the list only, and is not empty. *)
Lemma estimate_returns (foods : list string) (w : Q) :
  foods <> [] ->
  exists d,
    _estimate_weight_distribution foods w = Return d
    /\ d <> []
    /\ forall k, In k (keys d) -> In k foods.
Proof.
  intros Hne. unfold _estimate_weight_distribution.
  destruct (Qeq_bool _ 0).
  - rewrite truediv_defined by (now apply len_nonzero). cbn [bind].
    eexists. split; [reflexivity|]. split.
    + apply fold_store_nonempty; [intros d food; eauto | now right].
    + intros k Hk. apply fold_store_keys in Hk; [|intros d food; eauto].
      destruct Hk as [[] | Hk]. exact Hk.
  - eexists. split; [reflexivity|].
    assert (Hst : forall d food, exists v,
               assign_step (fold_left count_step foods (mk_portions 0 0 0))
                 (main_weight (fold_left count_step foods (mk_portions 0 0 0))
                  + veggie_weight (fold_left count_step foods (mk_portions 0 0 0))
                  + sauce_weight (fold_left count_step foods (mk_portions 0 0 0)))
                 w (len foods) d food = store food v d).
    { intros d food. unfold assign_step. destruct (branch_of food); eauto. }
    split.
    + apply fold_store_nonempty; [exact Hst | now right].
    + intros k Hk. apply fold_store_keys in Hk; [|exact Hst].
      destruct Hk as [[] | Hk]. exact Hk.
Qed.

(** The loop over the components keeps the weight and the source of the
    combined record. *)
Lemma component_loop_keeps (d : list (string * Q)) (st : NutritionalInfo * Q) :
  h_weight_grams (fst (fold_left (component_step usda_search) d st))
  = h_weight_grams (fst st)
  /\ h_data_source (fst (fold_left (component_step usda_search) d st))
     = h_data_source (fst st).
Proof.
  revert st. induction d as [|[food w] d IH]; intros [c t]; cbn [fold_left]; [now split|].
  destruct (IH (component_step usda_search (c, t) (food, w))) as [H1 H2].
  rewrite H1, H2. unfold component_step.
  destruct (_get_single_food_nutrition usda_search food w); now split.
Qed.

Lemma component_loop_miss (d : list (string * Q)) (st : NutritionalInfo * Q) :
  (forall food, In food (keys d) ->
                forall w, _get_single_food_nutrition usda_search food w = None) ->
  fold_left (component_step usda_search) d st = st.
Proof.
  revert st. induction d as [|[food w] d IH]; intros [c t] H; cbn [fold_left]; [reflexivity|].
  unfold component_step at 2. rewrite (H food (or_introl eq_refl) w).
  apply IH. intros f Hf. apply H. now right.
Qed.

Lemma multi_food_returns (foods : list string) (w : Q) :
  (1 < List.length foods)%nat ->
  exists i,
    _calculate_multi_food_ai_enhanced usda_search foods w = Return (Some i)
    /\ h_weight_grams i = w
    /\ h_data_source i = "ai_enhanced_multi_food".
Proof.
  intros Hlen. unfold _calculate_multi_food_ai_enhanced.
  assert (E : (List.length foods <=? 1)%nat = false) by (apply Nat.leb_gt; exact Hlen).
  rewrite E.
  destruct (estimate_returns foods w) as (d & Hd & Hne & _).
  { intros ->. cbn in Hlen. lia. }
  rewrite Hd. cbn [bind].
  pose proof (component_loop_keeps d
                (mk_hyper (join " + " foods) 0 0 0 0 0 0 0 w 0.0 "ai_enhanced_multi_food", 0))
    as [Hw Hs].
  destruct (fold_left _ d _) as [c t]. cbn [fst h_weight_grams h_data_source] in Hw, Hs.
  assert (E2 : (0 <? List.length d)%nat = true).
  { apply Nat.ltb_lt. destruct d; [congruence | cbn; lia]. }
  rewrite E2. rewrite truediv_defined by (now apply len_nonzero). cbn [bind].
  eexists. split; [reflexivity|]. split; [exact Hw | exact Hs].
Qed.

(** The cascade from its fourth step on. *)
Lemma cascade_tail (name : string) (w : Q) (foods : list string) :
  exists r,
    (ai_result <-
       (if (1 <? List.length foods)%nat
        then _calculate_multi_food_ai_enhanced usda_search foods w
        else Return None) ;;
     match ai_result with
     | Some i => Return (_format_nutrition_result i)
     | None =>
         match _get_pattern_based_nutrition name w with
         | Some i => Return (_format_nutrition_result i)
         | None => Return (_format_nutrition_result (_get_fallback_nutrition name w))
         end
     end) = Return r
    /\ weight_grams r = w
    /\ ((data_source r = "ai_enhanced_multi_food" /\ (1 < List.length foods)%nat)
        \/ (data_source r = "enhanced_pattern_matching"
            /\ confidence_score r = Some 0.75)
        \/ (data_source r = "conservative_fallback"
            /\ confidence_score r = Some 0.2)).
Proof.
  destruct (1 <? List.length foods)%nat eqn:E.
  - apply Nat.ltb_lt in E.
    destruct (multi_food_returns foods w E) as (i & Hi & Hw & Hs).
    rewrite Hi. cbn [bind]. eexists. split; [reflexivity|].
    cbn [_format_nutrition_result weight_grams data_source].
    split; [exact Hw|]. left. split; [exact Hs | exact E].
  - cbn [bind]. unfold _get_pattern_based_nutrition.
    destruct (get_enhanced_nutrition_data name).
    + eexists. split; [reflexivity|]. split; [reflexivity|].
      right. left. split; reflexivity.
    + eexists. split; [reflexivity|]. split; [reflexivity|].
      right. right. split; reflexivity.
Qed.

End HyperFacts.

(** X25.  [calculate_hyper_accurate_calories] always returns a record at
    the requested weight, from one of five sources, and the confidence is
    fixed by the source: 0.95 branded, 0.85 government data, 0.75 pattern
    matching, 0.2 fallback; the multi-food source needs a list of two
    labels or more.  The commercial service is never a source: its ids
    are unset. *)
Theorem hyper_record_keeps_the_weight_and_ranks_its_source :
  forall (usda_search : string -> option usda_food)
         (nutritionix_request : string -> Q -> option NutritionalInfo)
         (recognition : recognition_result),
  exists r,
    calculate_hyper_accurate_calories usda_search nutritionix_request recognition
    = Return r
    /\ weight_grams r = get (estimated_weight recognition) 100
    /\ ((data_source r = "branded_database" /\ confidence_score r = Some 0.95)
        \/ (data_source r = "usda_fdc" /\ confidence_score r = Some 0.85)
        \/ (data_source r = "ai_enhanced_multi_food"
            /\ exists foods, all_foods recognition = Some foods
                             /\ (1 < List.length foods)%nat)
        \/ (data_source r = "enhanced_pattern_matching"
            /\ confidence_score r = Some 0.75)
        \/ (data_source r = "conservative_fallback"
            /\ confidence_score r = Some 0.2)).
Proof.
  intros usda nix rr. unfold calculate_hyper_accurate_calories.
  set (name := strip _). set (w := get (estimated_weight rr) 100).
  assert (Htail : exists r,
            (ai_result <-
               (if (1 <? List.length
                           (match all_foods rr with Some l => l | None => [name] end))%nat
                then _calculate_multi_food_ai_enhanced usda
                       (match all_foods rr with Some l => l | None => [name] end) w
                else Return None) ;;
             match ai_result with
             | Some i => Return (_format_nutrition_result i)
             | None =>
                 match _get_pattern_based_nutrition name w with
                 | Some i => Return (_format_nutrition_result i)
                 | None => Return (_format_nutrition_result (_get_fallback_nutrition name w))
                 end
             end) = Return r
            /\ weight_grams r = w
            /\ ((data_source r = "branded_database" /\ confidence_score r = Some 0.95)
                \/ (data_source r = "usda_fdc" /\ confidence_score r = Some 0.85)
                \/ (data_source r = "ai_enhanced_multi_food"
                    /\ exists foods, all_foods rr = Some foods
                                     /\ (1 < List.length foods)%nat)
                \/ (data_source r = "enhanced_pattern_matching"
                    /\ confidence_score r = Some 0.75)
                \/ (data_source r = "conservative_fallback"
                    /\ confidence_score r = Some 0.2))).
  { destruct (cascade_tail usda name w
                (match all_foods rr with Some l => l | None => [name] end))
      as (r & Hr & Hw & Hs).
    exists r. split; [exact Hr|]. split; [exact Hw|].
    destruct Hs as [[Hs Hlen] | [Hs | Hs]].
    - right. right. left. split; [exact Hs|].
      destruct (all_foods rr) as [l|]; [now exists l | cbn in Hlen; lia].
    - right. right. right. left. exact Hs.
    - right. right. right. right. exact Hs. }
  unfold _get_branded_nutrition.
  destruct (first_brand _ _) as [b|].
  { cbn [confident h_confidence_score]. eexists. split; [reflexivity|].
    split; [reflexivity|]. left. split; reflexivity. }
  cbn [confident].
  unfold _get_usda_nutrition.
  destruct (usda name) as [best|].
  - destruct (_parse_usda_nutrients best) as [|n ns].
    + cbn [confident]. exact Htail.
    + cbn [confident h_confidence_score]. eexists. split; [reflexivity|].
      split; [reflexivity|]. right. left. split; reflexivity.
  - cbn [confident]. exact Htail.
Qed.

(** X26.  A plate of two labels or more none of which any source knows
    does not reach the fallback of 2 kcal per gram: the multi-food step
    returns its empty sum, so the record has 0 kcal, no macros and
    confidence 0 at the full weight. *)
Theorem unknown_plate_is_reported_at_zero_calories :
  forall (usda_search : string -> option usda_food)
         (nutritionix_request : string -> Q -> option NutritionalInfo)
         (recognition : recognition_result) (name : string) (foods : list string),
    primary_food recognition = Some name ->
    all_foods recognition = Some foods ->
    (1 < List.length foods)%nat ->
    (forall w, _get_single_food_nutrition usda_search (strip name) w = None) ->
    (forall food, In food foods ->
                  forall w, _get_single_food_nutrition usda_search food w = None) ->
    exists r c,
      calculate_hyper_accurate_calories usda_search nutritionix_request recognition
      = Return r
      /\ data_source r = "ai_enhanced_multi_food"
      /\ food_name r = Some (join " + " foods)
      /\ weight_grams r = get (estimated_weight recognition) 100
      /\ total_calories r == 0 /\ protein r == 0 /\ carbs r == 0 /\ fat r == 0
      /\ confidence_score r = Some c /\ c == 0.
Proof.
  intros usda nix rr name foods Hname Hfoods Hlen Hprimary Hmiss.
  unfold calculate_hyper_accurate_calories. rewrite Hname, Hfoods.
  set (w := get (estimated_weight rr) 100).
  pose proof (Hprimary w) as Hp. unfold _get_single_food_nutrition in Hp.
  destruct (_get_branded_nutrition (strip name) w); [discriminate|].
  destruct (_get_usda_nutrition usda (strip name) w); [discriminate|].
  cbn [confident].
  apply Nat.ltb_lt in Hlen. rewrite Hlen. apply Nat.ltb_lt in Hlen.
  unfold _calculate_multi_food_ai_enhanced.
  assert (E : (List.length foods <=? 1)%nat = false) by (apply Nat.leb_gt; exact Hlen).
  rewrite E.
  destruct (estimate_returns foods w) as (d & Hd & Hne & Hkeys).
  { intros ->. cbn in Hlen. lia. }
  rewrite Hd. cbn [bind].
  rewrite (component_loop_miss usda d).
  2:{ intros food Hin. apply Hmiss. now apply Hkeys. }
  assert (E2 : (0 <? List.length d)%nat = true).
  { apply Nat.ltb_lt. destruct d; [congruence | cbn; lia]. }
  rewrite E2. rewrite truediv_defined by (now apply len_nonzero). cbn [bind].
  eexists. exists (0 / len d). split; [reflexivity|].
  cbn [_format_nutrition_result set_confidence_score data_source food_name weight_grams
       total_calories protein carbs fat confidence_score h_food_name h_calories
       h_protein h_carbs h_fat h_weight_grams h_confidence_score h_data_source].
  repeat split; try reflexivity.
Qed.

Lemma unknown_plate_witness :
  (exists r,
     calculate_hyper_accurate_calories (fun _ => None) (fun _ _ => None)
       (mk_recognition (Some "unknown") (Some 300) None) = Return r
     /\ data_source r = "conservative_fallback" /\ total_calories r == 600)
  /\ exists r c,
       calculate_hyper_accurate_calories (fun _ => None) (fun _ _ => None)
         (mk_recognition (Some "unknown") (Some 300) (Some ["unknown"; "mystery"]))
       = Return r
       /\ data_source r = "ai_enhanced_multi_food"
       /\ food_name r = Some (join " + " ["unknown"; "mystery"])
       /\ weight_grams r = get (Some 300) 100
       /\ total_calories r == 0 /\ protein r == 0 /\ carbs r == 0 /\ fat r == 0
       /\ confidence_score r = Some c /\ c == 0.
Proof.
  split.
  - eexists. split; [vm_compute; reflexivity|]. split; vm_compute; reflexivity.
  - apply (unknown_plate_is_reported_at_zero_calories (fun _ => None) (fun _ _ => None)
             (mk_recognition (Some "unknown") (Some 300) (Some ["unknown"; "mystery"]))
             "unknown" ["unknown"; "mystery"]).
    + reflexivity.
    + reflexivity.
    + simpl. lia.
    + intros w. reflexivity.
    + intros food [<- | [<- | []]] w; reflexivity.
Defined.

Section ParseFacts.

(** Entries stored under other keys leave the value of a key alone. *)
Lemma parse_tail_keeps (key : string) (v : Q) (after acc : list (string * Q)) :
  lookup key acc = Some v ->
  (forall n a, In (n, a) after -> nutrient_key n <> Some key) ->
  lookup key (fold_left parse_step after acc) = Some v.
Proof.
  revert acc. induction after as [|[n a] after IH]; intros acc H Hafter;
    cbn [fold_left]; [exact H|].
  apply IH.
  - unfold parse_step. destruct (nutrient_key n) as [k|] eqn:Ek; [|exact H].
    rewrite lookup_store_other; [exact H|].
    intros ->. apply (Hafter n a); [now left | exact Ek].
  - intros n' a' Hin. apply (Hafter n' a'). now right.
Qed.

End ParseFacts.

(** X27.  In [_parse_usda_nutrients] the last nutrient that the chain
    files under a key decides the value of the key.  The test for fat is
    a substring test on "Fat", so a later "Fatty acids, total saturated"
    replaces the total fat. *)
Theorem last_nutrient_of_a_key_wins :
  forall (d : option string) (before after : list (string * Q))
         (name key : string) (amount : Q),
    nutrient_key name = Some key ->
    (forall n a, In (n, a) after -> nutrient_key n <> Some key) ->
    lookup key (_parse_usda_nutrients
                  (mk_usda_food d (before ++ (name, amount) :: after)))
    = Some amount.
Proof.
  intros d before after name key amount Hkey Hafter.
  unfold _parse_usda_nutrients. cbn [foodNutrients].
  rewrite fold_left_app. cbn [fold_left]. unfold parse_step at 2. rewrite Hkey.
  apply parse_tail_keeps; [apply lookup_store_same | exact Hafter].
Qed.

Lemma last_nutrient_witness :
  nutrient_key "Fatty acids, total saturated" = Some "Total lipid (fat)"
  /\ lookup "Total lipid (fat)"
       (_parse_usda_nutrients
          (mk_usda_food None
             ([("Energy", 250); ("Total lipid (fat)", 10)]
              ++ ("Fatty acids, total saturated", 3) :: [("Sodium, Na", 500)])))
     = Some 3.
Proof.
  split; [reflexivity|].
  apply (last_nutrient_of_a_key_wins None [("Energy", 250); ("Total lipid (fat)", 10)]
           [("Sodium, Na", 500)] "Fatty acids, total saturated" "Total lipid (fat)" 3).
  - reflexivity.
  - intros n a [[= <- <-] | []]. discriminate.
Defined.

Section FuzzyFacts.

Lemma hyper_max_ge_one (x : Q) : 1 <= HyperAccurateCascade.max 1 x.
Proof.
  unfold HyperAccurateCascade.max. destruct (Qlt_bool 1 x) eqn:E.
  - apply Qlt_bool_iff in E. lra.
  - lra.
Qed.

Lemma hyper_min_le_l (a b : Q) : HyperAccurateCascade.min a b <= a.
Proof.
  unfold HyperAccurateCascade.min. destruct (Qlt_bool b a) eqn:E.
  - apply Qlt_bool_iff in E. lra.
  - lra.
Qed.

End FuzzyFacts.

(** X28.  [_fuzzy_match]: a label of one word matches every key that
    holds this word, and a label that differs from the key and shares no
    word with it never matches. *)
Theorem one_shared_word_is_enough_for_a_one_word_label :
  forall input_text database_key : string,
    (forall word,
        set (split (lower input_text)) = [word] ->
        mem word (set (split (lower database_key))) = true ->
        _fuzzy_match input_text database_key = true)
    /\ (input_text <> database_key ->
        inter (set (split (lower input_text))) (set (split (lower database_key))) = [] ->
        _fuzzy_match input_text database_key = false).
Proof.
  intros a k. split.
  - intros word Hone Hmem. unfold _fuzzy_match.
    destruct (String.eqb a k); [reflexivity|].
    rewrite Hone. unfold inter. cbn [filter]. rewrite Hmem.
    apply Qle_bool_iff.
    pose proof (hyper_min_le_l (len [word]) (len (set (split (lower k))))) as Hmin.
    set (m := HyperAccurateCascade.min _ _) in *.
    assert (H1 : len [word] == 1) by reflexivity.
    unfold HyperAccurateCascade.max.
    destruct (Qlt_bool 1 (m * 0.7)) eqn:E.
    + apply Qlt_bool_iff in E. lra.
    + lra.
  - intros Hne Hinter. unfold _fuzzy_match.
    apply String.eqb_neq in Hne. rewrite Hne, Hinter.
    apply not_true_iff_false. rewrite Qle_bool_iff.
    pose proof (hyper_max_ge_one
                  (HyperAccurateCascade.min (len (set (split (lower a))))
                     (len (set (split (lower k)))) * 0.7)) as H.
    intros H0. assert (E : len (@nil string) == 0) by reflexivity. lra.
Qed.

Lemma one_shared_word_witness :
  _fuzzy_match "cheese" "quarter pounder with cheese" = true
  /\ _fuzzy_match "chicken nuggets" "quarter pounder with cheese" = false
  /\ exists r,
       calculate_hyper_accurate_calories (fun _ => None) (fun _ _ => None)
         (mk_recognition (Some "Cheese") (Some 194) None) = Return r
       /\ food_name r = Some "McDonald's Quarter Pounder with Cheese"
       /\ total_calories r == 540
       /\ confidence_score r = Some 0.95.
Proof.
  split; [|split].
  - apply (proj1 (one_shared_word_is_enough_for_a_one_word_label "cheese"
                    "quarter pounder with cheese") "cheese"); reflexivity.
  - apply (proj2 (one_shared_word_is_enough_for_a_one_word_label "chicken nuggets"
                    "quarter pounder with cheese")); [discriminate | reflexivity].
  - eexists. split; [vm_compute; reflexivity|].
    split; [reflexivity|]. split; [vm_compute; reflexivity | reflexivity].
Defined.

Section BrandedFacts.

Lemma first_brand_In (food_lower : string) (items : list (string * branded))
  (d : branded) :
  first_brand food_lower items = Some d ->
  exists key, In (key, d) items /\ _fuzzy_match food_lower key = true.
Proof.
  induction items as [|[k v] items IH]; cbn [first_brand]; [discriminate|].
  destruct (_fuzzy_match food_lower k) eqn:E.
  - intros [= <-]. exists k. split; [now left | exact E].
  - intros H. destruct (IH H) as (key & Hin & Hm). exists key. split; [now right | exact Hm].
Qed.

Lemma branded_servings_positive :
  forallb (fun row => Qlt_bool 0 (serving_weight (snd row)))
    _load_branded_foods_database = true.
Proof. reflexivity. Qed.

Lemma scale_nutrition_value (v s w : Q) :
  0 < s -> _scale_nutrition v s w == v * (w / s).
Proof.
  intros Hs. unfold _scale_nutrition.
  assert (E : Qeq_bool s 0 = false) by (apply Qeq_bool_false_iff; lra).
  rewrite E. field. lra.
Qed.

End BrandedFacts.

(** X29.  A record of [_get_branded_nutrition] is a row of the branded
    table whose key matches the label, scaled by requested weight over
    serving weight; at the serving weight it reports the calories of the
    label. *)
Theorem branded_values_are_the_label_scaled_by_weight :
  forall (food_name : string) (weight_grams : Q) (i : NutritionalInfo),
    _get_branded_nutrition food_name weight_grams = Some i ->
    exists key row,
      In (key, row) _load_branded_foods_database
      /\ _fuzzy_match (strip (lower food_name)) key = true
      /\ h_weight_grams i = weight_grams
      /\ h_calories i == b_calories row * (weight_grams / serving_weight row)
      /\ h_protein i == b_protein row * (weight_grams / serving_weight row)
      /\ h_carbs i == b_carbs row * (weight_grams / serving_weight row)
      /\ h_fat i == b_fat row * (weight_grams / serving_weight row)
      /\ (weight_grams == serving_weight row -> h_calories i == b_calories row).
Proof.
  intros name w i. unfold _get_branded_nutrition.
  destruct (first_brand _ _) as [row|] eqn:E; [|discriminate].
  intros [= <-]. destruct (first_brand_In _ _ _ E) as (key & Hin & Hm).
  exists key, row. split; [exact Hin|]. split; [exact Hm|].
  pose proof branded_servings_positive as Hall. rewrite forallb_forall in Hall.
  specialize (Hall (key, row) Hin). cbn [snd] in Hall. apply Qlt_bool_iff in Hall.
  cbn [h_weight_grams h_calories h_protein h_carbs h_fat].
  split; [reflexivity|].
  repeat split; try (now apply scale_nutrition_value).
  intros Hw. rewrite (scale_nutrition_value _ _ _ Hall), Hw. field. lra.
Qed.

Lemma branded_values_witness :
  exists i,
    _get_branded_nutrition "Whopper" 582 = Some i
    /\ exists key row,
         In (key, row) _load_branded_foods_database
         /\ _fuzzy_match (strip (lower "Whopper")) key = true
         /\ h_weight_grams i = 582
         /\ h_calories i == b_calories row * (582 / serving_weight row)
         /\ h_protein i == b_protein row * (582 / serving_weight row)
         /\ h_carbs i == b_carbs row * (582 / serving_weight row)
         /\ h_fat i == b_fat row * (582 / serving_weight row)
         /\ (582 == serving_weight row -> h_calories i == b_calories row).
Proof.
  eexists. split; [reflexivity|].
  apply (branded_values_are_the_label_scaled_by_weight "Whopper" 582 _ eq_refl).
Defined.

(* ================================================================== *)
(** * The reply parser of web_search_nutrition.py *)
(* ================================================================== *)

Import ReplyParser.

Section SpanFacts.

Lemma find_first (c : ascii) (pre r : string) :
  find c pre = None -> find c (pre ++ String c r) = Some (String.length pre).
Proof.
  induction pre as [|x pre IH]; cbn [find append String.length].
  - intros _. now rewrite Ascii.eqb_refl.
  - destruct (Ascii.eqb x c); [discriminate|].
    destruct (find c pre); [discriminate|]. intros _. now rewrite IH.
Qed.

Lemma rfind_last (c : ascii) (a post : string) :
  rfind c post = None -> rfind c (a ++ String c post) = Some (String.length a).
Proof.
  intros H. induction a as [|x a IH]; cbn [rfind append String.length].
  - now rewrite H, Ascii.eqb_refl.
  - now rewrite IH.
Qed.

Lemma append_assoc_string (a b c : string) : (a ++ b) ++ c = a ++ b ++ c.
Proof.
  induction a as [|x a IH]; cbn [append]; [reflexivity | now rewrite IH].
Qed.

Lemma length_append_string (a b : string) :
  String.length (a ++ b) = (String.length a + String.length b)%nat.
Proof.
  induction a as [|x a IH]; cbn [append String.length]; [reflexivity | now rewrite IH].
Qed.

End SpanFacts.

Section SpanOfReply.

Variable J : Type.
Variable loads : string -> exc J.

Lemma parse_between (content : string) (start stop : nat) :
  find "{" content = Some start ->
  rfind "}" content = Some stop ->
  (start <= stop)%nat ->
  _parse_nutrition_json J loads content
  = try_except
      (x <- loads (substring start (S stop - start) content) ;; Return (Some x)) None.
Proof.
  intros Hs He Hle. unfold _parse_nutrition_json. rewrite Hs, He.
  assert (Hlt : (start <? S stop)%nat = true) by (apply Nat.ltb_lt; lia).
  rewrite Hlt. reflexivity.
Qed.

Lemma parse_span (pre body post : string) :
  find "{" pre = None ->
  rfind "}" post = None ->
  _parse_nutrition_json J loads (pre ++ "{" ++ body ++ "}" ++ post)
  = try_except (x <- loads ("{" ++ body ++ "}") ;; Return (Some x)) None.
Proof.
  intros Hpre Hpost.
  assert (Hs : find "{" (pre ++ "{" ++ body ++ "}" ++ post) = Some (String.length pre)).
  { change ("{" ++ body ++ "}" ++ post) with (String "{" (body ++ "}" ++ post)).
    now apply find_first. }
  assert (He : rfind "}" (pre ++ "{" ++ body ++ "}" ++ post)
               = Some (String.length (pre ++ "{" ++ body))).
  { rewrite <- (rfind_last "}" (pre ++ "{" ++ body) post Hpost).
    f_equal. rewrite !append_assoc_string. reflexivity. }
  rewrite (parse_between _ _ _ Hs He).
  2:{ rewrite length_append_string. lia. }
  assert (Hlen : (S (String.length (pre ++ "{" ++ body)) - String.length pre)%nat
                 = String.length ("{" ++ body ++ "}")).
  { rewrite !length_append_string. cbn [String.length]. lia. }
  rewrite Hlen.
  assert (Hc : pre ++ "{" ++ body ++ "}" ++ post = pre ++ ("{" ++ body ++ "}") ++ post).
  { f_equal. rewrite !append_assoc_string. reflexivity. }
  rewrite Hc, substring_middle. reflexivity.
Qed.

End SpanOfReply.

(** X30.  [_parse_nutrition_json] hands [json.loads] the text from the
    first opening brace to the last closing brace: whatever the model
    writes before the object (without an opening brace) or after it
    (without a closing brace) does not change the result, which is the
    value [json.loads] builds for the object, or [None] when it raises. *)
Theorem text_around_the_braces_is_ignored :
  forall (J : Type) (loads : string -> exc J) (pre body post : string),
    find "{" pre = None ->
    rfind "}" post = None ->
    _parse_nutrition_json J loads (pre ++ "{" ++ body ++ "}" ++ post)
    = try_except (x <- loads ("{" ++ body ++ "}") ;; Return (Some x)) None
    /\ _parse_nutrition_json J loads (pre ++ "{" ++ body ++ "}" ++ post)
       = _parse_nutrition_json J loads ("{" ++ body ++ "}").
Proof.
  intros J loads pre body post Hpre Hpost.
  split; [now apply parse_span|].
  rewrite (parse_span J loads pre body post Hpre Hpost).
  symmetry. exact (parse_span J loads "" body "" eq_refl eq_refl).
Qed.

Lemma braces_witness :
  find "{" "Here is the data: " = None
  /\ rfind "}" " Hope this helps!" = None
  /\ _parse_nutrition_json string (fun s => Return s)
       ("Here is the data: " ++ "{" ++ "calories: 570" ++ "}" ++ " Hope this helps!")
     = Some "{calories: 570}".
Proof.
  split; [reflexivity|]. split; [reflexivity|].
  apply (text_around_the_braces_is_ignored string (fun s => Return s)
           "Here is the data: " "calories: 570" " Hope this helps!"); reflexivity.
Defined.
